(** * Entra Verified ID apps: the request tracker of the issue and verify services

    A shallow embedding of [issue-app/server.js] and [verify-app/server.js].
    Both services keep a [requestStore] (a JavaScript [Map] keyed by the
    generated request id), create an entry after the external platform
    accepted a request, update it from the platform's callback and serve it
    from a status endpoint.

    JavaScript values are embedded as [JsVal]; handlers run in a small
    state-and-exception monad over the request store and a log of the
    outbound calls; everything the outside world decides (token
    acquisition, HTTP calls, [uuidv4], [Math.random], the clock) is read
    from a [World].

    Not modelled: what the console prints, the static files, the health
    route, and the start-up check that exits when a required setting is
    missing (the handlers below belong to a process that started).  A
    template literal converts the values it interpolates to strings, and
    that conversion throws for some objects: where a handler logs a
    template literal over request data, the conversion is part of the
    handler.  A string is a sequence of code units below 256.  A request
    is taken as the body parsers of server.js left it. *)

From Stdlib Require Import ZArith QArith Ascii String List Lia.
From Stdlib.Strings Require Import Byte.
From stdpp Require Import base option gmap strings list.

Set Warnings "-register-all".

Local Open Scope string_scope.
Local Open Scope list_scope.
Local Open Scope Z_scope.

(** ** JavaScript values *)

Module Js.

(** The three binary object kinds [getUserPhoto] distinguishes. *)
Inductive BinaryKind := KBuffer | KBlob | KArrayBuffer.

(** Values as the handlers see them: what [JSON.parse] produces, plus
    [undefined], [Date] objects and binary objects.  A number is a
    rational (the handlers only copy numbers and test their sign); an
    object is its list of own properties in insertion order. *)
Inductive JsVal :=
  | JUndefined
  | JNull
  | JBool (b : bool)
  | JNum (q : Q)
  | JStr (s : string)
  | JArr (items : list JsVal)
  | JObj (props : list (string * JsVal))
  | JDate (ms : Z)
  | JBin (k : BinaryKind) (bytes : list byte).

(** An [Error] object: its [message], and the [errorCode] MSAL errors carry. *)
Record JsError := mkError { errorCode : option string; message : string }.

Definition Error (msg : string) : JsError := mkError None msg.

(** The result of evaluating an expression or awaiting a promise. *)
Inductive Outcome (A : Type) :=
  | Ok (a : A)
  | Throw (e : JsError).
Arguments Ok {A} a.
Arguments Throw {A} e.

(** ToBoolean. *)
Definition truthy (v : JsVal) : bool :=
  match v with
  | JUndefined | JNull => false
  | JBool b => b
  | JNum q => negb (Qnum q =? 0)%Z
  | JStr s => negb (String.eqb s "")
  | JArr _ | JObj _ | JDate _ | JBin _ _ => true
  end.

Definition nullish (v : JsVal) : bool :=
  match v with
  | JUndefined | JNull => true
  | _ => false
  end.

(** [a || b] on values already evaluated. *)
Definition jsOr (a b : JsVal) : JsVal := if truthy a then a else b.

(** [v === s] for a string literal [s]. *)
Definition strictEqStr (v : JsVal) (s : string) : bool :=
  match v with
  | JStr t => String.eqb t s
  | _ => false
  end.

Fixpoint lookupProp (props : list (string * JsVal)) (name : string) : JsVal :=
  match props with
  | [] => JUndefined
  | (k, v) :: rest => if String.eqb k name then v else lookupProp rest name
  end.

(** [obj[name] = v] on an object literal: an existing property keeps its
    place, a new one is appended. *)
Fixpoint assignProp (props : list (string * JsVal)) (name : string) (v : JsVal)
  : list (string * JsVal) :=
  match props with
  | [] => [(name, v)]
  | (k, w) :: rest =>
      if String.eqb k name then (k, v) :: rest
      else (k, w) :: assignProp rest name v
  end.

Definition typeErrorRead (v : JsVal) (name : string) : JsError :=
  Error ("Cannot read properties of "
         +:+ (match v with JNull => "null" | _ => "undefined" end)
         +:+ " (reading '" +:+ name +:+ "')").

(** [v.name] for the property names the services read (none of them is an
    index or lives on a prototype).  Reading a property of [null] or
    [undefined] throws a TypeError; a primitive, a Date or a binary object
    has none of these properties. *)
Definition getProp (v : JsVal) (name : string) : Outcome JsVal :=
  match v with
  | JUndefined | JNull => Throw (typeErrorRead v name)
  | JObj props => Ok (lookupProp props name)
  | _ => Ok JUndefined
  end.

(** [v.length]; the characters of a string are its code units. *)
Definition getLength (v : JsVal) : Outcome JsVal :=
  match v with
  | JUndefined | JNull => Throw (typeErrorRead v "length")
  | JArr items => Ok (JNum (inject_Z (Z.of_nat (List.length items))))
  | JStr s => Ok (JNum (inject_Z (Z.of_nat (String.length s))))
  | JBin KBuffer bytes => Ok (JNum (inject_Z (Z.of_nat (List.length bytes))))
  | JObj props => Ok (lookupProp props "length")
  | _ => Ok JUndefined
  end.

(** [v[0]]. *)
Definition getIndex0 (v : JsVal) : Outcome JsVal :=
  match v with
  | JUndefined | JNull => Throw (typeErrorRead v "0")
  | JArr items => Ok (List.hd JUndefined items)
  | JStr s => Ok (match s with
                  | EmptyString => JUndefined
                  | String c _ => JStr (String c EmptyString)
                  end)
  | JBin KBuffer bytes =>
      Ok (match bytes with
          | [] => JUndefined
          | b :: _ => JNum (inject_Z (Z.of_N (Byte.to_N b)))
          end)
  | JObj props => Ok (lookupProp props "0")
  | _ => Ok JUndefined
  end.

Definition obind {A B} (o : Outcome A) (k : A -> Outcome B) : Outcome B :=
  match o with
  | Ok a => k a
  | Throw e => Throw e
  end.

(** [a || b] where evaluating either side may throw; [b] is only
    evaluated when [a] is falsy. *)
Definition orElse (a b : Outcome JsVal) : Outcome JsVal :=
  obind a (fun x => if truthy x then Ok x else b).

(** [items.find(pred)]. *)
Fixpoint findFirst (pred : JsVal -> Outcome bool) (items : list JsVal)
  : Outcome JsVal :=
  match items with
  | [] => Ok JUndefined
  | c :: rest =>
      obind (pred c) (fun hit => if hit then Ok c else findFirst pred rest)
  end.

(** [s.split(' ')]. *)
Fixpoint splitSpace (s : string) : list string :=
  match s with
  | EmptyString => [EmptyString]
  | String c rest =>
      if Ascii.eqb c " "%char then EmptyString :: splitSpace rest
      else match splitSpace rest with
           | [] => [String c EmptyString]
           | part :: parts => String c part :: parts
           end
  end.

(** [parts.join(' ')]. *)
Fixpoint joinSpace (parts : list string) : string :=
  match parts with
  | [] => EmptyString
  | [part] => part
  | part :: rest => part +:+ " " +:+ joinSpace rest
  end.

(** Whether [name] is an own property of the object. *)
Definition hasKey (props : list (string * JsVal)) (name : string) : bool :=
  existsb (fun kv => String.eqb (fst kv) name) props.

(** Whether ToString returns for [v].  An object converts through its
    [toString] method: an own property of that name hides
    [Object.prototype.toString], none of the values here is callable, and
    [valueOf] gives back the object, so the conversion ends in a
    TypeError.  An array joins the conversions of its elements, [null]
    and [undefined] counting as empty. *)
Fixpoint stringifiable (v : JsVal) : bool :=
  match v with
  | JObj props => negb (hasKey props "toString")
  | JArr items => forallb stringifiable items
  | _ => true
  end.

Definition typeErrorPrimitive : JsError :=
  Error "Cannot convert object to primitive value".

(** A template literal over [v] whose text is only logged. *)
Definition printable (v : JsVal) : Outcome unit :=
  if stringifiable v then Ok tt else Throw typeErrorPrimitive.

(** [obj.name = v] for an object. *)
Definition setProp (obj : JsVal) (name : string) (v : JsVal) : JsVal :=
  match obj with
  | JObj props => JObj (assignProp props name v)
  | _ => obj
  end.

(** What the Node runtime and its libraries compute and the services only
    call: decoding of the identity header, string and number conversion of
    objects, [Buffer] construction and encoding. *)
Class Runtime := {
  (** [JSON.parse(Buffer.from(h, 'base64').toString('utf-8'))];
      [None] when [JSON.parse] throws. *)
  decodeBase64Json : string -> option JsVal;
  (** ToString of a number, array, object, Date or binary object, where
      it returns. *)
  objectToString : JsVal -> string;
  (** [v > 0] for a string, array, object or binary object [v]
      (ToNumber of its primitive value). *)
  coercedPositive : JsVal -> bool;
  (** [Buffer.from(v)] for a value that is no Buffer, Blob or
      ArrayBuffer; [None] when it throws. *)
  bufferFrom : JsVal -> option (list byte);
  (** [buffer.toString('base64')]. *)
  toBase64 : list byte -> string;
  encodeURIComponent : string -> string
}.

Section WithRuntime.
Context {rt : Runtime}.

(** The text ToString gives for a value it converts: an access token or
    a setting (strings), or a value that is [stringifiable]. *)
Definition ToString (v : JsVal) : string :=
  match v with
  | JUndefined => "undefined"
  | JNull => "null"
  | JBool true => "true"
  | JBool false => "false"
  | JStr s => s
  | _ => objectToString v
  end.

(** ToString, as a template literal applies it to request data. *)
Definition toStringOf (v : JsVal) : Outcome string :=
  if stringifiable v then Ok (ToString v) else Throw typeErrorPrimitive.

(** [v > 0]. *)
Definition gtZero (v : JsVal) : bool :=
  match v with
  | JUndefined | JNull => false
  | JBool b => b
  | JNum q => (0 <? Qnum q)%Z
  | JDate ms => (0 <? ms)%Z
  | _ => coercedPositive v
  end.

End WithRuntime.

End Js.

Import Js.

Notation "'let?' x := o 'in' k" := (obind o (fun x => k))
  (at level 10, x name, o at level 100, k at level 200).

(** ** Handlers as computations over the store and the outbound calls *)

(** What leaves the process while a request is handled. *)
Inductive Call :=
  | AcquireToken (scope : string)
  | AxiosPost (url : string) (document : JsVal) (authorization : string)
  | GraphGet (path : string).

(** What the outside decides while one request is handled.  The answers
    may depend on what is sent; [uuidv4 k] is the result of the [k]-th call
    of [uuidv4()], [mathRandom] the double [Math.random()] returns (see
    [Pin]), [now] the time [new Date()] reads. *)
Record World := {
  process_env : string -> option string;
  acquireTokenByClientCredential : string -> Outcome JsVal;
  axiosPost : string -> JsVal -> string -> Outcome JsVal;
  graphGet : string -> Outcome JsVal;
  uuidv4 : nat -> string;
  mathRandom : Z * Z;
  now : Z
}.

(** The state of a service: its [requestStore] and the calls made so far. *)
Record Machine (R : Type) := mkMachine {
  requestStore : gmap string R;
  calls : list Call
}.
Arguments mkMachine {R} _ _.
Arguments requestStore {R} _.
Arguments calls {R} _.

Module Eff.
Section Eff.
Context {S : Type}.

(** A computation returns or throws, and leaves a state either way.  A
    route handler that throws hands the error to Express, which answers
    500; the state it leaves is the one reached when it threw. *)
Definition Eff (A : Type) : Type := S -> Outcome A * S.

Definition ret {A} (a : A) : Eff A := fun s => (Ok a, s).

Definition throw {A} (e : JsError) : Eff A := fun s => (Throw e, s).

Definition bind {A B} (m : Eff A) (k : A -> Eff B) : Eff B :=
  fun s =>
    match m s with
    | (Ok a, s') => k a s'
    | (Throw e, s') => (Throw e, s')
    end.

(** [try { m } catch (error) { h error }]: what [m] did to the state
    before it threw stays done. *)
Definition tryCatch {A} (m : Eff A) (h : JsError -> Eff A) : Eff A :=
  fun s =>
    match m s with
    | (Ok a, s') => (Ok a, s')
    | (Throw e, s') => h e s'
    end.

Definition lift {A} (o : Outcome A) : Eff A := fun s => (o, s).

Definition gets {A} (f : S -> A) : Eff A := fun s => (Ok (f s), s).

Definition modify (f : S -> S) : Eff unit := fun s => (Ok tt, f s).

End Eff.
Arguments Eff : clear implicits.

Notation "'let*' x := m 'in' k" := (bind m (fun x => k))
  (at level 10, x name, m at level 100, k at level 200).
Notation "m ;;; k" := (bind m (fun _ => k))
  (at level 100, k at level 200, right associativity).
End Eff.
Import Eff.

Section Calls.
Context {R : Type}.

Definition record (c : Call) : Eff (Machine R) unit :=
  modify (fun s => mkMachine (requestStore s) (calls s ++ [c])).

(** [await] of an outbound call: the call is logged, the world answers. *)
Definition await {A} (c : Call) (answer : Outcome A) : Eff (Machine R) A :=
  record c ;;; lift answer.

(** [requestStore.get(id)]. *)
Definition storeGet (id : string) : Eff (Machine R) (option R) :=
  gets (fun s => requestStore s !! id).

(** [requestStore.set(id, r)]. *)
Definition storeSet (id : string) (r : R) : Eff (Machine R) unit :=
  modify (fun s => mkMachine (<[id := r]> (requestStore s)) (calls s)).

End Calls.

(** An HTTP response: the status and the object given to [res.json]. *)
Record Response := mkResponse { statusCode : Z; body : JsVal }.

(** [res.json(obj)] answers 200, [res.status(c).json(obj)] answers [c]. *)
Definition json (obj : JsVal) : Response := mkResponse 200 obj.

(** An incoming request: the headers Node lower-cases, and the parsed body. *)
Record Request := mkRequest {
  headers : gmap string string;
  req_body : JsVal
}.

(** ** The PIN code of the issue service *)

Module Pin.

(** StrWhiteSpaceChar among the code units below 256: tab, line feed,
    vertical tab, form feed, carriage return, space and no-break space. *)
Definition isStrWhiteSpace (c : ascii) : bool :=
  let n := nat_of_ascii c in
  ((9 <=? n)%nat && (n <=? 13)%nat) || (n =? 32)%nat || (n =? 160)%nat.

Fixpoint trimStart (s : string) : string :=
  match s with
  | String c rest => if isStrWhiteSpace c then trimStart rest else s
  | EmptyString => s
  end.

Definition digitValue (radix : Z) (c : ascii) : option Z :=
  let n := Z.of_nat (nat_of_ascii c) in
  let d := if (48 <=? n) && (n <=? 57) then n - 48
           else if (97 <=? n) && (n <=? 122) then n - 87
           else if (65 <=? n) && (n <=? 90) then n - 55
           else radix in
  if d <? radix then Some d else None.

(** The value of the longest prefix of digits; [acc] is [None] until a
    digit was read. *)
Fixpoint digitsPrefix (radix : Z) (s : string) (acc : option Z) : option Z :=
  match s with
  | String c rest =>
      match digitValue radix c with
      | Some d => digitsPrefix radix rest (Some (radix * default 0 acc + d))
      | None => acc
      end
  | EmptyString => acc
  end.

(** [parseInt(s)] without a radix: leading white space, a sign, a [0x]
    prefix, then the longest prefix of digits.  [None] is NaN.  The result
    is the mathematical integer: the rounding to a double that JavaScript
    applies to long inputs preserves the comparisons with 0 and 6 made on
    it, and [-0] compares as [0]. *)
Definition parseInt (s : string) : option Z :=
  let s1 := trimStart s in
  let '(sign, s2) :=
    match s1 with
    | String "-"%char rest => (-1, rest)
    | String "+"%char rest => (1, rest)
    | _ => (1, s1)
    end in
  let '(radix, s3) :=
    match s2 with
    | String "0"%char (String "x"%char rest) => (16, rest)
    | String "0"%char (String "X"%char rest) => (16, rest)
    | _ => (10, s2)
    end in
  match digitsPrefix radix s3 None with
  | Some n => Some (sign * n)
  | None => None
  end.

(** The start-up computation of [pinCodeLength] (server.js 121-129). *)
Definition pinCodeLength (env : string -> option string) : Z :=
  match env "ISSUANCE_PIN_CODE_LENGTH" with
  | Some s =>
      if String.eqb s "" then 4
      else match parseInt s with
           | None => 4
           | Some n => if (n <? 0) || (6 <? n) then 4 else n
           end
  | None => 4
  end.

(** A double in [0, 1) is [m / 2^e] with a 53-bit [m]: this is what
    [Math.random()] returns. *)
Definition isUnitDouble (r : Z * Z) : bool :=
  let '(m, e) := r in
  (0 <=? m) && (m <? 2 ^ 53) && (0 <=? e) && (e <=? 1074) && (m <? 2 ^ e).

(** Round a positive integer to 53 significant bits, ties to even: the
    result is [q * 2^shift]. *)
Definition roundToDouble (a : Z) : Z * Z :=
  let shift := Z.log2 a - 52 in
  if shift <=? 0 then (a, 0)
  else
    let q := a / 2 ^ shift in
    let rem := a mod 2 ^ shift in
    let half := 2 ^ (shift - 1) in
    if rem <? half then (q, shift)
    else if half <? rem then (q + 1, shift)
    else if Z.even q then (q, shift)
    else (q + 1, shift).

(** [Math.floor(r * n)] for a double [r = m / 2^e] and an integer [n]
    below [2^53]: the exact product [m * n / 2^e] is rounded to a double,
    then floored. *)
Definition floorOfProduct (r : Z * Z) (n : Z) : Z :=
  let '(m, e) := r in
  let '(q, shift) := roundToDouble (m * n) in
  (q * 2 ^ shift) / 2 ^ e.

Definition digitChar (d : Z) : ascii := ascii_of_nat (Z.to_nat (48 + d)).

Fixpoint digitsOf (fuel : nat) (n : Z) (acc : string) : string :=
  match fuel with
  | O => acc
  | S fuel' =>
      let acc' := String (digitChar (n mod 10)) acc in
      if n <? 10 then acc' else digitsOf fuel' (n / 10) acc'
  end.

(** [n.toString()] for an integer [n]. *)
Definition numberToString (n : Z) : string :=
  if n <? 0 then "-" +:+ digitsOf (S (Z.to_nat (Z.log2 (- n)))) (- n) ""
  else digitsOf (S (Z.to_nat (Z.log2 n))) n "".

(** The PIN of server.js 290-302 for a configured length [len > 0]:
    [Math.floor(Math.random() * (max - min + 1)) + min]. *)
Definition pinCode (len : Z) (random : Z * Z) : Z :=
  let min := 10 ^ (len - 1) in
  let max := 10 ^ len - 1 in
  floorOfProduct random (max - min + 1) + min.

End Pin.

(** ** issue-app/server.js *)

Module IssueApp.

(** The object [createIssuanceRequest] puts into the store; [updated] is
    [undefined] until a callback sets it. *)
Record TrackedRequest := mkTracked {
  type : JsVal;
  status : JsVal;
  data : JsVal;
  userData : JsVal;
  pin : JsVal;
  created : JsVal;
  updated : JsVal
}.

Definition set_status (v : JsVal) (r : TrackedRequest) : TrackedRequest :=
  mkTracked (type r) v (data r) (userData r) (pin r) (created r) (updated r).

Definition set_updated (v : JsVal) (r : TrackedRequest) : TrackedRequest :=
  mkTracked (type r) (status r) (data r) (userData r) (pin r) (created r) v.

Abbreviation State := (Machine TrackedRequest).

(** What [requireEasyAuth] does with a request: answer it, or call [next()]
    with [req.easyAuthUser] set. *)
Inductive Guarded :=
  | Reject (res : Response)
  | Next (easyAuthUser : JsVal).

(** server.js 103-110. *)
Definition requiredEnvVars : list string :=
  ["AZURE_CLIENT_ID"; "AZURE_CLIENT_SECRET"; "AZURE_TENANT_ID";
   "DID_AUTHORITY"; "CREDENTIAL_MANIFEST"; "CREDENTIAL_TYPE"].

(** server.js 112: [requiredEnvVars.filter(varName => !process.env[varName])]. *)
Definition missingVars (process_env : string -> option string) : list string :=
  List.filter
    (fun varName =>
       negb (truthy (match process_env varName with
                     | Some s => JStr s
                     | None => JUndefined
                     end)))
    requiredEnvVars.

(** server.js 113-116: the process goes on unless [missingVars.length > 0]. *)
Definition starts (process_env : string -> option string) : bool :=
  negb (0 <? Z.of_nat (List.length (missingVars process_env))).

Section Handlers.
Context {rt : Runtime} (w : World).

Definition env (name : string) : JsVal :=
  match process_env w name with
  | Some s => JStr s
  | None => JUndefined
  end.

(** [claims.find(c => c.typ === claimType)], then [claim ? claim.val : null]. *)
Definition findClaim (claims : JsVal) (claimType : string) : Outcome JsVal :=
  let? claim :=
    match claims with
    | JArr items =>
        findFirst (fun c => let? typ := getProp c "typ" in
                            Ok (strictEqStr typ claimType)) items
    | _ => Throw (Error "claims.find is not a function")
    end in
  if truthy claim then getProp claim "val" else Ok JNull.

(** server.js 32-78; the result is [null] or the user object. *)
Definition parseEasyAuthUser (req : Request) : JsVal :=
  let attempt : Outcome JsVal :=
    match headers req !! "x-ms-client-principal" with
    | None => Ok JNull
    | Some clientPrincipal =>
        if String.eqb clientPrincipal "" then Ok JNull
        else
          match decodeBase64Json clientPrincipal with
          | None => Throw (Error "Unexpected token in JSON")
          | Some decodedPrincipal =>
              let? userId := getProp decodedPrincipal "userId" in
              let? userDetails := getProp decodedPrincipal "userDetails" in
              let? identityProvider :=
                orElse (getProp decodedPrincipal "identityProvider")
                       (getProp decodedPrincipal "auth_typ") in
              let? claims0 := getProp decodedPrincipal "claims" in
              let claims := jsOr claims0 (JArr []) in
              let? name := orElse (findClaim claims "name") (Ok userDetails) in
              let? email :=
                orElse (findClaim claims "http://schemas.xmlsoap.org/ws/2005/05/identity/claims/emailaddress")
                  (orElse (findClaim claims "email")
                     (orElse (findClaim claims "preferred_username")
                        (Ok userDetails))) in
              let? givenName :=
                orElse (findClaim claims "http://schemas.xmlsoap.org/ws/2005/05/identity/claims/givenname")
                       (findClaim claims "given_name") in
              let? surname :=
                orElse (findClaim claims "http://schemas.xmlsoap.org/ws/2005/05/identity/claims/surname")
                       (findClaim claims "family_name") in
              let? userPrincipalName :=
                orElse (findClaim claims "http://schemas.xmlsoap.org/ws/2005/05/identity/claims/name")
                  (orElse (findClaim claims "upn") (Ok userDetails)) in
              Ok (JObj [("userId", userId);
                        ("userDetails", userDetails);
                        ("identityProvider", identityProvider);
                        ("name", name);
                        ("email", email);
                        ("givenName", givenName);
                        ("surname", surname);
                        ("userPrincipalName", userPrincipalName);
                        ("isAuthenticated", JBool true)])
          end
    end in
  match attempt with
  | Ok user => user
  | Throw _ => JNull
  end.

(** server.js 81-93. *)
Definition requireEasyAuth (req : Request) : Guarded :=
  let user := parseEasyAuthUser req in
  if negb (truthy user) then
    Reject (mkResponse 401
      (JObj [("error", JStr "Authentication required");
             ("message", JStr "Please sign in through Azure App Service authentication")]))
  else Next user.

(** [app.get(path, requireEasyAuth, handler)]. *)
Definition guarded (handler : JsVal -> Request -> Eff State Response)
    (req : Request) : Eff State Response :=
  match requireEasyAuth req with
  | Reject res => ret res
  | Next easyAuthUser => handler easyAuthUser req
  end.

Definition requestApiScope : string := "3db474b9-6a0c-4840-96ac-1fceb342124f/.default".

(** server.js 150-162; [response.accessToken] is the token string of
    the MSAL result, which the create function puts after [Bearer]. *)
Definition getAccessToken : Eff State JsVal :=
  tryCatch
    (let* response := await (AcquireToken requestApiScope)
                        (acquireTokenByClientCredential w requestApiScope) in
     lift (getProp response "accessToken"))
    (fun error =>
       throw (Error ("Failed to acquire access token: "
                     +:+ match errorCode error with
                         | Some c => if String.eqb c "" then message error else c
                         | None => message error
                         end))).

(** The request the Graph client sends for [graphClient.api(path).get()];
    the client acquires its own token inside this call. *)
Definition graphApiGet (path : string) : Eff State JsVal :=
  await (GraphGet path) (graphGet w path).

(** server.js 184-203. *)
Definition getUserProfile (userPrincipalName : JsVal) : Eff State JsVal :=
  tryCatch
    (let* name := lift (toStringOf userPrincipalName) in
     let* user := graphApiGet ("/users/" +:+ name) in
     let* displayName := lift (getProp user "displayName") in
     let* givenName := lift (getProp user "givenName") in
     let* surname := lift (getProp user "surname") in
     let* mail := lift (getProp user "mail") in
     let* upn := lift (getProp user "userPrincipalName") in
     let* jobTitle := lift (getProp user "jobTitle") in
     let* preferredLanguage := lift (getProp user "preferredLanguage") in
     ret (JObj [("displayName", displayName);
                ("givenName", givenName);
                ("surname", surname);
                ("mail", jsOr mail upn);
                ("jobTitle", jsOr jobTitle (JStr "Employee"));
                ("preferredLanguage", jsOr preferredLanguage (JStr "en-US"));
                ("userPrincipalName", upn);
                ("photo", JNull)]))
    (fun error =>
       throw (Error ("Failed to fetch user profile: " +:+ message error))).

Definition photoSizes : list string :=
  ["240x240"; "120x120"; "96x96"; "64x64"; "48x48"].

(** The path templates of server.js 214 and 222. *)
Definition photoSizePath (userPrincipalName : JsVal) (size : string)
  : Outcome string :=
  let? name := toStringOf userPrincipalName in
  Ok ("/users/" +:+ name +:+ "/photos/" +:+ size +:+ "/$value").

Definition photoPath (userPrincipalName : JsVal) : Outcome string :=
  let? name := toStringOf userPrincipalName in
  Ok ("/users/" +:+ name +:+ "/photo/$value").

(** The [for (const size of photoSizes)] loop of server.js 212-219: the
    value of [photo] when the loop ends.  The path is built inside the
    [try], so a name that has no string skips every size. *)
Fixpoint photoLoop (userPrincipalName : JsVal) (sizes : list string)
  : Eff State JsVal :=
  match sizes with
  | [] => ret JNull
  | size :: rest =>
      tryCatch (let* path := lift (photoSizePath userPrincipalName size) in
                graphApiGet path)
               (fun sizeError => photoLoop userPrincipalName rest)
  end.

(** server.js 226-237: the bytes of the photo. *)
Definition photoBuffer (photo : JsVal) : Outcome (list byte) :=
  match photo with
  | JBin _ bytes => Ok bytes
  | _ => match bufferFrom photo with
         | Some bytes => Ok bytes
         | None => Throw (Error "The first argument must be of type string or an instance of Buffer, ArrayBuffer, or Array or an Array-like Object.")
         end
  end.

(** server.js 206-252; the result is the encoded photo or [null].  The
    [catch] logs a template literal over the name (server.js 249) before
    it returns [null]. *)
Definition getUserPhoto (userPrincipalName : JsVal) : Eff State JsVal :=
  tryCatch
    (let* photo0 := photoLoop userPrincipalName photoSizes in
     let* photo :=
       if negb (truthy photo0) then
         let* path := lift (photoPath userPrincipalName) in
         graphApiGet path
       else ret photo0 in
     if truthy photo then
       let* buffer := lift (photoBuffer photo) in
       ret (JStr (encodeURIComponent (toBase64 buffer)))
     else throw (Error "No photo data received"))
    (fun error =>
       lift (printable userPrincipalName) ;;;
       ret JNull).

Definition msIdentityHostName : string := "https://verifiedid.did.msidentity.com/v1.0/".

(** server.js 278: [userData.displayName], or the template literal over
    the first and last name when it is falsy. *)
Definition displayNameClaim
    (displayName firstName givenName lastName surname : JsVal)
  : Outcome JsVal :=
  if truthy displayName then Ok displayName
  else
    let? given := toStringOf (jsOr firstName (jsOr givenName (JStr "Employee"))) in
    let? family := toStringOf (jsOr lastName (jsOr surname (JStr "User"))) in
    Ok (JStr (given +:+ " " +:+ family)).

(** The issuance request of server.js 262-302, as the list of its
    properties; [displayName] is the claim of line 278. *)
Definition issuanceRequestOf (requestId : string)
    (displayName firstName givenName lastName surname email mail jobTitle
     preferredLanguage userPrincipalName revocationId photo : JsVal)
  : list (string * JsVal) :=
  let given := jsOr firstName (jsOr givenName (JStr "Employee")) in
  let family := jsOr lastName (jsOr surname (JStr "User")) in
  let address := jsOr email (jsOr mail (JStr "user@company.com")) in
  let issuanceRequest :=
    [("includeQRCode", JBool true);
     ("callback",
      JObj [("url", JStr (ToString (env "APP_URL") +:+ "/api/request-callback"));
            ("state", JStr requestId);
            ("headers", JObj [("api-key", JStr "verifiedid-api-key")])]);
     ("authority", env "DID_AUTHORITY");
     ("registration",
      JObj [("clientName",
             jsOr (env "CLIENT_NAME") (JStr "Microsoft Entra Verified ID"))]);
     ("type", env "CREDENTIAL_TYPE");
     ("manifest", env "CREDENTIAL_MANIFEST");
     ("claims",
      JObj [("displayName", displayName);
            ("givenName", given);
            ("surname", family);
            ("mail", address);
            ("jobTitle", jsOr jobTitle (JStr "Employee"));
            ("preferredLanguage", jsOr preferredLanguage (JStr "en-US"));
            ("userPrincipalName", jsOr userPrincipalName address);
            ("revocationId", jsOr revocationId (JStr (uuidv4 w 1)));
            ("photo", jsOr photo JNull)])] in
  let pinCodeLength := Pin.pinCodeLength (process_env w) in
  if 0 <? pinCodeLength then
    issuanceRequest ++
      [("pin",
        JObj [("value",
               JStr (Pin.numberToString
                       (Pin.pinCode pinCodeLength (mathRandom w))));
              ("length", JNum (inject_Z pinCodeLength))])]
  else issuanceRequest.

(** server.js 255-343. *)
Definition createIssuanceRequest (userData : JsVal) : Eff State JsVal :=
  let client_api_request_endpoint :=
    msIdentityHostName +:+ "verifiableCredentials/createIssuanceRequest" in
  tryCatch
    (let* accessToken := getAccessToken in
     let requestId := uuidv4 w 0 in
     let* displayName := lift (getProp userData "displayName") in
     let* firstName := lift (getProp userData "firstName") in
     let* givenName := lift (getProp userData "givenName") in
     let* lastName := lift (getProp userData "lastName") in
     let* surname := lift (getProp userData "surname") in
     let* email := lift (getProp userData "email") in
     let* mail := lift (getProp userData "mail") in
     let* jobTitle := lift (getProp userData "jobTitle") in
     let* preferredLanguage := lift (getProp userData "preferredLanguage") in
     let* userPrincipalName := lift (getProp userData "userPrincipalName") in
     let* revocationId := lift (getProp userData "revocationId") in
     let* photo := lift (getProp userData "photo") in
     let* displayNameClaim :=
       lift (displayNameClaim displayName firstName givenName lastName
               surname) in
     let issuanceRequest :=
       issuanceRequestOf requestId displayNameClaim firstName givenName lastName
         surname email mail jobTitle preferredLanguage userPrincipalName
         revocationId photo in
     let authorization := "Bearer " +:+ ToString accessToken in
     let* response_data :=
       await (AxiosPost client_api_request_endpoint (JObj issuanceRequest)
                authorization)
             (axiosPost w client_api_request_endpoint (JObj issuanceRequest)
                authorization) in
     let pinMember := lookupProp issuanceRequest "pin" in
     let* pinValue :=
       if truthy pinMember then lift (getProp pinMember "value")
       else ret JNull in
     storeSet requestId
       (mkTracked (JStr "issuance") (JStr "request_created") response_data
          userData pinValue (JDate (now w)) JUndefined) ;;;
     let* url := lift (getProp response_data "url") in
     let* expiry := lift (getProp response_data "expiry") in
     let* qrCode := lift (getProp response_data "qrCode") in
     ret (JObj [("requestId", JStr requestId);
                ("url", url);
                ("expiry", expiry);
                ("qrCode", qrCode);
                ("pin", pinValue)]))
    (fun error =>
       throw (Error ("Failed to create issuance request: " +:+ message error))).

(** [name?.split(' ')], then [pick] applied to the parts. *)
Definition splitName (name : JsVal) (pick : list string -> string)
  : Outcome JsVal :=
  match name with
  | JUndefined | JNull => Ok JUndefined
  | JStr s => Ok (JStr (pick (splitSpace s)))
  | _ => Throw (Error "user.name?.split is not a function")
  end.

(** GET /api/user (server.js 354-384), behind [requireEasyAuth]. *)
Definition getUser (easyAuthUser : JsVal) (req : Request)
  : Eff State Response :=
  tryCatch
    (let* userProfile :=
       tryCatch
         (let* upn := lift (getProp easyAuthUser "userPrincipalName") in
          let* email := lift (getProp easyAuthUser "email") in
          let* userDetails := lift (getProp easyAuthUser "userDetails") in
          getUserProfile (jsOr upn (jsOr email userDetails)))
         (fun profileError =>
            let* name := lift (getProp easyAuthUser "name") in
            let* email := lift (getProp easyAuthUser "email") in
            let* upn := lift (getProp easyAuthUser "userPrincipalName") in
            ret (JObj [("displayName", jsOr name (JStr "Unknown User"));
                       ("mail", jsOr email (JStr "No email"));
                       ("jobTitle", JStr "Employee");
                       ("userPrincipalName", jsOr upn email)])) in
     ret (json (JObj [("user", userProfile); ("authenticated", JBool true)])))
    (fun error =>
       ret (mkResponse 500
              (JObj [("error", JStr "Failed to load user information");
                     ("message", JStr (message error))]))).

(** server.js 392-407: the profile from Graph, or the one built from the
    Easy Auth user when Graph fails. *)
Definition resolveProfile (user : JsVal) : Eff State JsVal :=
  tryCatch
    (let* upn := lift (getProp user "userPrincipalName") in
     let* email := lift (getProp user "email") in
     getUserProfile (jsOr upn email))
    (fun profileError =>
       let* name := lift (getProp user "name") in
       let* givenName0 := lift (getProp user "givenName") in
       let* givenName :=
         lift (orElse (Ok givenName0)
                 (splitName name (fun parts => List.hd "" parts))) in
       let* surname0 := lift (getProp user "surname") in
       let* surname :=
         lift (orElse (Ok surname0)
                 (splitName name (fun parts => joinSpace (List.tl parts)))) in
       let* email := lift (getProp user "email") in
       let* upn := lift (getProp user "userPrincipalName") in
       ret (JObj [("displayName", name);
                  ("givenName", givenName);
                  ("surname", surname);
                  ("mail", email);
                  ("jobTitle", JStr "Employee");
                  ("preferredLanguage", JStr "en-US");
                  ("userPrincipalName", jsOr upn email)])).

(** server.js 409-419: [userProfile] after the attempt to add the photo. *)
Definition attachPhoto (user userProfile : JsVal) : Eff State JsVal :=
  tryCatch
    (let* upn := lift (getProp user "userPrincipalName") in
     let* email := lift (getProp user "email") in
     let* userPhoto := getUserPhoto (jsOr upn email) in
     ret (if truthy userPhoto then setProp userProfile "photo" userPhoto
          else userProfile))
    (fun photoError => ret userProfile).

(** POST /api/issue-credential (server.js 386-441), behind
    [requireEasyAuth]. *)
Definition postIssueCredential (user : JsVal) (req : Request)
  : Eff State Response :=
  tryCatch
    (let* userDetails := lift (getProp user "userDetails") in
     lift (printable userDetails) ;;;
     let* userProfile0 := resolveProfile user in
     let* userProfile := attachPhoto user userProfile0 in
     let* issuanceResult := createIssuanceRequest userProfile in
     let* requestId := lift (getProp issuanceResult "requestId") in
     let* url := lift (getProp issuanceResult "url") in
     let* expiry := lift (getProp issuanceResult "expiry") in
     let* qrCode := lift (getProp issuanceResult "qrCode") in
     let* pin := lift (getProp issuanceResult "pin") in
     ret (json (JObj [("success", JBool true);
                      ("requestId", requestId);
                      ("url", url);
                      ("expiry", expiry);
                      ("qrCode", qrCode);
                      ("pin", pin);
                      ("message", JStr "Credential issuance request created successfully")])))
    (fun error =>
       ret (mkResponse 500
              (JObj [("success", JBool false);
                     ("error", JStr (message error));
                     ("message", JStr "Failed to create credential issuance request")]))).

(** GET /api/request-status/:requestId (server.js 444-463). *)
Definition getRequestStatus (requestId : string) : Eff State Response :=
  let* request := storeGet requestId in
  match request with
  | None =>
      ret (mkResponse 404
             (JObj [("success", JBool false);
                    ("error", JStr "Request not found")]))
  | Some request =>
      ret (json (JObj [("success", JBool true);
                       ("requestId", JStr requestId);
                       ("status", status request);
                       ("type", type request);
                       ("created", created request);
                       ("pin", pin request)]))
  end.

(** [requestStore.get(key)] for an arbitrary value: the keys of the store
    are strings, and [Map] compares keys without conversion. *)
Definition storeGetValue (key : JsVal) : Eff State (option TrackedRequest) :=
  match key with
  | JStr id => storeGet id
  | _ => ret None
  end.

(** An assignment [request.field = v] through the reference [request] to
    the object stored under [id]: the stored object changes at once. *)
Definition assign (id : string) (f : TrackedRequest -> TrackedRequest)
  : Eff State unit :=
  modify (fun s => mkMachine (alter f id (requestStore s)) (calls s)).

(** [requestStore.set(id, request)] with the object already stored there. *)
Definition storeSetSame (id : string) : Eff State unit :=
  let* request := storeGet id in
  match request with
  | Some r => storeSet id r
  | None => ret tt
  end.

(** POST /api/request-callback (server.js 466-482).  The template
    literal of line 470 is logged before the store is read; the one of
    line 478 converts the same two values again. *)
Definition postRequestCallback (req : Request) : Eff State Response :=
  let* requestId := lift (getProp (req_body req) "state") in
  let* code := lift (getProp (req_body req) "code") in
  lift (printable requestId) ;;;
  lift (printable code) ;;;
  let* request := storeGetValue requestId in
  (match requestId, request with
   | JStr id, Some _ =>
       assign id (set_status code) ;;;
       assign id (set_updated (JDate (now w))) ;;;
       storeSetSame id
   | _, _ => ret tt
   end) ;;;
  ret (mkResponse 200 (JObj [("message", JStr "Callback received")])).

End Handlers.
End IssueApp.

(** ** verify-app/server.js *)

Module VerifyApp.

(** The object [createVerificationRequest] puts into the store; [updated],
    [verifiedCredential] and [faceCheckResult] are [undefined] until a
    callback sets them. *)
Record TrackedRequest := mkTracked {
  type : JsVal;
  status : JsVal;
  data : JsVal;
  options : JsVal;
  created : JsVal;
  updated : JsVal;
  verifiedCredential : JsVal;
  faceCheckResult : JsVal
}.

Definition set_status (v : JsVal) (r : TrackedRequest) : TrackedRequest :=
  mkTracked (type r) v (data r) (options r) (created r) (updated r)
    (verifiedCredential r) (faceCheckResult r).

Definition set_updated (v : JsVal) (r : TrackedRequest) : TrackedRequest :=
  mkTracked (type r) (status r) (data r) (options r) (created r) v
    (verifiedCredential r) (faceCheckResult r).

Definition set_verifiedCredential (v : JsVal) (r : TrackedRequest)
  : TrackedRequest :=
  mkTracked (type r) (status r) (data r) (options r) (created r) (updated r)
    v (faceCheckResult r).

Definition set_faceCheckResult (v : JsVal) (r : TrackedRequest)
  : TrackedRequest :=
  mkTracked (type r) (status r) (data r) (options r) (created r) (updated r)
    (verifiedCredential r) v.

Abbreviation State := (Machine TrackedRequest).

(** server.js 25-32. *)
Definition requiredEnvVars : list string :=
  ["AZURE_CLIENT_ID"; "AZURE_CLIENT_SECRET"; "AZURE_TENANT_ID";
   "DID_AUTHORITY"; "CREDENTIAL_TYPE"; "APP_URL"].

(** server.js 34: [requiredEnvVars.filter(varName => !process.env[varName])]. *)
Definition missingVars (process_env : string -> option string) : list string :=
  List.filter
    (fun varName =>
       negb (truthy (match process_env varName with
                     | Some s => JStr s
                     | None => JUndefined
                     end)))
    requiredEnvVars.

(** server.js 35-38: the process goes on unless [missingVars.length > 0]. *)
Definition starts (process_env : string -> option string) : bool :=
  negb (0 <? Z.of_nat (List.length (missingVars process_env))).

Section Handlers.
Context {rt : Runtime} (w : World).

Definition env (name : string) : JsVal :=
  match process_env w name with
  | Some s => JStr s
  | None => JUndefined
  end.

Definition requestApiScope : string := "3db474b9-6a0c-4840-96ac-1fceb342124f/.default".

(** server.js 62-74. *)
Definition getAccessToken : Eff State JsVal :=
  tryCatch
    (let* response := await (AcquireToken requestApiScope)
                        (acquireTokenByClientCredential w requestApiScope) in
     lift (getProp response "accessToken"))
    (fun error =>
       throw (Error ("Failed to acquire access token: "
                     +:+ match errorCode error with
                         | Some c => if String.eqb c "" then message error else c
                         | None => message error
                         end))).

Definition msIdentityHostName : string := "https://verifiedid.did.msidentity.com/v1.0/".

(** The presentation request of server.js 84-121. *)
Definition verificationRequestOf (requestId : string) (includeFaceCheck : JsVal)
  : JsVal :=
  let purpose := jsOr (env "PURPOSE") (JStr "To verify your credential status") in
  let validation :=
    [("allowRevoked", JBool false); ("validateLinkedDomain", JBool true)] in
  let validation' :=
    if truthy includeFaceCheck then
      (validation ++
        [("faceCheck",
          JObj [("sourcePhotoClaimName", JStr "photo");
                ("matchConfidenceThreshold", JNum (inject_Z 70))])])%list
    else validation in
  JObj [("includeQRCode", JBool true);
        ("callback",
         JObj [("url", JStr (ToString (env "APP_URL") +:+ "/api/verification-callback"));
               ("state", JStr requestId);
               ("headers", JObj [("api-key", JStr "verifiedid-api-key")])]);
        ("authority", env "DID_AUTHORITY");
        ("registration",
         JObj [("clientName",
                jsOr (env "CLIENT_NAME")
                     (JStr "Microsoft Entra Verified ID Verifier"));
               ("purpose", purpose)]);
        ("includeReceipt", JBool true);
        ("requestedCredentials",
         JArr [JObj [("type", env "CREDENTIAL_TYPE");
                     ("purpose", purpose);
                     ("acceptedIssuers", JArr [env "DID_AUTHORITY"]);
                     ("configuration",
                      JObj [("validation", JObj validation')])]])].

(** server.js 77-160; a missing argument defaults to [{}]. *)
Definition createVerificationRequest (options0 : JsVal) : Eff State JsVal :=
  let options := match options0 with JUndefined => JObj [] | _ => options0 end in
  let client_api_request_endpoint :=
    msIdentityHostName +:+ "verifiableCredentials/createPresentationRequest" in
  tryCatch
    (let* accessToken := getAccessToken in
     let requestId := uuidv4 w 0 in
     let* includeFaceCheck := lift (getProp options "includeFaceCheck") in
     let verificationRequest := verificationRequestOf requestId includeFaceCheck in
     let authorization := "Bearer " +:+ ToString accessToken in
     let* response_data :=
       await (AxiosPost client_api_request_endpoint verificationRequest
                authorization)
             (axiosPost w client_api_request_endpoint verificationRequest
                authorization) in
     storeSet requestId
       (mkTracked (JStr "verification") (JStr "request_created") response_data
          options (JDate (now w)) JUndefined JUndefined JUndefined) ;;;
     let* url := lift (getProp response_data "url") in
     let* expiry := lift (getProp response_data "expiry") in
     let* qrCode := lift (getProp response_data "qrCode") in
     ret (JObj [("requestId", JStr requestId);
                ("url", url);
                ("expiry", expiry);
                ("qrCode", qrCode)]))
    (fun error =>
       throw (Error ("Failed to create verification request: "
                     +:+ message error))).

(** POST /api/verify-credential (server.js 168-196). *)
Definition postVerifyCredential (req : Request) : Eff State Response :=
  tryCatch
    (let* includeFaceCheck0 := lift (getProp (req_body req) "includeFaceCheck") in
     let includeFaceCheck :=
       match includeFaceCheck0 with
       | JUndefined => JBool false
       | _ => includeFaceCheck0
       end in
     let* verificationResult :=
       createVerificationRequest (JObj [("includeFaceCheck", includeFaceCheck)]) in
     let* requestId := lift (getProp verificationResult "requestId") in
     let* url := lift (getProp verificationResult "url") in
     let* expiry := lift (getProp verificationResult "expiry") in
     let* qrCode := lift (getProp verificationResult "qrCode") in
     ret (json (JObj [("success", JBool true);
                      ("requestId", requestId);
                      ("url", url);
                      ("expiry", expiry);
                      ("qrCode", qrCode);
                      ("faceCheckEnabled", includeFaceCheck);
                      ("message", JStr "Credential verification request created successfully")])))
    (fun error =>
       ret (mkResponse 500
              (JObj [("success", JBool false);
                     ("error", JStr (message error));
                     ("message", JStr "Failed to create credential verification request")]))).

(** GET /api/request-status/:requestId (server.js 199-219). *)
Definition getRequestStatus (requestId : string) : Eff State Response :=
  let* request := storeGet requestId in
  match request with
  | None =>
      ret (mkResponse 404
             (JObj [("success", JBool false);
                    ("error", JStr "Request not found")]))
  | Some request =>
      ret (json (JObj [("success", JBool true);
                       ("requestId", JStr requestId);
                       ("status", status request);
                       ("type", type request);
                       ("created", created request);
                       ("verifiedCredential",
                        jsOr (verifiedCredential request) JNull);
                       ("faceCheckResult",
                        jsOr (faceCheckResult request) JNull)]))
  end.

(** [requestStore.get(key)] for an arbitrary value: the keys of the store
    are strings, and [Map] compares keys without conversion. *)
Definition storeGetValue (key : JsVal) : Eff State (option TrackedRequest) :=
  match key with
  | JStr id => storeGet id
  | _ => ret None
  end.

(** An assignment [request.field = v] through the reference [request] to
    the object stored under [id]: the stored object changes at once. *)
Definition assign (id : string) (f : TrackedRequest -> TrackedRequest)
  : Eff State unit :=
  modify (fun s => mkMachine (alter f id (requestStore s)) (calls s)).

(** [requestStore.set(id, request)] with the object already stored there. *)
Definition storeSetSame (id : string) : Eff State unit :=
  let* request := storeGet id in
  match request with
  | Some r => storeSet id r
  | None => ret tt
  end.

(** server.js 234-259: what a callback with code [presentation_verified]
    attaches to the request stored under [id].  The face check result is
    logged in a template literal over its confidence (server.js 250),
    after it was attached. *)
Definition attachVerified (id : string) (body : JsVal) : Eff State unit :=
  let* verifiedCredentialsData := lift (getProp body "verifiedCredentialsData") in
  if truthy verifiedCredentialsData then
    let* len := lift (getLength verifiedCredentialsData) in
    if gtZero len then
      let* credentialData := lift (getIndex0 verifiedCredentialsData) in
      let* type := lift (getProp credentialData "type") in
      let* issuer := lift (getProp credentialData "issuer") in
      let* claims := lift (getProp credentialData "claims") in
      let* credentialSubject := lift (getProp credentialData "credentialSubject") in
      assign id (set_verifiedCredential
                   (JObj [("type", type);
                          ("issuer", issuer);
                          ("claims", claims);
                          ("credentialSubject", credentialSubject)])) ;;;
      let* faceCheck := lift (getProp credentialData "faceCheck") in
      if truthy faceCheck then
        let* faceCheckPassed := lift (getProp faceCheck "faceCheckPassed") in
        let* confidence := lift (getProp faceCheck "confidence") in
        assign id (set_faceCheckResult
                     (JObj [("faceCheckPassed", faceCheckPassed);
                            ("confidence", confidence)])) ;;;
        lift (printable confidence)
      else ret tt
    else ret tt
  else ret tt.

(** POST /api/verification-callback (server.js 222-266).  The template
    literal of line 226 is logged before the store is read; the one of
    line 262 converts the same two values again. *)
Definition postVerificationCallback (req : Request) : Eff State Response :=
  let* requestId := lift (getProp (req_body req) "state") in
  let* code := lift (getProp (req_body req) "code") in
  lift (printable requestId) ;;;
  lift (printable code) ;;;
  let* request := storeGetValue requestId in
  (match requestId, request with
   | JStr id, Some _ =>
       assign id (set_status code) ;;;
       assign id (set_updated (JDate (now w))) ;;;
       (if strictEqStr code "presentation_verified"
        then attachVerified id (req_body req)
        else ret tt) ;;;
       storeSetSame id
   | _, _ => ret tt
   end) ;;;
  ret (mkResponse 200 (JObj [("message", JStr "Verification callback received")])).

End Handlers.
End VerifyApp.

(** ** Sample inputs *)

Module Sample.

(** The base64 form of
    [{userId: u1, userDetails: jane@contoso.com, claims: [{typ: name, val: Jane Doe}]}]. *)
Definition header : string :=
  "eyJ1c2VySWQiOiJ1MSIsInVzZXJEZXRhaWxzIjoiamFuZUBjb250b3NvLmNvbSIsImNsYWltcyI6W3sidHlwIjoibmFtZSIsInZhbCI6IkphbmUgRG9lIn1dfQ==".

(** A runtime that decodes this header value. *)
#[local] Instance runtime : Runtime := {|
  decodeBase64Json h :=
    if String.eqb h header
    then Some (JObj [("userId", JStr "u1");
                     ("userDetails", JStr "jane@contoso.com");
                     ("claims",
                      JArr [JObj [("typ", JStr "name");
                                  ("val", JStr "Jane Doe")]])])
    else None;
  objectToString _ := "[object Object]";
  coercedPositive _ := false;
  bufferFrom _ := None;
  toBase64 _ := "AQID";
  encodeURIComponent s := s
|}.

Definition failure : Outcome JsVal := Throw (Error "Request failed with status code 400").

(** A world in which everything outside fails. *)
Definition offline : World := {|
  process_env _ := None;
  acquireTokenByClientCredential _ := Throw (mkError (Some "invalid_client") "AADSTS7000215");
  axiosPost _ _ _ := failure;
  graphGet _ := failure;
  uuidv4 k := if Nat.eqb k 0 then "r1" else "r2";
  mathRandom := (1, 1);
  now := 1700000000000
|}.

(** A world in which the platform accepts the request; Graph has a photo
    of size 120x120 only. *)
Definition online : World := {|
  process_env _ := None;
  acquireTokenByClientCredential _ := Ok (JObj [("accessToken", JStr "token")]);
  axiosPost _ _ _ :=
    Ok (JObj [("url", JStr "openid-vc://?request_uri=x");
              ("expiry", JNum (inject_Z 1700000300));
              ("qrCode", JStr "data:image/png;base64,AAAA")]);
  graphGet path :=
    if String.eqb path "/users/jane@contoso.com/photos/120x120/$value"
    then Ok (JBin KBlob [x01; x02; x03]%byte)
    else failure;
  uuidv4 k := if Nat.eqb k 0 then "r1" else "r2";
  mathRandom := (2 ^ 52, 53);
  now := 1700000000000
|}.

(** The Easy Auth user of the sample header, and a profile. *)
Definition principal : Request :=
  mkRequest {["x-ms-client-principal" := header]} (JObj []).

Definition anonymous : Request := mkRequest ∅ (JObj []).

Definition profile : JsVal :=
  JObj [("displayName", JStr "Jane Doe");
        ("mail", JStr "jane@contoso.com");
        ("userPrincipalName", JStr "jane@contoso.com")].

Definition noIssuance : IssueApp.State := mkMachine ∅ [].

Definition noVerification : VerifyApp.State := mkMachine ∅ [].

Definition issued : IssueApp.TrackedRequest :=
  IssueApp.mkTracked (JStr "issuance") (JStr "request_created") JNull
    (JObj [("displayName", JStr "Jane Doe")]) (JStr "1234")
    (JDate 1700000000000) JUndefined.

Definition requested : VerifyApp.TrackedRequest :=
  VerifyApp.mkTracked (JStr "verification") (JStr "request_created") JNull
    (JObj [("includeFaceCheck", JBool false)])
    (JDate 1700000000000) JUndefined JUndefined JUndefined.

Definition issueState : IssueApp.State := mkMachine {["r1" := issued]} [].

Definition verifyState : VerifyApp.State := mkMachine {["r1" := requested]} [].

Definition callback (state code : string) : Request :=
  mkRequest ∅ (JObj [("state", JStr state); ("code", JStr code)]).

(** The callback of the platform after a successful presentation. *)
Definition verified : Request :=
  mkRequest ∅
    (JObj [("state", JStr "r1");
           ("code", JStr "presentation_verified");
           ("verifiedCredentialsData",
            JArr [JObj [("claims", JObj [("displayName", JStr "Jane Doe")])]])]).

End Sample.

(** Further sample worlds. *)
Module Edge.

(** The platform accepts the post and answers with a [null] body. *)
Definition nullAnswer : World := {|
  process_env _ := None;
  acquireTokenByClientCredential _ := Ok (JObj [("accessToken", JStr "token")]);
  axiosPost _ _ _ := Ok JNull;
  graphGet _ := Sample.failure;
  uuidv4 k := if Nat.eqb k 0 then "r1" else "r2";
  mathRandom := (1, 1);
  now := 1700000000000
|}.

(** Graph has the user's photo without a size only. *)
Definition unsizedPhoto : World := {|
  process_env _ := None;
  acquireTokenByClientCredential _ := Ok (JObj [("accessToken", JStr "token")]);
  axiosPost _ _ _ := Sample.failure;
  graphGet path :=
    if String.eqb path "/users/jane@contoso.com/photo/$value"
    then Ok (JBin KBuffer [x01; x02; x03]%byte)
    else Sample.failure;
  uuidv4 k := if Nat.eqb k 0 then "r1" else "r2";
  mathRandom := (1, 1);
  now := 1700000000000
|}.

(** Graph answers the request for the largest size with a JSON number. *)
Definition oddPhoto : World := {|
  process_env _ := None;
  acquireTokenByClientCredential _ := Ok (JObj [("accessToken", JStr "token")]);
  axiosPost _ _ _ := Sample.failure;
  graphGet path :=
    if String.eqb path "/users/jane@contoso.com/photos/240x240/$value"
    then Ok (JNum (inject_Z 7))
    else Sample.failure;
  uuidv4 k := if Nat.eqb k 0 then "r1" else "r2";
  mathRandom := (1, 1);
  now := 1700000000000
|}.

(** A runtime for which the header [NQ==] decodes to the number 5, and
    [bnVsbA==] to [null]. *)
#[local] Instance lenient : Runtime := {|
  decodeBase64Json h :=
    if String.eqb h "NQ==" then Some (JNum (inject_Z 5))
    else if String.eqb h "bnVsbA==" then Some JNull
    else None;
  objectToString _ := "[object Object]";
  coercedPositive _ := false;
  bufferFrom _ := None;
  toBase64 _ := "AQID";
  encodeURIComponent s := s
|}.

Definition withHeader (h : string) : Request :=
  mkRequest {["x-ms-client-principal" := h]} (JObj []).

(** A [presentation_verified] callback whose only credential entry is
    [null]. *)
Definition nullEntry : Request :=
  mkRequest ∅ (JObj [("state", JStr "r1");
                     ("code", JStr "presentation_verified");
                     ("verifiedCredentialsData", JArr [JNull])]).

(** A JSON value that has no string: its own [toString] member hides
    the method objects convert with. *)
Definition noString : JsVal := JObj [("toString", JNull)].

(** A callback for the stored request [r1] whose code is that value. *)
Definition noStringCode : Request :=
  mkRequest ∅ (JObj [("state", JStr "r1"); ("code", noString)]).

(** Settings in which only ISSUANCE_PIN_CODE_LENGTH is set. *)
Definition pinSetting (value : string) (name : string) : option string :=
  if String.eqb name "ISSUANCE_PIN_CODE_LENGTH" then Some value else None.

(** Settings with everything but APP_URL. *)
Definition settings (name : string) : option string :=
  if String.eqb name "APP_URL" then None else Some "x".

End Edge.

(** ** Responses and conditions the properties speak of *)

(** The answer of the status endpoint for an unknown id. *)
Definition notFound : Response :=
  mkResponse 404 (JObj [("success", JBool false); ("error", JStr "Request not found")]).

(** The acknowledgements of the two callback endpoints. *)
Definition callbackReceived : Response :=
  mkResponse 200 (JObj [("message", JStr "Callback received")]).

Definition verificationCallbackReceived : Response :=
  mkResponse 200 (JObj [("message", JStr "Verification callback received")]).

(** The property [name] of a value that is not [null] or [undefined]. *)
Definition propOf (v : JsVal) (name : string) : JsVal :=
  match v with
  | JObj props => lookupProp props name
  | _ => JUndefined
  end.

(** What the verify service attaches for the credential entry [cd] of a
    [presentation_verified] callback. *)
Definition verifiedCredentialOf (cd : JsVal) : JsVal :=
  JObj [("type", propOf cd "type");
        ("issuer", propOf cd "issuer");
        ("claims", propOf cd "claims");
        ("credentialSubject", propOf cd "credentialSubject")].

Definition faceCheckResultOf (cd : JsVal) : JsVal :=
  JObj [("faceCheckPassed", propOf (propOf cd "faceCheck") "faceCheckPassed");
        ("confidence", propOf (propOf cd "faceCheck") "confidence")].

Definition attached (cd : JsVal) (r : VerifyApp.TrackedRequest)
  : VerifyApp.TrackedRequest :=
  let r1 := VerifyApp.set_verifiedCredential (verifiedCredentialOf cd) r in
  if truthy (propOf cd "faceCheck")
  then VerifyApp.set_faceCheckResult (faceCheckResultOf cd) r1
  else r1.

(** The fields of a verification request no callback assigns. *)
Definition sameRequest (r r' : VerifyApp.TrackedRequest) : Prop :=
  VerifyApp.type r' = VerifyApp.type r /\
  VerifyApp.data r' = VerifyApp.data r /\
  VerifyApp.options r' = VerifyApp.options r /\
  VerifyApp.created r' = VerifyApp.created r.

(** What every callback of the verify service for a known id assigns first. *)
Definition stamped (w : World) (code : JsVal) (r : VerifyApp.TrackedRequest)
  : VerifyApp.TrackedRequest :=
  VerifyApp.set_updated (JDate (now w)) (VerifyApp.set_status code r).

(** Whether the face check of the credential entry [cd] can be logged:
    it has none, or the confidence of the face check has a string. *)
Definition printableFaceCheck (cd : JsVal) : bool :=
  negb (truthy (propOf cd "faceCheck"))
  || stringifiable (propOf (propOf cd "faceCheck") "confidence").

(** A callback body the verify service handles without throwing: its
    state and code have a string, and its code is not
    [presentation_verified], or it carries no [verifiedCredentialsData],
    or that is an array whose first entry is not [null] and has a face
    check that can be logged. *)
Definition regularCallback (body : JsVal) : bool :=
  stringifiable (propOf body "state")
  && stringifiable (propOf body "code")
  && (negb (strictEqStr (propOf body "code") "presentation_verified")
      || negb (truthy (propOf body "verifiedCredentialsData"))
      || match propOf body "verifiedCredentialsData" with
         | JArr (cd :: _) => negb (nullish cd) && printableFaceCheck cd
         | _ => false
         end).

(** The answers of the status endpoints for a stored request. *)
Definition issueStatus (id : string) (status : JsVal) (r : IssueApp.TrackedRequest)
  : Response :=
  json (JObj [("success", JBool true);
              ("requestId", JStr id);
              ("status", status);
              ("type", IssueApp.type r);
              ("created", IssueApp.created r);
              ("pin", IssueApp.pin r)]).

Definition verifyStatus (id : string) (status verifiedCredential faceCheckResult : JsVal)
    (r : VerifyApp.TrackedRequest) : Response :=
  json (JObj [("success", JBool true);
              ("requestId", JStr id);
              ("status", status);
              ("type", VerifyApp.type r);
              ("created", VerifyApp.created r);
              ("verifiedCredential", verifiedCredential);
              ("faceCheckResult", faceCheckResult)]).

(** What the issue service assigns on a callback for a known id. *)
Definition issueStamped (w : World) (code : JsVal) (r : IssueApp.TrackedRequest)
  : IssueApp.TrackedRequest :=
  IssueApp.set_updated (JDate (now w)) (IssueApp.set_status code r).

(** The [pin] member of the issuance request, and the PIN kept with the
    stored request and returned to the caller. *)
Definition pinMember (w : World) : JsVal :=
  let len := Pin.pinCodeLength (process_env w) in
  if 0 <? len then
    JObj [("value", JStr (Pin.numberToString (Pin.pinCode len (mathRandom w))));
          ("length", JNum (inject_Z len))]
  else JUndefined.

Definition issuancePin (w : World) : JsVal :=
  let len := Pin.pinCodeLength (process_env w) in
  if 0 <? len then JStr (Pin.numberToString (Pin.pinCode len (mathRandom w)))
  else JNull.

(** The entry [createIssuanceRequest] stores. *)
Definition issuedRequest (w : World) (userData data : JsVal) : IssueApp.TrackedRequest :=
  IssueApp.mkTracked (JStr "issuance") (JStr "request_created") data userData
    (issuancePin w) (JDate (now w)) JUndefined.

Definition issuanceEndpoint : string :=
  IssueApp.msIdentityHostName +:+ "verifiableCredentials/createIssuanceRequest".

(** The entry [createVerificationRequest] stores. *)
Definition presentationRequest (w : World) (options data : JsVal) : VerifyApp.TrackedRequest :=
  VerifyApp.mkTracked (JStr "verification") (JStr "request_created") data options
    (JDate (now w)) JUndefined JUndefined JUndefined.

Definition presentationEndpoint : string :=
  VerifyApp.msIdentityHostName +:+ "verifiableCredentials/createPresentationRequest".

(** Whether a computation returned. *)
Definition returned {A : Type} (o : Outcome A) : bool :=
  match o with
  | Ok _ => true
  | Throw _ => false
  end.

(** The answer of [requireEasyAuth] to a request it turns away. *)
Definition unauthenticated : Response :=
  mkResponse 401
    (JObj [("error", JStr "Authentication required");
           ("message", JStr "Please sign in through Azure App Service authentication")]).

(** A decoded identity header of the documented shape: an object whose
    [claims], when present, is an array without [null] entries. *)
Definition wellFormedClaims (claims : JsVal) : bool :=
  match claims with
  | JArr items => forallb (fun c => negb (nullish c)) items
  | _ => negb (truthy claims)
  end.

Definition wellFormedPrincipal (principal : JsVal) : bool :=
  match principal with
  | JObj props => wellFormedClaims (lookupProp props "claims")
  | _ => false
  end.

Definition isGraphGet (c : Call) : bool :=
  match c with
  | GraphGet _ => true
  | _ => false
  end.

(** From [s] to [s'] the store was not touched and only Graph requests
    were sent. *)
Definition graphOnly {R : Type} (s s' : Machine R) : Prop :=
  requestStore s' = requestStore s /\
  exists g, calls s' = calls s ++ g /\ forallb isGraphGet g = true.

(** A computation that only talks to Graph. *)
Definition GraphOnly {R A : Type} (m : Eff (Machine R) A) : Prop :=
  forall s, graphOnly s (m s).2.

(** The paths of the photo requests for a user whose name has the string
    [ToString userPrincipalName]. *)
Definition sizedPhotoPath {rt : Runtime} (userPrincipalName : JsVal) (size : string)
  : string :=
  "/users/" +:+ ToString userPrincipalName +:+ "/photos/" +:+ size +:+ "/$value".

Definition unsizedPhotoPath {rt : Runtime} (userPrincipalName : JsVal) : string :=
  "/users/" +:+ ToString userPrincipalName +:+ "/photo/$value".

(** The Graph requests for the photo sizes [sizes] of a user, in order. *)
Definition photoRequests {rt : Runtime} (userPrincipalName : JsVal) (sizes : list string)
  : list Call :=
  List.map (fun size => GraphGet (sizedPhotoPath userPrincipalName size)) sizes.

(** [s] with the calls [new] added to its log. *)
Definition afterCalls {R : Type} (s : Machine R) (new : list Call) : Machine R :=
  mkMachine (requestStore s) (calls s ++ new).

(** Token acquisition fails; the create-request call to the platform fails. *)
Definition tokenFails (w : World) : Prop :=
  forall scope, returned (acquireTokenByClientCredential w scope) = false.

Definition postFails (w : World) : Prop :=
  forall url doc auth, returned (axiosPost w url doc auth) = false.

(** The error answers of the two create endpoints. *)
Definition issueFailed (error : string) : Response :=
  mkResponse 500
    (JObj [("success", JBool false);
           ("error", JStr error);
           ("message", JStr "Failed to create credential issuance request")]).

Definition verifyFailed (error : string) : Response :=
  mkResponse 500
    (JObj [("success", JBool false);
           ("error", JStr error);
           ("message", JStr "Failed to create credential verification request")]).

(** The calls a create attempt makes for the request itself: none (it
    failed before), one token acquisition, or one token acquisition and one
    post to [endpoint]. *)
Definition singleAttempt (scope endpoint : string) (tail : list Call) : Prop :=
  tail = [] \/ tail = [AcquireToken scope] \/
  exists doc auth, tail = [AcquireToken scope; AxiosPost endpoint doc auth].

(** Whether the display name of server.js 278 can be built for
    [userData]: it has a truthy [displayName], or the first and the last
    name the template literal falls back to have a string. *)
Definition namesConvert (userData : JsVal) : bool :=
  truthy (propOf userData "displayName")
  || (stringifiable (jsOr (propOf userData "firstName")
                       (jsOr (propOf userData "givenName") (JStr "Employee")))
      && stringifiable (jsOr (propOf userData "lastName")
                          (jsOr (propOf userData "surname") (JStr "User")))).

(** The display name claim for [userData]. *)
Definition displayNameOf {rt : Runtime} (userData : JsVal) : JsVal :=
  match IssueApp.displayNameClaim
          (propOf userData "displayName") (propOf userData "firstName")
          (propOf userData "givenName") (propOf userData "lastName")
          (propOf userData "surname") with
  | Ok claim => claim
  | Throw _ => JUndefined
  end.

(** The document [createIssuanceRequest] posts for [userData]. *)
Definition issuanceDocument {rt : Runtime} (w : World) (userData : JsVal) : JsVal :=
  JObj (IssueApp.issuanceRequestOf w (uuidv4 w 0)
          (displayNameOf userData) (propOf userData "firstName")
          (propOf userData "givenName") (propOf userData "lastName")
          (propOf userData "surname") (propOf userData "email")
          (propOf userData "mail") (propOf userData "jobTitle")
          (propOf userData "preferredLanguage")
          (propOf userData "userPrincipalName")
          (propOf userData "revocationId") (propOf userData "photo")).

(** The options [createVerificationRequest] works with. *)
Definition optionsOf (options0 : JsVal) : JsVal :=
  match options0 with
  | JUndefined => JObj []
  | _ => options0
  end.

(** The document [createVerificationRequest] posts. *)
Definition presentationDocument {rt : Runtime} (w : World) (options0 : JsVal) : JsVal :=
  VerifyApp.verificationRequestOf w (uuidv4 w 0)
    (propOf (optionsOf options0) "includeFaceCheck").

(** The Authorization header for a token. *)
Definition bearer {rt : Runtime} (accessToken : JsVal) : string :=
  "Bearer " +:+ ToString accessToken.

(** [error.errorCode || error.message]. *)
Definition codeOrMessage (error : JsError) : string :=
  match errorCode error with
  | Some c => if String.eqb c "" then message error else c
  | None => message error
  end.

(** What the create functions return for the platform's answer [data]. *)
Definition issuanceResult (w : World) (data : JsVal) : JsVal :=
  JObj [("requestId", JStr (uuidv4 w 0));
        ("url", propOf data "url");
        ("expiry", propOf data "expiry");
        ("qrCode", propOf data "qrCode");
        ("pin", issuancePin w)].

Definition presentationResult (w : World) (data : JsVal) : JsVal :=
  JObj [("requestId", JStr (uuidv4 w 0));
        ("url", propOf data "url");
        ("expiry", propOf data "expiry");
        ("qrCode", propOf data "qrCode")].

(** The profile [getUserProfile] builds from Graph's answer [user]. *)
Definition graphProfile (user : JsVal) : JsVal :=
  JObj [("displayName", propOf user "displayName");
        ("givenName", propOf user "givenName");
        ("surname", propOf user "surname");
        ("mail", jsOr (propOf user "mail") (propOf user "userPrincipalName"));
        ("jobTitle", jsOr (propOf user "jobTitle") (JStr "Employee"));
        ("preferredLanguage", jsOr (propOf user "preferredLanguage") (JStr "en-US"));
        ("userPrincipalName", propOf user "userPrincipalName");
        ("photo", JNull)].

(** What [getUserProfile] returns or throws for Graph's answer. *)
Definition profileOutcome (answer : Outcome JsVal) : Outcome JsVal :=
  match answer with
  | Ok user =>
      if nullish user
      then Throw (Error ("Failed to fetch user profile: "
                         +:+ message (typeErrorRead user "displayName")))
      else Ok (graphProfile user)
  | Throw e => Throw (Error ("Failed to fetch user profile: " +:+ message e))
  end.

(** The principal name the issuing handler looks up. *)
Definition lookupName (user : JsVal) : JsVal :=
  jsOr (propOf user "userPrincipalName") (propOf user "email").

(** The principal name GET /api/user looks up. *)
Definition userLookupName (user : JsVal) : JsVal :=
  jsOr (propOf user "userPrincipalName")
       (jsOr (propOf user "email") (propOf user "userDetails")).

(** The profile GET /api/user falls back to. *)
Definition userFallback (user : JsVal) : JsVal :=
  JObj [("displayName", jsOr (propOf user "name") (JStr "Unknown User"));
        ("mail", jsOr (propOf user "email") (JStr "No email"));
        ("jobTitle", JStr "Employee");
        ("userPrincipalName",
         jsOr (propOf user "userPrincipalName") (propOf user "email"))].

(** The profile the issuing handler builds from the Easy Auth user when
    Graph fails; it throws when the name has to be split and is not a
    string. *)
Definition easyAuthProfile (user : JsVal) : Outcome JsVal :=
  let? givenName :=
    orElse (Ok (propOf user "givenName"))
           (IssueApp.splitName (propOf user "name") (fun parts => List.hd "" parts)) in
  let? surname :=
    orElse (Ok (propOf user "surname"))
           (IssueApp.splitName (propOf user "name")
              (fun parts => joinSpace (List.tl parts))) in
  Ok (JObj [("displayName", propOf user "name");
            ("givenName", givenName);
            ("surname", surname);
            ("mail", propOf user "email");
            ("jobTitle", JStr "Employee");
            ("preferredLanguage", JStr "en-US");
            ("userPrincipalName", lookupName user)]).

(** The profile after the photo step, for what [getUserPhoto] gave. *)
Definition withPhoto (userProfile : JsVal) (photo : Outcome JsVal) : JsVal :=
  match photo with
  | Ok userPhoto =>
      if truthy userPhoto then setProp userProfile "photo" userPhoto else userProfile
  | Throw _ => userProfile
  end.

(** The success answer of POST /api/issue-credential. *)
Definition issueCreated (result : JsVal) : Response :=
  json (JObj [("success", JBool true);
              ("requestId", propOf result "requestId");
              ("url", propOf result "url");
              ("expiry", propOf result "expiry");
              ("qrCode", propOf result "qrCode");
              ("pin", propOf result "pin");
              ("message", JStr "Credential issuance request created successfully")]).

(** The success answer of POST /api/verify-credential. *)
Definition verifyCreated (result includeFaceCheck : JsVal) : Response :=
  json (JObj [("success", JBool true);
              ("requestId", propOf result "requestId");
              ("url", propOf result "url");
              ("expiry", propOf result "expiry");
              ("qrCode", propOf result "qrCode");
              ("faceCheckEnabled", includeFaceCheck);
              ("message", JStr "Credential verification request created successfully")]).

(** [includeFaceCheck] as POST /api/verify-credential reads it. *)
Definition faceCheckOf (body : JsVal) : JsVal :=
  match propOf body "includeFaceCheck" with
  | JUndefined => JBool false
  | _ => propOf body "includeFaceCheck"
  end.

(** A name that is there and is not a string: [name?.split] is no
    function. *)
Definition unsplittable (name : JsVal) : bool :=
  match name with
  | JUndefined | JNull | JStr _ => false
  | _ => true
  end.

Definition isObject (v : JsVal) : bool :=
  match v with
  | JObj _ => true
  | _ => false
  end.

Definition profilePath {rt : Runtime} (user : JsVal) : string :=
  "/users/" +:+ ToString (lookupName user).

(** [doc.requestedCredentials[0].configuration.validation]. *)
Definition validationOf (doc : JsVal) : JsVal :=
  propOf (propOf (match propOf doc "requestedCredentials" with
                  | JArr (credential :: _) => credential
                  | _ => JUndefined
                  end) "configuration") "validation".

(** [doc.callback.state] and [doc.callback.url]. *)
Definition callbackStateOf (doc : JsVal) : JsVal :=
  propOf (propOf doc "callback") "state".

Definition callbackUrlOf (doc : JsVal) : JsVal :=
  propOf (propOf doc "callback") "url".

(** The options POST /api/verify-credential passes on. *)
Definition verifyOptions (body : JsVal) : JsVal :=
  JObj [("includeFaceCheck", faceCheckOf body)].

(** The claims of the posted issuance document. *)
Definition claimsOf (doc : JsVal) : JsVal := propOf doc "claims".

(** A setting that is there and not empty. *)
Definition isSet (process_env : string -> option string) (name : string) : Prop :=
  exists v, process_env name = Some v /\ v <> "".

Definition isArray (v : JsVal) : bool :=
  match v with
  | JArr _ => true
  | _ => false
  end.

(** A decoded header that is a JSON number, string, [true]/[false] or
    array. *)
Definition notAnObject (v : JsVal) : bool :=
  match v with
  | JBool _ | JNum _ | JStr _ | JArr _ => true
  | _ => false
  end.

(** The user [parseEasyAuthUser] builds from a principal without any
    property. *)
Definition blankUser : JsVal :=
  JObj [("userId", JUndefined);
        ("userDetails", JUndefined);
        ("identityProvider", JUndefined);
        ("name", JUndefined);
        ("email", JUndefined);
        ("givenName", JNull);
        ("surname", JNull);
        ("userPrincipalName", JUndefined);
        ("isAuthenticated", JBool true)].

(** ** Properties *)

(** *** The status endpoint *)

Lemma issue_status_found (id : string) (s : IssueApp.State) (r : IssueApp.TrackedRequest) :
  requestStore s !! id = Some r ->
  IssueApp.getRequestStatus id s =
    (Ok (json (JObj [("success", JBool true);
                     ("requestId", JStr id);
                     ("status", IssueApp.status r);
                     ("type", IssueApp.type r);
                     ("created", IssueApp.created r);
                     ("pin", IssueApp.pin r)])), s).
Proof.
  intros H. unfold IssueApp.getRequestStatus, bind, storeGet, gets.
  now rewrite H.
Qed.

Lemma verify_status_found (id : string) (s : VerifyApp.State) (r : VerifyApp.TrackedRequest) :
  requestStore s !! id = Some r ->
  VerifyApp.getRequestStatus id s =
    (Ok (json (JObj [("success", JBool true);
                     ("requestId", JStr id);
                     ("status", VerifyApp.status r);
                     ("type", VerifyApp.type r);
                     ("created", VerifyApp.created r);
                     ("verifiedCredential", jsOr (VerifyApp.verifiedCredential r) JNull);
                     ("faceCheckResult", jsOr (VerifyApp.faceCheckResult r) JNull)])), s).
Proof.
  intros H. unfold VerifyApp.getRequestStatus, bind, storeGet, gets.
  now rewrite H.
Qed.

(** C4. A status query for an id without an entry, whatever the string
    looks like, is answered 404 with
    [{success: false, error: "Request not found"}] by both services, and
    leaves the store and the call log as they were. *)
Theorem status_of_unknown_id_is_404 (id : string)
    (si : IssueApp.State) (sv : VerifyApp.State) :
  requestStore si !! id = None ->
  requestStore sv !! id = None ->
  IssueApp.getRequestStatus id si = (Ok notFound, si) /\
  VerifyApp.getRequestStatus id sv = (Ok notFound, sv).
Proof.
  intros Hi Hv.
  unfold IssueApp.getRequestStatus, VerifyApp.getRequestStatus, bind, storeGet, gets.
  now rewrite Hi, Hv.
Qed.

Lemma status_of_unknown_id_is_404_witness :
  IssueApp.getRequestStatus "nonexistent-id" Sample.issueState
    = (Ok notFound, Sample.issueState) /\
  VerifyApp.getRequestStatus "nonexistent-id" Sample.verifyState
    = (Ok notFound, Sample.verifyState).
Proof.
  apply (status_of_unknown_id_is_404 "nonexistent-id"); reflexivity.
Defined.

(** *** Reading properties and updating stored objects *)

Lemma getProp_ok (v : JsVal) (name : string) :
  nullish v = false -> getProp v name = Ok (propOf v name).
Proof. destruct v; simpl; congruence. Qed.

Lemma getProp_inv (v : JsVal) (name : string) (x : JsVal) :
  getProp v name = Ok x -> nullish v = false /\ x = propOf v name.
Proof. destruct v; simpl; intros H; inversion H; auto. Qed.

Lemma truthy_not_nullish (v : JsVal) : truthy v = true -> nullish v = false.
Proof. destruct v; simpl; congruence. Qed.

Lemma alter_known {R : Type} (f : R -> R) (id : string) (r : R) (m : gmap string R) :
  m !! id = Some r -> alter f id m = <[id := f r]> m.
Proof.
  intros H. apply map_eq. intros j.
  destruct (decide (id = j)) as [<- | Hne].
  - rewrite lookup_alter_eq, lookup_insert_eq, H. reflexivity.
  - rewrite lookup_alter_ne, lookup_insert_ne by assumption. reflexivity.
Qed.

Ltac run :=
  cbv [bind ret lift throw tryCatch gets modify storeGet storeSet await record
       IssueApp.assign IssueApp.storeSetSame IssueApp.storeGetValue
       VerifyApp.assign VerifyApp.storeSetSame VerifyApp.storeGetValue];
  cbn [requestStore calls].

(** *** Template literals over request data *)

Lemma printable_ok (v : JsVal) : stringifiable v = true -> printable v = Ok tt.
Proof. intros H. unfold printable. now rewrite H. Qed.

Lemma printable_throw (v : JsVal) :
  stringifiable v = false -> printable v = Throw typeErrorPrimitive.
Proof. intros H. unfold printable. now rewrite H. Qed.

Lemma toStringOf_ok {rt : Runtime} (v : JsVal) :
  stringifiable v = true -> toStringOf v = Ok (ToString v).
Proof. intros H. unfold toStringOf. now rewrite H. Qed.

Lemma toStringOf_throw {rt : Runtime} (v : JsVal) :
  stringifiable v = false -> toStringOf v = Throw typeErrorPrimitive.
Proof. intros H. unfold toStringOf. now rewrite H. Qed.

(** *** The callback of the issue service *)

Lemma issue_callback_known (w : World) (req : Request) (s : IssueApp.State)
    (id : string) (code : JsVal) (r : IssueApp.TrackedRequest) :
  getProp (req_body req) "state" = Ok (JStr id) ->
  getProp (req_body req) "code" = Ok code ->
  stringifiable code = true ->
  requestStore s !! id = Some r ->
  IssueApp.postRequestCallback w req s =
    (Ok callbackReceived,
     mkMachine (<[id := IssueApp.set_updated (JDate (now w)) (IssueApp.set_status code r)]>
                  (requestStore s))
               (calls s)).
Proof.
  intros Hs Hc Hp Hr. unfold IssueApp.postRequestCallback. run.
  rewrite Hs, Hc, (printable_ok (JStr id) eq_refl), (printable_ok code Hp), Hr.
  rewrite (alter_known _ _ _ _ Hr).
  rewrite (alter_known _ id (IssueApp.set_status code r)) by apply lookup_insert_eq.
  rewrite lookup_insert_eq. cbn [requestStore calls].
  rewrite !insert_insert_eq. reflexivity.
Qed.

Lemma issue_callback_unknown (w : World) (req : Request) (s : IssueApp.State)
    (v code : JsVal) :
  getProp (req_body req) "state" = Ok v ->
  getProp (req_body req) "code" = Ok code ->
  stringifiable v = true ->
  stringifiable code = true ->
  (forall id, v = JStr id -> requestStore s !! id = None) ->
  IssueApp.postRequestCallback w req s = (Ok callbackReceived, s).
Proof.
  intros Hs Hc Hpv Hpc Hn. unfold IssueApp.postRequestCallback. run.
  rewrite Hs, Hc, (printable_ok v Hpv), (printable_ok code Hpc).
  destruct v; try reflexivity.
  rewrite (Hn s0 eq_refl). reflexivity.
Qed.

(** A state or code without a string ends the handler at its first log
    line. *)
Lemma issue_callback_unprintable (w : World) (req : Request) (s : IssueApp.State)
    (v code : JsVal) :
  getProp (req_body req) "state" = Ok v ->
  getProp (req_body req) "code" = Ok code ->
  stringifiable v && stringifiable code = false ->
  IssueApp.postRequestCallback w req s = (Throw typeErrorPrimitive, s).
Proof.
  intros Hs Hc Hp. unfold IssueApp.postRequestCallback. run.
  rewrite Hs, Hc. unfold printable.
  destruct (stringifiable v); [ | reflexivity].
  cbn [andb] in Hp. rewrite Hp. reflexivity.
Qed.

(** *** The callback of the verify service *)

Section VerifyCallback.
Context {rt : Runtime} (w : World).

(** A non-empty array whose first entry is an object is attached, and
    then its face check is logged. *)
Lemma attachVerified_entry (id : string) (body cd : JsVal) (rest : list JsVal)
    (s : VerifyApp.State) (r : VerifyApp.TrackedRequest) :
  getProp body "verifiedCredentialsData" = Ok (JArr (cd :: rest)) ->
  nullish cd = false ->
  requestStore s !! id = Some r ->
  VerifyApp.attachVerified id body s =
    (if printableFaceCheck cd then Ok tt else Throw typeErrorPrimitive,
     mkMachine (<[id := attached cd r]> (requestStore s)) (calls s)).
Proof.
  intros Hv Hcd Hr. unfold VerifyApp.attachVerified. run.
  rewrite Hv. cbn [truthy getLength gtZero getIndex0 hd List.length inject_Z Qnum].
  replace (0 <? Z.of_nat (S (List.length rest))) with true
    by (symmetry; apply Z.ltb_lt; lia).
  rewrite !(getProp_ok cd) by assumption. cbn [requestStore calls].
  rewrite (alter_known _ _ _ _ Hr).
  unfold attached, printableFaceCheck. fold (verifiedCredentialOf cd).
  destruct (truthy (propOf cd "faceCheck")) eqn:Hf.
  - rewrite !(getProp_ok (propOf cd "faceCheck")) by now apply truthy_not_nullish.
    cbn [requestStore calls negb orb].
    rewrite (alter_known _ id (VerifyApp.set_verifiedCredential (verifiedCredentialOf cd) r))
      by apply lookup_insert_eq.
    rewrite insert_insert_eq. unfold printable, faceCheckResultOf.
    destruct (stringifiable (propOf (propOf cd "faceCheck") "confidence")); reflexivity.
  - reflexivity.
Qed.

(** Whatever the body holds, [attachVerified] only assigns
    [verifiedCredential] and [faceCheckResult] of the stored object. *)
Lemma attachVerified_frame (id : string) (body : JsVal)
    (s : VerifyApp.State) (r : VerifyApp.TrackedRequest) :
  requestStore s !! id = Some r ->
  exists o r',
    VerifyApp.attachVerified id body s =
      (o, mkMachine (<[id := r']> (requestStore s)) (calls s)) /\
    sameRequest r r' /\
    VerifyApp.status r' = VerifyApp.status r /\
    VerifyApp.updated r' = VerifyApp.updated r.
Proof.
  intros Hr.
  assert (Hid : forall o, (o, s) =
      (o : Outcome unit, mkMachine (<[id := r]> (requestStore s)) (calls s))).
  { intros o. rewrite (insert_id _ _ _ Hr). destruct s; reflexivity. }
  assert (Hsame : sameRequest r r /\ VerifyApp.status r = VerifyApp.status r /\
                  VerifyApp.updated r = VerifyApp.updated r)
    by (unfold sameRequest; tauto).
  unfold VerifyApp.attachVerified. run.
  destruct (getProp body "verifiedCredentialsData") as [vcd | e];
    [ | exists (Throw e), r; split; [apply Hid | exact Hsame] ].
  destruct (truthy vcd); [ | exists (Ok tt), r; split; [apply Hid | exact Hsame] ].
  destruct (getLength vcd) as [len | e];
    [ | exists (Throw e), r; split; [apply Hid | exact Hsame] ].
  destruct (gtZero len); [ | exists (Ok tt), r; split; [apply Hid | exact Hsame] ].
  destruct (getIndex0 vcd) as [cd | e];
    [ | exists (Throw e), r; split; [apply Hid | exact Hsame] ].
  destruct (getProp cd "type") as [ty | e];
    [ | exists (Throw e), r; split; [apply Hid | exact Hsame] ].
  destruct (getProp cd "issuer") as [iss | e];
    [ | exists (Throw e), r; split; [apply Hid | exact Hsame] ].
  destruct (getProp cd "claims") as [cl | e];
    [ | exists (Throw e), r; split; [apply Hid | exact Hsame] ].
  destruct (getProp cd "credentialSubject") as [cs | e];
    [ | exists (Throw e), r; split; [apply Hid | exact Hsame] ].
  cbn [requestStore calls].
  rewrite (alter_known _ _ _ _ Hr).
  set (r1 := VerifyApp.set_verifiedCredential _ r).
  assert (H1 : sameRequest r r1 /\ VerifyApp.status r1 = VerifyApp.status r /\
               VerifyApp.updated r1 = VerifyApp.updated r)
    by (unfold sameRequest; cbn; tauto).
  destruct (getProp cd "faceCheck") as [fc | e];
    [ | exists (Throw e), r1; split; [reflexivity | exact H1] ].
  destruct (truthy fc); [ | exists (Ok tt), r1; split; [reflexivity | exact H1] ].
  destruct (getProp fc "faceCheckPassed") as [fp | e];
    [ | exists (Throw e), r1; split; [reflexivity | exact H1] ].
  destruct (getProp fc "confidence") as [cf | e];
    [ | exists (Throw e), r1; split; [reflexivity | exact H1] ].
  cbn [requestStore calls].
  rewrite (alter_known _ id r1) by apply lookup_insert_eq.
  rewrite insert_insert_eq.
  destruct (printable cf) as [[] | e].
  - eexists (Ok tt), _. split; [reflexivity | ].
    unfold sameRequest; cbn; tauto.
  - eexists (Throw e), _. split; [reflexivity | ].
    unfold sameRequest; cbn; tauto.
Qed.

End VerifyCallback.

Section VerifyCallbackRoute.
Context {rt : Runtime} (w : World).

Lemma verify_callback_head (req : Request) (s : VerifyApp.State)
    (id : string) (code : JsVal) (r : VerifyApp.TrackedRequest) :
  getProp (req_body req) "state" = Ok (JStr id) ->
  getProp (req_body req) "code" = Ok code ->
  stringifiable code = true ->
  requestStore s !! id = Some r ->
  VerifyApp.postVerificationCallback w req s =
    (let s1 := mkMachine (<[id := stamped w code r]> (requestStore s)) (calls s) in
     match (if strictEqStr code "presentation_verified"
            then VerifyApp.attachVerified id (req_body req) s1
            else (Ok tt, s1)) with
     | (Ok _, s2) =>
         (Ok verificationCallbackReceived,
          match requestStore s2 !! id with
          | Some r2 => mkMachine (<[id := r2]> (requestStore s2)) (calls s2)
          | None => s2
          end)
     | (Throw e, s2) => (Throw e, s2)
     end).
Proof.
  intros Hs Hc Hp Hr. unfold VerifyApp.postVerificationCallback. run.
  rewrite Hs, Hc, (printable_ok (JStr id) eq_refl), (printable_ok code Hp), Hr.
  rewrite (alter_known _ _ _ _ Hr).
  rewrite (alter_known _ id (VerifyApp.set_status code r)) by apply lookup_insert_eq.
  rewrite insert_insert_eq. fold (stamped w code r).
  destruct (strictEqStr code "presentation_verified").
  - destruct (VerifyApp.attachVerified id (req_body req) _) as [[[] | e] s2]; [ | reflexivity].
    destruct (requestStore s2 !! id); reflexivity.
  - cbn [requestStore calls]. rewrite lookup_insert_eq. reflexivity.
Qed.

(** A callback with any other code only stamps the status and the time. *)
Lemma verify_callback_plain (req : Request) (s : VerifyApp.State)
    (id : string) (code : JsVal) (r : VerifyApp.TrackedRequest) :
  getProp (req_body req) "state" = Ok (JStr id) ->
  getProp (req_body req) "code" = Ok code ->
  stringifiable code = true ->
  requestStore s !! id = Some r ->
  strictEqStr code "presentation_verified" = false ->
  VerifyApp.postVerificationCallback w req s =
    (Ok verificationCallbackReceived,
     mkMachine (<[id := stamped w code r]> (requestStore s)) (calls s)).
Proof.
  intros Hs Hc Hp Hr Hne. rewrite (verify_callback_head _ _ _ _ _ Hs Hc Hp Hr), Hne.
  cbn [requestStore calls]. rewrite lookup_insert_eq, insert_insert_eq. reflexivity.
Qed.

(** A [presentation_verified] callback with a credential entry attaches
    it; the handler throws afterwards when the face check cannot be
    logged. *)
Lemma verify_callback_verified (req : Request) (s : VerifyApp.State)
    (id : string) (cd : JsVal) (rest : list JsVal) (r : VerifyApp.TrackedRequest) :
  getProp (req_body req) "state" = Ok (JStr id) ->
  getProp (req_body req) "code" = Ok (JStr "presentation_verified") ->
  getProp (req_body req) "verifiedCredentialsData" = Ok (JArr (cd :: rest)) ->
  nullish cd = false ->
  requestStore s !! id = Some r ->
  VerifyApp.postVerificationCallback w req s =
    (if printableFaceCheck cd then Ok verificationCallbackReceived
     else Throw typeErrorPrimitive,
     mkMachine (<[id := attached cd (stamped w (JStr "presentation_verified") r)]>
                  (requestStore s)) (calls s)).
Proof.
  intros Hs Hc Hv Hcd Hr. rewrite (verify_callback_head _ _ _ _ _ Hs Hc eq_refl Hr).
  cbn [strictEqStr String.eqb Ascii.eqb Bool.eqb].
  cbv zeta.
  rewrite (attachVerified_entry id _ cd rest _ (stamped w (JStr "presentation_verified") r) Hv Hcd)
    by apply lookup_insert_eq.
  cbn [requestStore calls]. rewrite !insert_insert_eq.
  destruct (printableFaceCheck cd); [ | reflexivity].
  cbn [requestStore calls]. rewrite lookup_insert_eq, !insert_insert_eq. reflexivity.
Qed.

(** Whatever the body of a callback for a known id holds, and whether or
    not the handler throws after its first log line, the stored object
    gets the code as its status and keeps the fields written at
    creation. *)
Lemma verify_callback_frame (req : Request) (s : VerifyApp.State)
    (id : string) (code : JsVal) (r : VerifyApp.TrackedRequest) :
  getProp (req_body req) "state" = Ok (JStr id) ->
  getProp (req_body req) "code" = Ok code ->
  stringifiable code = true ->
  requestStore s !! id = Some r ->
  exists o r',
    VerifyApp.postVerificationCallback w req s =
      (o, mkMachine (<[id := r']> (requestStore s)) (calls s)) /\
    sameRequest r r' /\
    VerifyApp.status r' = code /\
    VerifyApp.updated r' = JDate (now w).
Proof.
  intros Hs Hc Hp Hr. rewrite (verify_callback_head _ _ _ _ _ Hs Hc Hp Hr).
  cbv zeta.
  destruct (strictEqStr code "presentation_verified").
  - destruct (attachVerified_frame id (req_body req)
                (mkMachine (<[id := stamped w code r]> (requestStore s)) (calls s))
                (stamped w code r)) as (o & r' & Hrun & Hsame & Hst & Hup).
    { apply lookup_insert_eq. }
    rewrite Hrun. cbn [requestStore calls] in *.
    rewrite insert_insert_eq.
    destruct o as [[] | e].
    + rewrite lookup_insert_eq, insert_insert_eq.
      exists (Ok verificationCallbackReceived), r'. repeat split; try apply Hsame; assumption.
    + exists (Throw e), r'. repeat split; try apply Hsame; assumption.
  - cbn [requestStore calls]. rewrite lookup_insert_eq, insert_insert_eq.
    exists (Ok verificationCallbackReceived), (stamped w code r).
    unfold sameRequest; cbn; tauto.
Qed.

Lemma verify_callback_unknown (req : Request) (s : VerifyApp.State) (v code : JsVal) :
  getProp (req_body req) "state" = Ok v ->
  getProp (req_body req) "code" = Ok code ->
  stringifiable v = true ->
  stringifiable code = true ->
  (forall id, v = JStr id -> requestStore s !! id = None) ->
  VerifyApp.postVerificationCallback w req s = (Ok verificationCallbackReceived, s).
Proof.
  intros Hs Hc Hpv Hpc Hn. unfold VerifyApp.postVerificationCallback. run.
  rewrite Hs, Hc, (printable_ok v Hpv), (printable_ok code Hpc).
  destruct v; try reflexivity.
  rewrite (Hn s0 eq_refl). reflexivity.
Qed.

Lemma verify_callback_unprintable (req : Request) (s : VerifyApp.State)
    (v code : JsVal) :
  getProp (req_body req) "state" = Ok v ->
  getProp (req_body req) "code" = Ok code ->
  stringifiable v && stringifiable code = false ->
  VerifyApp.postVerificationCallback w req s = (Throw typeErrorPrimitive, s).
Proof.
  intros Hs Hc Hp. unfold VerifyApp.postVerificationCallback. run.
  rewrite Hs, Hc. unfold printable.
  destruct (stringifiable v); [ | reflexivity].
  cbn [andb] in Hp. rewrite Hp. reflexivity.
Qed.

End VerifyCallbackRoute.

Section VerifyCallbackRegular.
Context {rt : Runtime} (w : World).

Lemma verify_callback_regular (req : Request) (s : VerifyApp.State)
    (id : string) (code : JsVal) (r : VerifyApp.TrackedRequest) :
  getProp (req_body req) "state" = Ok (JStr id) ->
  getProp (req_body req) "code" = Ok code ->
  requestStore s !! id = Some r ->
  regularCallback (req_body req) = true ->
  exists s', VerifyApp.postVerificationCallback w req s
             = (Ok verificationCallbackReceived, s').
Proof.
  intros Hs Hc Hr Hreg.
  destruct (getProp_inv _ _ _ Hc) as [Hnn ->].
  unfold regularCallback in Hreg.
  apply andb_prop in Hreg as [Hreg Hrest].
  apply andb_prop in Hreg as [_ Hp].
  destruct (strictEqStr (propOf (req_body req) "code") "presentation_verified") eqn:Hpv.
  - assert (Hcode : propOf (req_body req) "code" = JStr "presentation_verified").
    { destruct (propOf (req_body req) "code"); try discriminate.
      cbn in Hpv. apply String.eqb_eq in Hpv. now subst. }
    rewrite Hcode in Hc.
    cbn [negb orb] in Hrest.
    destruct (truthy (propOf (req_body req) "verifiedCredentialsData")) eqn:Ht.
    + cbn [negb orb] in Hrest.
      destruct (propOf (req_body req) "verifiedCredentialsData") as [| | | | | [|cd rest] | | |] eqn:Hv;
        try discriminate.
      apply andb_prop in Hrest as [Hcd Hfc].
      eexists.
      rewrite (verify_callback_verified w req s id cd rest r Hs Hc); [ | | | exact Hr].
      * rewrite Hfc. reflexivity.
      * rewrite (getProp_ok _ _ Hnn). now rewrite Hv.
      * now destruct (nullish cd).
    + rewrite (verify_callback_head _ _ _ _ _ _ Hs Hc eq_refl Hr).
      cbn [strictEqStr String.eqb Ascii.eqb Bool.eqb]. cbv zeta.
      unfold VerifyApp.attachVerified. run.
      rewrite (getProp_ok _ _ Hnn), Ht. cbn [requestStore calls].
      rewrite lookup_insert_eq. eexists. reflexivity.
  - eexists. eapply verify_callback_plain; eauto.
Qed.

End VerifyCallbackRegular.

(** *** Claims on the callbacks *)

(** C2. For an id with an entry, a callback overwrites the status with
    whatever code it carries, for every code that has a string (every
    status string has one; the handler logs the code in a template literal
    before it reads the store): after a callback with code [a] and one
    with code [b] the status endpoint reports [b], whatever [a] was (the
    same code again, a terminal one).  The issue service acknowledges both
    callbacks; so does the verify service for every callback it can read
    ([regularCallback]), and it overwrites the status even otherwise. *)
Theorem callback_status_last_write_wins {rt : Runtime} (w1 w2 : World)
    (req1 req2 : Request) (id : string) (a b : JsVal)
    (si : IssueApp.State) (ri : IssueApp.TrackedRequest)
    (sv : VerifyApp.State) (rv : VerifyApp.TrackedRequest) :
  getProp (req_body req1) "state" = Ok (JStr id) ->
  getProp (req_body req1) "code" = Ok a ->
  getProp (req_body req2) "state" = Ok (JStr id) ->
  getProp (req_body req2) "code" = Ok b ->
  stringifiable a = true ->
  stringifiable b = true ->
  requestStore si !! id = Some ri ->
  requestStore sv !! id = Some rv ->
  (exists s1 s2,
     IssueApp.postRequestCallback w1 req1 si = (Ok callbackReceived, s1) /\
     IssueApp.postRequestCallback w2 req2 s1 = (Ok callbackReceived, s2) /\
     IssueApp.getRequestStatus id s2 = (Ok (issueStatus id b ri), s2)) /\
  (exists o1 s1 o2 s2 r2,
     VerifyApp.postVerificationCallback w1 req1 sv = (o1, s1) /\
     VerifyApp.postVerificationCallback w2 req2 s1 = (o2, s2) /\
     requestStore s2 !! id = Some r2 /\
     VerifyApp.status r2 = b /\
     VerifyApp.getRequestStatus id s2 =
       (Ok (verifyStatus id b (jsOr (VerifyApp.verifiedCredential r2) JNull)
              (jsOr (VerifyApp.faceCheckResult r2) JNull) rv), s2) /\
     (regularCallback (req_body req1) = true -> o1 = Ok verificationCallbackReceived) /\
     (regularCallback (req_body req2) = true -> o2 = Ok verificationCallbackReceived)).
Proof.
  intros Hs1 Hc1 Hs2 Hc2 Ha Hb Hi Hv. split.
  - eexists _, _. split; [ | split].
    + apply (issue_callback_known w1 req1 si id a ri Hs1 Hc1 Ha Hi).
    + eapply issue_callback_known; [exact Hs2 | exact Hc2 | exact Hb | apply lookup_insert_eq].
    + erewrite issue_status_found by apply lookup_insert_eq. reflexivity.
  - destruct (verify_callback_frame w1 req1 sv id a rv Hs1 Hc1 Ha Hv)
      as (o1 & r1 & Hrun1 & Hsame1 & Hst1 & Hup1).
    assert (Hl1 : requestStore (mkMachine (<[id := r1]> (requestStore sv)) (calls sv)) !! id
                  = Some r1) by apply lookup_insert_eq.
    destruct (verify_callback_frame w2 req2 _ id b r1 Hs2 Hc2 Hb Hl1)
      as (o2 & r2 & Hrun2 & Hsame2 & Hst2 & Hup2).
    eexists o1, _, o2, _, r2.
    split; [exact Hrun1 | ]. split; [exact Hrun2 | ].
    cbn [requestStore calls].
    split; [apply lookup_insert_eq | ]. split; [exact Hst2 | ].
    split.
    + erewrite verify_status_found by apply lookup_insert_eq.
      unfold verifyStatus. rewrite Hst2.
      destruct Hsame1 as (T1 & _ & _ & C1), Hsame2 as (T2 & _ & _ & C2).
      rewrite T2, T1, C2, C1. reflexivity.
    + split; intros Hreg.
      * destruct (verify_callback_regular w1 req1 sv id a rv Hs1 Hc1 Hv Hreg) as [s' Hok].
        rewrite Hrun1 in Hok. now inversion Hok.
      * destruct (verify_callback_regular w2 req2 _ id b r1 Hs2 Hc2 Hl1 Hreg) as [s' Hok].
        rewrite Hrun2 in Hok. now inversion Hok.
Qed.

Lemma callback_status_last_write_wins_witness :
  exists s1 s2,
    IssueApp.postRequestCallback Sample.online
      (Sample.callback "r1" "issuance_successful") Sample.issueState
      = (Ok callbackReceived, s1) /\
    IssueApp.postRequestCallback Sample.online
      (Sample.callback "r1" "issuance_error") s1
      = (Ok callbackReceived, s2) /\
    IssueApp.getRequestStatus "r1" s2
      = (Ok (issueStatus "r1" (JStr "issuance_error") Sample.issued), s2).
Proof.
  apply (callback_status_last_write_wins (rt := Sample.runtime)
           Sample.online Sample.online
           (Sample.callback "r1" "issuance_successful")
           (Sample.callback "r1" "issuance_error")
           "r1" (JStr "issuance_successful") (JStr "issuance_error")
           Sample.issueState Sample.issued Sample.verifyState Sample.requested);
    reflexivity.
Defined.

(** C3. A callback whose [state] names no entry (a string without an
    entry, or not a string at all) leaves the store and the call log of
    either service exactly as they were, however its handling ends; when
    its state and code have a string (every id and status string has
    one) it is acknowledged with 200 and the confirmation message. *)
Theorem callback_for_unknown_id_is_dropped {rt : Runtime} (w : World)
    (req : Request) (v code : JsVal)
    (si : IssueApp.State) (sv : VerifyApp.State) :
  getProp (req_body req) "state" = Ok v ->
  getProp (req_body req) "code" = Ok code ->
  (forall id, v = JStr id -> requestStore si !! id = None) ->
  (forall id, v = JStr id -> requestStore sv !! id = None) ->
  (IssueApp.postRequestCallback w req si).2 = si /\
  (VerifyApp.postVerificationCallback w req sv).2 = sv /\
  (stringifiable v = true ->
   stringifiable code = true ->
   IssueApp.postRequestCallback w req si = (Ok callbackReceived, si) /\
   VerifyApp.postVerificationCallback w req sv = (Ok verificationCallbackReceived, sv)).
Proof.
  intros Hs Hc Hi Hv.
  destruct (stringifiable v && stringifiable code) eqn:Hp.
  - apply andb_prop in Hp as [Hpv Hpc].
    rewrite (issue_callback_unknown w req si v code Hs Hc Hpv Hpc Hi).
    rewrite (verify_callback_unknown w req sv v code Hs Hc Hpv Hpc Hv).
    auto.
  - rewrite (issue_callback_unprintable w req si v code Hs Hc Hp).
    rewrite (verify_callback_unprintable w req sv v code Hs Hc Hp).
    split; [reflexivity | split; [reflexivity | ]].
    intros Hpv Hpc. rewrite Hpv, Hpc in Hp. discriminate.
Qed.

Lemma callback_for_unknown_id_is_dropped_witness :
  IssueApp.postRequestCallback Sample.online
    (Sample.callback "forged" "issuance_successful") Sample.issueState
    = (Ok callbackReceived, Sample.issueState) /\
  VerifyApp.postVerificationCallback (rt := Sample.runtime) Sample.online
    (Sample.callback "forged" "issuance_successful") Sample.verifyState
    = (Ok verificationCallbackReceived, Sample.verifyState).
Proof.
  apply (callback_for_unknown_id_is_dropped (rt := Sample.runtime) Sample.online
           (Sample.callback "forged" "issuance_successful")
           (JStr "forged") (JStr "issuance_successful"));
    try reflexivity; intros id [= <-]; reflexivity.
Defined.

(** Every run of the issue callback either leaves the state alone or
    stamps one stored object. *)
Lemma issue_callback_cases (w : World) (req : Request) (s : IssueApp.State) :
  (exists o, IssueApp.postRequestCallback w req s = (o, s)) \/
  (exists id code r,
     requestStore s !! id = Some r /\
     IssueApp.postRequestCallback w req s =
       (Ok callbackReceived,
        mkMachine (<[id := IssueApp.set_updated (JDate (now w)) (IssueApp.set_status code r)]>
                     (requestStore s)) (calls s))).
Proof.
  destruct (getProp (req_body req) "state") as [v | e] eqn:Hs.
  2:{ left. unfold IssueApp.postRequestCallback. run. rewrite Hs. eauto. }
  destruct (getProp (req_body req) "code") as [code | e] eqn:Hc.
  2:{ left. unfold IssueApp.postRequestCallback. run. rewrite Hs, Hc. eauto. }
  destruct (stringifiable v && stringifiable code) eqn:Hp.
  2:{ left. eexists. apply (issue_callback_unprintable w req s v code Hs Hc Hp). }
  apply andb_prop in Hp as [Hpv Hpc].
  destruct v as [| | | | id | | | |];
    try (left; eexists; apply (issue_callback_unknown w req s _ code Hs Hc Hpv Hpc);
         discriminate).
  destruct (requestStore s !! id) as [r |] eqn:Hr.
  - right. exists id, code, r. split; [exact Hr | ].
    now apply issue_callback_known.
  - left. eexists. apply (issue_callback_unknown w req s _ code Hs Hc Hpv Hpc).
    now intros ? [= <-].
Qed.

Lemma verify_callback_cases {rt : Runtime} (w : World) (req : Request)
    (s : VerifyApp.State) :
  (exists o, VerifyApp.postVerificationCallback w req s = (o, s)) \/
  (exists id r o r',
     requestStore s !! id = Some r /\
     VerifyApp.postVerificationCallback w req s =
       (o, mkMachine (<[id := r']> (requestStore s)) (calls s)) /\
     sameRequest r r').
Proof.
  destruct (getProp (req_body req) "state") as [v | e] eqn:Hs.
  2:{ left. unfold VerifyApp.postVerificationCallback. run. rewrite Hs. eauto. }
  destruct (getProp (req_body req) "code") as [code | e] eqn:Hc.
  2:{ left. unfold VerifyApp.postVerificationCallback. run. rewrite Hs, Hc. eauto. }
  destruct (stringifiable v && stringifiable code) eqn:Hp.
  2:{ left. eexists. apply (verify_callback_unprintable w req s v code Hs Hc Hp). }
  apply andb_prop in Hp as [Hpv Hpc].
  destruct v as [| | | | id | | | |];
    try (left; eexists; apply (verify_callback_unknown w req s _ code Hs Hc Hpv Hpc);
         discriminate).
  destruct (requestStore s !! id) as [r |] eqn:Hr.
  - right.
    destruct (verify_callback_frame w req s id code r Hs Hc Hpc Hr)
      as (o & r' & Hrun & Hsame & _).
    exists id, r, o, r'. auto.
  - left. eexists. apply (verify_callback_unknown w req s _ code Hs Hc Hpv Hpc).
    now intros ? [= <-].
Qed.

(** C8. Whatever a callback request holds and however its handling ends,
    every stored request keeps its [type], its [created] time and what the
    caller supplied at creation ([userData] and [pin] in the issue
    service, [options] in the verify service) as well as the platform's
    [data]: a callback assigns [status], [updated] and, in the verify
    service, the result fields only. *)
Theorem callback_keeps_creation_fields {rt : Runtime} (w : World) (req : Request)
    (id : string)
    (si : IssueApp.State) (ri : IssueApp.TrackedRequest)
    (sv : VerifyApp.State) (rv : VerifyApp.TrackedRequest) :
  requestStore si !! id = Some ri ->
  requestStore sv !! id = Some rv ->
  (exists r',
     requestStore (IssueApp.postRequestCallback w req si).2 !! id = Some r' /\
     IssueApp.type r' = IssueApp.type ri /\
     IssueApp.created r' = IssueApp.created ri /\
     IssueApp.userData r' = IssueApp.userData ri /\
     IssueApp.pin r' = IssueApp.pin ri /\
     IssueApp.data r' = IssueApp.data ri) /\
  (exists r',
     requestStore (VerifyApp.postVerificationCallback w req sv).2 !! id = Some r' /\
     VerifyApp.type r' = VerifyApp.type rv /\
     VerifyApp.created r' = VerifyApp.created rv /\
     VerifyApp.options r' = VerifyApp.options rv /\
     VerifyApp.data r' = VerifyApp.data rv).
Proof.
  intros Hi Hv. split.
  - destruct (issue_callback_cases w req si) as [[o ->] | (id' & code & r & Hr & ->)];
      cbn [snd requestStore].
    + exists ri. repeat split; assumption || reflexivity.
    + destruct (decide (id' = id)) as [-> | Hne].
      * rewrite lookup_insert_eq. eexists. split; [reflexivity | ].
        replace r with ri by congruence. cbn. repeat split; reflexivity.
      * rewrite lookup_insert_ne by assumption. exists ri. repeat split; assumption || reflexivity.
  - destruct (verify_callback_cases w req sv) as [[o ->] | (id' & r & o & r' & Hr & -> & Hsame)];
      cbn [snd requestStore].
    + exists rv. repeat split; assumption || reflexivity.
    + destruct (decide (id' = id)) as [-> | Hne].
      * rewrite lookup_insert_eq. exists r'.
        replace rv with r by congruence.
        unfold sameRequest in Hsame. tauto.
      * rewrite lookup_insert_ne by assumption. exists rv. repeat split; assumption || reflexivity.
Qed.

Lemma callback_keeps_creation_fields_witness :
  exists r',
    requestStore (IssueApp.postRequestCallback Sample.online
                    (Sample.callback "r1" "issuance_successful") Sample.issueState).2
      !! "r1" = Some r' /\
    IssueApp.type r' = JStr "issuance" /\
    IssueApp.created r' = JDate 1700000000000 /\
    IssueApp.userData r' = JObj [("displayName", JStr "Jane Doe")] /\
    IssueApp.pin r' = JStr "1234" /\
    IssueApp.data r' = JNull.
Proof.
  apply (callback_keeps_creation_fields (rt := Sample.runtime) Sample.online
           (Sample.callback "r1" "issuance_successful") "r1"
           Sample.issueState Sample.issued Sample.verifyState Sample.requested);
    reflexivity.
Defined.


(** Against C5 for every non-empty [verifiedCredentialsData]: when the
    only credential entry is [null] the array is not empty, yet the
    handler throws when it reads the entry, nothing is attached, and the
    status endpoint reports [presentation_verified] without a result. *)
Lemma null_first_entry_attaches_no_result :
  exists e s',
    VerifyApp.postVerificationCallback (rt := Sample.runtime) Sample.online
      Edge.nullEntry Sample.verifyState = (Throw e, s') /\
    VerifyApp.getRequestStatus "r1" s' =
      (Ok (verifyStatus "r1" (JStr "presentation_verified") JNull JNull
             Sample.requested), s').
Proof. eexists _, _. split; reflexivity. Qed.

(** C5. The verify service attaches a result on one code only.  A
    callback for a stored verification request with code
    [presentation_verified] and a [verifiedCredentialsData] array whose
    first entry [cd] is not [null] stores [verifiedCredential] with the
    entry's [type], [issuer], [claims] and [credentialSubject], and
    [faceCheckResult] when the entry has [faceCheck] data; the status
    endpoint then reports that status with the result.  The callback is
    acknowledged unless the confidence of the face check has no string:
    then the handler throws after it attached the result.  A callback
    with any other code leaves both result fields of the request as they
    were, and the callback of the issue service assigns [status] and
    [updated] only, whatever the code. *)
Theorem verified_presentation_attaches_result {rt : Runtime} (w : World)
    (req : Request) (id : string) (cd : JsVal) (rest : list JsVal)
    (sv : VerifyApp.State) (rv : VerifyApp.TrackedRequest)
    (si : IssueApp.State) (ri : IssueApp.TrackedRequest) :
  getProp (req_body req) "state" = Ok (JStr id) ->
  getProp (req_body req) "code" = Ok (JStr "presentation_verified") ->
  getProp (req_body req) "verifiedCredentialsData" = Ok (JArr (cd :: rest)) ->
  nullish cd = false ->
  requestStore sv !! id = Some rv ->
  requestStore si !! id = Some ri ->
  (exists s',
     VerifyApp.postVerificationCallback w req sv =
       (if printableFaceCheck cd then Ok verificationCallbackReceived
        else Throw typeErrorPrimitive, s') /\
     VerifyApp.getRequestStatus id s' =
       (Ok (verifyStatus id (JStr "presentation_verified")
              (verifiedCredentialOf cd)
              (if truthy (propOf cd "faceCheck") then faceCheckResultOf cd
               else jsOr (VerifyApp.faceCheckResult rv) JNull)
              rv), s')) /\
  (forall (other : Request) (code : JsVal),
     getProp (req_body other) "state" = Ok (JStr id) ->
     getProp (req_body other) "code" = Ok code ->
     strictEqStr code "presentation_verified" = false ->
     exists s' r',
       VerifyApp.postVerificationCallback w other sv =
         (if stringifiable code then Ok verificationCallbackReceived
          else Throw typeErrorPrimitive, s') /\
       requestStore s' !! id = Some r' /\
       VerifyApp.verifiedCredential r' = VerifyApp.verifiedCredential rv /\
       VerifyApp.faceCheckResult r' = VerifyApp.faceCheckResult rv) /\
  (forall (any : Request) (code : JsVal),
     getProp (req_body any) "state" = Ok (JStr id) ->
     getProp (req_body any) "code" = Ok code ->
     IssueApp.postRequestCallback w any si =
       if stringifiable code
       then (Ok callbackReceived,
             mkMachine (<[id := issueStamped w code ri]> (requestStore si)) (calls si))
       else (Throw typeErrorPrimitive, si)).
Proof.
  intros Hs Hc Hd Hcd Hv Hi. split; [ | split].
  - eexists. split.
    + apply (verify_callback_verified w req sv id cd rest rv Hs Hc Hd Hcd Hv).
    + erewrite verify_status_found by apply lookup_insert_eq.
      unfold verifyStatus, attached. cbv zeta.
      destruct (truthy (propOf cd "faceCheck")); reflexivity.
  - intros other code Hs' Hc' Hne.
    destruct (stringifiable code) eqn:Hp.
    + eexists _, _. split; [ | split].
      * apply (verify_callback_plain w other sv id code rv Hs' Hc' Hp Hv Hne).
      * apply lookup_insert_eq.
      * split; reflexivity.
    + exists sv, rv. split; [ | split; [exact Hv | split; reflexivity]].
      apply (verify_callback_unprintable w other sv (JStr id) code Hs' Hc' Hp).
  - intros any code Hs' Hc'.
    destruct (stringifiable code) eqn:Hp.
    + apply (issue_callback_known w any si id code ri Hs' Hc' Hp Hi).
    + apply (issue_callback_unprintable w any si (JStr id) code Hs' Hc' Hp).
Qed.

Lemma verified_presentation_attaches_result_witness :
  exists s',
    VerifyApp.postVerificationCallback (rt := Sample.runtime) Sample.online
      Sample.verified Sample.verifyState = (Ok verificationCallbackReceived, s') /\
    VerifyApp.getRequestStatus "r1" s' =
      (Ok (json (JObj [("success", JBool true);
                       ("requestId", JStr "r1");
                       ("status", JStr "presentation_verified");
                       ("type", JStr "verification");
                       ("created", JDate 1700000000000);
                       ("verifiedCredential",
                        JObj [("type", JUndefined);
                              ("issuer", JUndefined);
                              ("claims", JObj [("displayName", JStr "Jane Doe")]);
                              ("credentialSubject", JUndefined)]);
                       ("faceCheckResult", JNull)])), s').
Proof.
  apply (verified_presentation_attaches_result (rt := Sample.runtime) Sample.online
           Sample.verified "r1"
           (JObj [("claims", JObj [("displayName", JStr "Jane Doe")])]) []
           Sample.verifyState Sample.requested Sample.issueState Sample.issued);
    reflexivity.
Defined.

(** *** Creating a request *)

Section Create.
Context {rt : Runtime} (w : World).

Lemma issuanceRequest_pin (requestId : string)
    (a b c d e f g h i j k l : JsVal) :
  lookupProp (IssueApp.issuanceRequestOf w requestId a b c d e f g h i j k l) "pin"
  = pinMember w.
Proof.
  unfold IssueApp.issuanceRequestOf, pinMember. cbv zeta.
  destruct (0 <? Pin.pinCodeLength (process_env w)); reflexivity.
Qed.

(** The display name is built exactly for the profiles whose names
    convert. *)
Lemma displayNameClaim_ok (userData : JsVal) :
  namesConvert userData = true ->
  IssueApp.displayNameClaim
    (propOf userData "displayName") (propOf userData "firstName")
    (propOf userData "givenName") (propOf userData "lastName")
    (propOf userData "surname") = Ok (displayNameOf userData).
Proof.
  unfold namesConvert, displayNameOf, IssueApp.displayNameClaim. intros H.
  destruct (truthy (propOf userData "displayName")); [reflexivity | ].
  cbn [orb] in H. apply andb_prop in H as [Hg Hf].
  rewrite (toStringOf_ok _ Hg), (toStringOf_ok _ Hf). reflexivity.
Qed.

Lemma displayNameClaim_throw (userData : JsVal) :
  namesConvert userData = false ->
  IssueApp.displayNameClaim
    (propOf userData "displayName") (propOf userData "firstName")
    (propOf userData "givenName") (propOf userData "lastName")
    (propOf userData "surname") = Throw typeErrorPrimitive.
Proof.
  unfold namesConvert, IssueApp.displayNameClaim. intros H.
  destruct (truthy (propOf userData "displayName")); [discriminate | ].
  cbn [orb] in H. unfold toStringOf.
  destruct (stringifiable (jsOr (propOf userData "firstName") _)); [ | reflexivity].
  cbn [andb] in H. rewrite H. reflexivity.
Qed.

(** How a run of [createIssuanceRequest] can end: it throws with the
    store untouched, after the token call alone or after a post that
    failed; or the post succeeded and the request is stored. *)
Lemma createIssuanceRequest_outcome (userData : JsVal) (s : IssueApp.State)
    (o : Outcome JsVal) (s' : IssueApp.State) :
  IssueApp.createIssuanceRequest w userData s = (o, s') ->
  ((exists e, o = Throw e) /\
   requestStore s' = requestStore s /\
   (calls s' = calls s ++ [AcquireToken IssueApp.requestApiScope] \/
    exists doc auth e,
      axiosPost w issuanceEndpoint doc auth = Throw e /\
      calls s' = calls s ++ [AcquireToken IssueApp.requestApiScope;
                             AxiosPost issuanceEndpoint doc auth]))
  \/
  (exists resp tok props data,
     acquireTokenByClientCredential w IssueApp.requestApiScope = Ok resp /\
     getProp resp "accessToken" = Ok tok /\
     axiosPost w issuanceEndpoint (JObj props) ("Bearer " +:+ ToString tok) = Ok data /\
     lookupProp props "pin" = pinMember w /\
     calls s' = calls s ++ [AcquireToken IssueApp.requestApiScope;
                            AxiosPost issuanceEndpoint (JObj props)
                              ("Bearer " +:+ ToString tok)] /\
     requestStore s' = <[uuidv4 w 0 := issuedRequest w userData data]> (requestStore s) /\
     (o = Ok (JObj [("requestId", JStr (uuidv4 w 0));
                    ("url", propOf data "url");
                    ("expiry", propOf data "expiry");
                    ("qrCode", propOf data "qrCode");
                    ("pin", issuancePin w)])
      \/ (nullish data = true /\ exists e, o = Throw e))).
Proof.
  unfold IssueApp.createIssuanceRequest, IssueApp.getAccessToken.
  fold issuanceEndpoint. run. intros H.
  destruct (acquireTokenByClientCredential w IssueApp.requestApiScope) as [resp | e] eqn:Hresp.
  2:{ inversion H; subst. left. eauto. }
  destruct (getProp resp "accessToken") as [tok | e] eqn:Htok.
  2:{ inversion H; subst. left. eauto. }
  destruct (nullish userData) eqn:Hu.
  { assert (Hthrow : exists e, getProp userData "displayName" = Throw e)
      by (destruct userData; try discriminate; cbn; eauto).
    destruct Hthrow as [e He]. rewrite He in H.
    inversion H; subst. left. eauto. }
  rewrite !(getProp_ok userData) in H by assumption.
  destruct (namesConvert userData) eqn:Hname.
  2:{ rewrite (displayNameClaim_throw userData Hname) in H.
      inversion H; subst. left. eauto. }
  rewrite (displayNameClaim_ok userData Hname) in H.
  rewrite issuanceRequest_pin in H.
  match type of H with
  | context [axiosPost w issuanceEndpoint (JObj ?p) ?a] =>
      set (props := p) in *; set (auth := a) in *
  end.
  destruct (axiosPost w issuanceEndpoint (JObj props) auth) as [data | e] eqn:Hpost.
  2:{ inversion H; subst. left. split; [eauto | ]. split; [reflexivity | ].
      right. exists (JObj props), auth, e. split; [assumption | ].
      cbn [calls]. now rewrite <- app_assoc. }
  right. exists resp, tok, props, data.
  split; [reflexivity | ]. split; [assumption | ]. split; [assumption | ].
  split; [apply issuanceRequest_pin | ].
  assert (Hpin : forall st : IssueApp.State,
             (if truthy (pinMember w)
              then fun s0 : IssueApp.State => (getProp (pinMember w) "value", s0)
              else fun s0 : IssueApp.State => (Ok JNull, s0)) st
             = (Ok (issuancePin w), st)).
  { intros st. unfold pinMember, issuancePin. cbv zeta.
    destruct (0 <? Pin.pinCodeLength (process_env w)); reflexivity. }
  rewrite Hpin in H. cbn [requestStore calls] in H. clear Hpin.
  unfold issuedRequest.
  destruct (nullish data) eqn:Hd.
  - assert (Hthrow : exists e, getProp data "url" = Throw e)
      by (destruct data; try discriminate; cbn; eauto).
    destruct Hthrow as [e He]. rewrite He in H. inversion H; subst.
    cbn [requestStore calls]. rewrite <- app_assoc.
    split; [reflexivity | ]. split; [reflexivity | ]. right. eauto.
  - rewrite !(getProp_ok data) in H by assumption. inversion H; subst.
    cbn [requestStore calls]. rewrite <- app_assoc.
    split; [reflexivity | ]. split; [reflexivity | ]. now left.
Qed.

(** The same for [createVerificationRequest]. *)
Lemma createVerificationRequest_outcome (options0 : JsVal) (s : VerifyApp.State)
    (o : Outcome JsVal) (s' : VerifyApp.State) :
  VerifyApp.createVerificationRequest w options0 s = (o, s') ->
  ((exists e, o = Throw e) /\
   requestStore s' = requestStore s /\
   (calls s' = calls s ++ [AcquireToken VerifyApp.requestApiScope] \/
    exists doc auth e,
      axiosPost w presentationEndpoint doc auth = Throw e /\
      calls s' = calls s ++ [AcquireToken VerifyApp.requestApiScope;
                             AxiosPost presentationEndpoint doc auth]))
  \/
  (exists resp tok doc data,
     acquireTokenByClientCredential w VerifyApp.requestApiScope = Ok resp /\
     getProp resp "accessToken" = Ok tok /\
     axiosPost w presentationEndpoint doc ("Bearer " +:+ ToString tok) = Ok data /\
     calls s' = calls s ++ [AcquireToken VerifyApp.requestApiScope;
                            AxiosPost presentationEndpoint doc
                              ("Bearer " +:+ ToString tok)] /\
     requestStore s' =
       <[uuidv4 w 0 :=
           presentationRequest w
             (match options0 with JUndefined => JObj [] | _ => options0 end) data]>
         (requestStore s) /\
     (o = Ok (JObj [("requestId", JStr (uuidv4 w 0));
                    ("url", propOf data "url");
                    ("expiry", propOf data "expiry");
                    ("qrCode", propOf data "qrCode")])
      \/ (nullish data = true /\ exists e, o = Throw e))).
Proof.
  unfold VerifyApp.createVerificationRequest, VerifyApp.getAccessToken.
  fold presentationEndpoint. run. intros H.
  destruct (acquireTokenByClientCredential w VerifyApp.requestApiScope) as [resp | e] eqn:Hresp.
  2:{ inversion H; subst. left. eauto. }
  destruct (getProp resp "accessToken") as [tok | e] eqn:Htok.
  2:{ inversion H; subst. left. eauto. }
  set (options := match options0 with JUndefined => JObj [] | _ => options0 end) in *.
  destruct (getProp options "includeFaceCheck") as [fc | e] eqn:Hfc.
  2:{ inversion H; subst. left. eauto. }
  match type of H with
  | context [axiosPost w presentationEndpoint ?d ?a] =>
      set (doc := d) in *; set (auth := a) in *
  end.
  destruct (axiosPost w presentationEndpoint doc auth) as [data | e] eqn:Hpost.
  2:{ inversion H; subst. left. split; [eauto | ]. split; [reflexivity | ].
      right. exists doc, auth, e. split; [assumption | ].
      cbn [calls]. now rewrite <- app_assoc. }
  right. exists resp, tok, doc, data.
  split; [reflexivity | ]. split; [assumption | ]. split; [assumption | ].
  cbn [requestStore calls] in H. unfold presentationRequest.
  destruct (nullish data) eqn:Hd.
  - assert (Hthrow : exists e, getProp data "url" = Throw e)
      by (destruct data; try discriminate; cbn; eauto).
    destruct Hthrow as [e He]. rewrite He in H. inversion H; subst.
    cbn [requestStore calls]. rewrite <- app_assoc.
    split; [reflexivity | ]. split; [reflexivity | ]. right. eauto.
  - rewrite !(getProp_ok data) in H by assumption. inversion H; subst.
    cbn [requestStore calls]. rewrite <- app_assoc.
    split; [reflexivity | ]. split; [reflexivity | ]. now left.
Qed.

(** With a token, a readable profile and an answer of the platform the
    request is created. *)
Lemma createIssuanceRequest_returns (userData : JsVal) (s : IssueApp.State)
    (resp tok data : JsVal) :
  acquireTokenByClientCredential w IssueApp.requestApiScope = Ok resp ->
  getProp resp "accessToken" = Ok tok ->
  nullish userData = false ->
  namesConvert userData = true ->
  (forall doc, axiosPost w issuanceEndpoint doc ("Bearer " +:+ ToString tok) = Ok data) ->
  nullish data = false ->
  returned (IssueApp.createIssuanceRequest w userData s).1 = true.
Proof.
  intros Hresp Htok Hu Hname Hpost Hd.
  unfold IssueApp.createIssuanceRequest, IssueApp.getAccessToken.
  fold issuanceEndpoint. run.
  rewrite Hresp, Htok. rewrite !(getProp_ok userData) by assumption.
  rewrite (displayNameClaim_ok userData Hname).
  rewrite Hpost. rewrite issuanceRequest_pin.
  unfold pinMember. cbv zeta.
  destruct (0 <? Pin.pinCodeLength (process_env w));
    cbn [truthy getProp lookupProp String.eqb Ascii.eqb Bool.eqb requestStore calls];
    rewrite !(getProp_ok data) by assumption; reflexivity.
Qed.

Lemma createVerificationRequest_returns (options : JsVal) (s : VerifyApp.State)
    (resp tok data : JsVal) :
  acquireTokenByClientCredential w VerifyApp.requestApiScope = Ok resp ->
  getProp resp "accessToken" = Ok tok ->
  options <> JNull ->
  (forall doc, axiosPost w presentationEndpoint doc ("Bearer " +:+ ToString tok) = Ok data) ->
  nullish data = false ->
  returned (VerifyApp.createVerificationRequest w options s).1 = true.
Proof.
  intros Hresp Htok Ho Hpost Hd.
  unfold VerifyApp.createVerificationRequest, VerifyApp.getAccessToken.
  fold presentationEndpoint. run.
  rewrite Hresp, Htok.
  rewrite (getProp_ok (match options with JUndefined => JObj [] | _ => options end))
    by (destruct options; cbn; congruence).
  rewrite Hpost. cbn [requestStore calls].
  rewrite !(getProp_ok data) by assumption. reflexivity.
Qed.

End Create.

(** C1. When [createIssuanceRequest] (kind [issuance], metadata
    [userData]) or [createVerificationRequest] (kind [verification],
    metadata [options]) returns, its result carries the generated id, the
    store holds the request with the metadata under that id, and the
    status endpoint answers for that id with status [request_created], the
    kind as [type] and the time of creation as [created]. *)
Theorem created_request_is_tracked {rt : Runtime} (w : World) :
  (forall (userData : JsVal) (s : IssueApp.State),
     returned (IssueApp.createIssuanceRequest w userData s).1 = true ->
     let s' := (IssueApp.createIssuanceRequest w userData s).2 in
     exists data,
       (IssueApp.createIssuanceRequest w userData s).1 =
         Ok (JObj [("requestId", JStr (uuidv4 w 0));
                   ("url", propOf data "url");
                   ("expiry", propOf data "expiry");
                   ("qrCode", propOf data "qrCode");
                   ("pin", issuancePin w)]) /\
       requestStore s' !! uuidv4 w 0 = Some (issuedRequest w userData data) /\
       IssueApp.getRequestStatus (uuidv4 w 0) s' =
         (Ok (json (JObj [("success", JBool true);
                          ("requestId", JStr (uuidv4 w 0));
                          ("status", JStr "request_created");
                          ("type", JStr "issuance");
                          ("created", JDate (now w));
                          ("pin", issuancePin w)])), s')) /\
  (forall (options : JsVal) (s : VerifyApp.State),
     returned (VerifyApp.createVerificationRequest w options s).1 = true ->
     let s' := (VerifyApp.createVerificationRequest w options s).2 in
     exists data,
       (VerifyApp.createVerificationRequest w options s).1 =
         Ok (JObj [("requestId", JStr (uuidv4 w 0));
                   ("url", propOf data "url");
                   ("expiry", propOf data "expiry");
                   ("qrCode", propOf data "qrCode")]) /\
       requestStore s' !! uuidv4 w 0 =
         Some (presentationRequest w
                 (match options with JUndefined => JObj [] | _ => options end) data) /\
       VerifyApp.getRequestStatus (uuidv4 w 0) s' =
         (Ok (json (JObj [("success", JBool true);
                          ("requestId", JStr (uuidv4 w 0));
                          ("status", JStr "request_created");
                          ("type", JStr "verification");
                          ("created", JDate (now w));
                          ("verifiedCredential", JNull);
                          ("faceCheckResult", JNull)])), s')).
Proof.
  split.
  - intros userData s Hret s'. subst s'.
    destruct (IssueApp.createIssuanceRequest w userData s) as [o s'] eqn:Hrun.
    cbn [fst snd] in *.
    destruct (createIssuanceRequest_outcome w userData s o s' Hrun)
      as [([e ->] & _) | (resp & tok & props & data & _ & _ & _ & _ & _ & Hstore & Ho)];
      [discriminate | ].
    destruct Ho as [-> | (_ & e & ->)]; [ | discriminate].
    assert (Hl : requestStore s' !! uuidv4 w 0 = Some (issuedRequest w userData data))
      by (rewrite Hstore; apply lookup_insert_eq).
    exists data. split; [reflexivity | ]. split; [exact Hl | ].
    rewrite (issue_status_found _ _ _ Hl). reflexivity.
  - intros options s Hret s'. subst s'.
    destruct (VerifyApp.createVerificationRequest w options s) as [o s'] eqn:Hrun.
    cbn [fst snd] in *.
    destruct (createVerificationRequest_outcome w options s o s' Hrun)
      as [([e ->] & _) | (resp & tok & doc & data & _ & _ & _ & _ & Hstore & Ho)];
      [discriminate | ].
    destruct Ho as [-> | (_ & e & ->)]; [ | discriminate].
    match type of Hstore with
    | _ = <[_ := ?r]> _ =>
        assert (Hl : requestStore s' !! uuidv4 w 0 = Some r)
          by (rewrite Hstore; apply lookup_insert_eq)
    end.
    exists data. split; [reflexivity | ]. split; [exact Hl | ].
    rewrite (verify_status_found _ _ _ Hl). reflexivity.
Qed.

Lemma created_request_is_tracked_witness :
  IssueApp.getRequestStatus "r1"
    (IssueApp.createIssuanceRequest (rt := Sample.runtime) Sample.online
       Sample.profile Sample.noIssuance).2
  = (Ok (json (JObj [("success", JBool true);
                     ("requestId", JStr "r1");
                     ("status", JStr "request_created");
                     ("type", JStr "issuance");
                     ("created", JDate 1700000000000);
                     ("pin", JStr "5500")])),
     (IssueApp.createIssuanceRequest (rt := Sample.runtime) Sample.online
        Sample.profile Sample.noIssuance).2).
Proof.
  destruct (proj1 (created_request_is_tracked (rt := Sample.runtime) Sample.online)
              Sample.profile Sample.noIssuance eq_refl)
    as (data & _ & _ & H).
  exact H.
Defined.

(** *** The Easy Auth guard *)

Section EasyAuth.
Context {rt : Runtime}.

Lemma orElse_returns (a b : Outcome JsVal) :
  (exists x, a = Ok x) -> (exists y, b = Ok y) -> exists z, orElse a b = Ok z.
Proof.
  intros [x ->] [y ->]. unfold orElse, obind. destruct (truthy x); eauto.
Qed.

Lemma findFirst_typ (claimType : string) (items : list JsVal) :
  forallb (fun c => negb (nullish c)) items = true ->
  exists claim,
    findFirst (fun c => let? typ := getProp c "typ" in Ok (strictEqStr typ claimType)) items
      = Ok claim /\
    (truthy claim = true -> nullish claim = false).
Proof.
  induction items as [| c rest IH]; intros Hall.
  - exists JUndefined. split; [reflexivity | discriminate].
  - cbn [forallb] in Hall. apply andb_prop in Hall as [Hc Hrest].
    apply negb_true_iff in Hc. cbn [findFirst].
    rewrite (getProp_ok c "typ" Hc). cbn [obind].
    destruct (strictEqStr (propOf c "typ") claimType).
    + exists c. split; [reflexivity | auto].
    + apply IH, Hrest.
Qed.

Lemma findClaim_returns (claims0 : JsVal) (claimType : string) :
  wellFormedClaims claims0 = true ->
  exists v, IssueApp.findClaim (jsOr claims0 (JArr [])) claimType = Ok v.
Proof.
  intros Hwf. unfold IssueApp.findClaim, jsOr.
  assert (Harr : exists items,
             (if truthy claims0 then claims0 else JArr []) = JArr items /\
             forallb (fun c => negb (nullish c)) items = true).
  { unfold wellFormedClaims in Hwf. destruct claims0;
      try (apply negb_true_iff in Hwf; rewrite Hwf; exists []; split; reflexivity).
    exists items. auto. }
  destruct Harr as (items & -> & Hall).
  destruct (findFirst_typ claimType items Hall) as (claim & -> & Hnn).
  cbn [obind]. destruct (truthy claim) eqn:Ht; [ | eauto].
  rewrite (getProp_ok claim "val" (Hnn eq_refl)). eauto.
Qed.

(** A present, decodable header of the documented shape yields the user
    object. *)
Lemma parseEasyAuthUser_user (req : Request) (h : string) (principal : JsVal) :
  headers req !! "x-ms-client-principal" = Some h ->
  h <> "" ->
  decodeBase64Json h = Some principal ->
  wellFormedPrincipal principal = true ->
  exists identityProvider name email givenName surname userPrincipalName,
    IssueApp.parseEasyAuthUser req =
      JObj [("userId", propOf principal "userId");
            ("userDetails", propOf principal "userDetails");
            ("identityProvider", identityProvider);
            ("name", name);
            ("email", email);
            ("givenName", givenName);
            ("surname", surname);
            ("userPrincipalName", userPrincipalName);
            ("isAuthenticated", JBool true)].
Proof.
  intros Hh Hne Hdec Hwf. unfold IssueApp.parseEasyAuthUser.
  rewrite Hh. apply String.eqb_neq in Hne. rewrite Hne, Hdec.
  destruct principal as [| | | | | | props | |]; try discriminate.
  cbn [getProp obind wellFormedPrincipal propOf] in *.
  set (claims := jsOr (lookupProp props "claims") (JArr [])).
  pose proof (findClaim_returns (lookupProp props "claims")) as Hfind.
  specialize (fun t => Hfind t Hwf). fold claims in Hfind.
  assert (Hdetails : exists y, @Ok JsVal (lookupProp props "userDetails") = Ok y) by eauto.
  destruct (orElse_returns (Ok (lookupProp props "identityProvider"))
              (Ok (lookupProp props "auth_typ"))) as [ip ->]; eauto.
  destruct (orElse_returns (IssueApp.findClaim claims "name")
              (Ok (lookupProp props "userDetails"))) as [name ->]; auto.
  destruct (orElse_returns
              (IssueApp.findClaim claims "http://schemas.xmlsoap.org/ws/2005/05/identity/claims/emailaddress")
              (orElse (IssueApp.findClaim claims "email")
                 (orElse (IssueApp.findClaim claims "preferred_username")
                    (Ok (lookupProp props "userDetails"))))) as [email ->];
    auto using orElse_returns.
  destruct (orElse_returns
              (IssueApp.findClaim claims "http://schemas.xmlsoap.org/ws/2005/05/identity/claims/givenname")
              (IssueApp.findClaim claims "given_name")) as [given ->]; auto.
  destruct (orElse_returns
              (IssueApp.findClaim claims "http://schemas.xmlsoap.org/ws/2005/05/identity/claims/surname")
              (IssueApp.findClaim claims "family_name")) as [sur ->]; auto.
  destruct (orElse_returns
              (IssueApp.findClaim claims "http://schemas.xmlsoap.org/ws/2005/05/identity/claims/name")
              (orElse (IssueApp.findClaim claims "upn")
                 (Ok (lookupProp props "userDetails")))) as [upn ->];
    auto using orElse_returns.
  cbn [obind]. eauto 10.
Qed.

(** C6. A request without the identity header is answered 401 with the
    [{error, message}] body by both protected routes, before anything is
    done: the store and the log of outbound calls are untouched.  A request
    whose header decodes to a principal of the documented shape passes the
    guard: the handler of the route runs with the user parsed from the
    header, marked authenticated. *)
Theorem easy_auth_guards_protected_routes (w : World) (req : Request) :
  (headers req !! "x-ms-client-principal" = None ->
   IssueApp.requireEasyAuth req = IssueApp.Reject unauthenticated /\
   forall s : IssueApp.State,
     IssueApp.guarded (IssueApp.postIssueCredential w) req s = (Ok unauthenticated, s) /\
     IssueApp.guarded (IssueApp.getUser w) req s = (Ok unauthenticated, s)) /\
  (forall (h : string) (principal : JsVal),
     headers req !! "x-ms-client-principal" = Some h ->
     h <> "" ->
     decodeBase64Json h = Some principal ->
     wellFormedPrincipal principal = true ->
     exists user,
       IssueApp.requireEasyAuth req = IssueApp.Next user /\
       propOf user "userId" = propOf principal "userId" /\
       propOf user "isAuthenticated" = JBool true /\
       IssueApp.guarded (IssueApp.postIssueCredential w) req
         = IssueApp.postIssueCredential w user req /\
       IssueApp.guarded (IssueApp.getUser w) req = IssueApp.getUser w user req).
Proof.
  split.
  - intros Hnone.
    assert (Hrej : IssueApp.requireEasyAuth req = IssueApp.Reject unauthenticated).
    { unfold IssueApp.requireEasyAuth, IssueApp.parseEasyAuthUser. now rewrite Hnone. }
    split; [exact Hrej | ].
    intros s. unfold IssueApp.guarded. rewrite Hrej. split; reflexivity.
  - intros h principal Hh Hne Hdec Hwf.
    destruct (parseEasyAuthUser_user req h principal Hh Hne Hdec Hwf)
      as (ip & name & email & given & sur & upn & Hparse).
    assert (Hnext : IssueApp.requireEasyAuth req = IssueApp.Next (IssueApp.parseEasyAuthUser req)).
    { unfold IssueApp.requireEasyAuth. now rewrite Hparse. }
    exists (IssueApp.parseEasyAuthUser req).
    split; [exact Hnext | ].
    split; [now rewrite Hparse | ].
    split; [now rewrite Hparse | ].
    unfold IssueApp.guarded. rewrite Hnext. split; reflexivity.
Qed.

End EasyAuth.

Lemma easy_auth_guards_protected_routes_witness :
  (IssueApp.requireEasyAuth (rt := Sample.runtime) Sample.anonymous
     = IssueApp.Reject unauthenticated /\
   forall s : IssueApp.State,
     IssueApp.guarded (rt := Sample.runtime)
       (IssueApp.postIssueCredential (rt := Sample.runtime) Sample.online) Sample.anonymous s
       = (Ok unauthenticated, s) /\
     IssueApp.guarded (rt := Sample.runtime)
       (IssueApp.getUser (rt := Sample.runtime) Sample.online) Sample.anonymous s
       = (Ok unauthenticated, s)) /\
  exists user,
    IssueApp.requireEasyAuth (rt := Sample.runtime) Sample.principal = IssueApp.Next user /\
    propOf user "userId" = JStr "u1" /\
    propOf user "isAuthenticated" = JBool true.
Proof.
  split.
  - apply (easy_auth_guards_protected_routes (rt := Sample.runtime) Sample.online
             Sample.anonymous).
    reflexivity.
  - destruct (proj2 (easy_auth_guards_protected_routes (rt := Sample.runtime)
                       Sample.online Sample.principal)
                Sample.header
                (JObj [("userId", JStr "u1");
                       ("userDetails", JStr "jane@contoso.com");
                       ("claims",
                        JArr [JObj [("typ", JStr "name");
                                    ("val", JStr "Jane Doe")]])])
                eq_refl ltac:(discriminate) eq_refl eq_refl)
      as (user & Hnext & Hid & Hauth & _).
    exists user. auto.
Defined.

(** *** Profile and photo lookups only talk to Graph *)

Section GraphOnly.
Context {R : Type}.

Lemma graphOnly_refl (s : Machine R) : graphOnly s s.
Proof. split; [reflexivity | ]. exists []. now rewrite app_nil_r. Qed.

Lemma graphOnly_trans (s1 s2 s3 : Machine R) :
  graphOnly s1 s2 -> graphOnly s2 s3 -> graphOnly s1 s3.
Proof.
  intros (H1 & g1 & C1 & G1) (H2 & g2 & C2 & G2). split; [congruence | ].
  exists (g1 ++ g2). rewrite C2, C1, <- app_assoc. split; [reflexivity | ].
  rewrite forallb_app, G1, G2. reflexivity.
Qed.

Lemma GraphOnly_ret {A} (a : A) : GraphOnly (R := R) (ret a).
Proof. intros s. apply graphOnly_refl. Qed.

Lemma GraphOnly_throw {A} (e : JsError) : GraphOnly (R := R) (A := A) (throw e).
Proof. intros s. apply graphOnly_refl. Qed.

Lemma GraphOnly_lift {A} (o : Outcome A) : GraphOnly (R := R) (lift o).
Proof. intros s. apply graphOnly_refl. Qed.

Lemma GraphOnly_bind {A B} (m : Eff (Machine R) A) (k : A -> Eff (Machine R) B) :
  GraphOnly m -> (forall a, GraphOnly (k a)) -> GraphOnly (bind m k).
Proof.
  intros Hm Hk s. unfold bind. specialize (Hm s).
  destruct (m s) as [[a | e] s1]; cbn [snd] in *.
  - eapply graphOnly_trans; [exact Hm | apply Hk].
  - exact Hm.
Qed.

Lemma GraphOnly_tryCatch {A} (m : Eff (Machine R) A) (h : JsError -> Eff (Machine R) A) :
  GraphOnly m -> (forall e, GraphOnly (h e)) -> GraphOnly (tryCatch m h).
Proof.
  intros Hm Hh s. unfold tryCatch. specialize (Hm s).
  destruct (m s) as [[a | e] s1]; cbn [snd] in *.
  - exact Hm.
  - eapply graphOnly_trans; [exact Hm | apply Hh].
Qed.

Lemma GraphOnly_if {A} (b : bool) (m1 m2 : Eff (Machine R) A) :
  GraphOnly m1 -> GraphOnly m2 -> GraphOnly (if b then m1 else m2).
Proof. now destruct b. Qed.

Lemma GraphOnly_await (path : string) (answer : Outcome JsVal) :
  GraphOnly (R := R) (await (GraphGet path) answer).
Proof.
  intros s. unfold await, record, bind, modify, lift. cbn.
  split; [reflexivity | ]. exists [GraphGet path]. auto.
Qed.

End GraphOnly.

Create HintDb graph.
#[local] Hint Resolve GraphOnly_ret GraphOnly_throw GraphOnly_lift GraphOnly_await
  GraphOnly_if : graph.
#[local] Hint Extern 2 (GraphOnly (bind _ _)) => apply GraphOnly_bind; [ | intros ?] : graph.
#[local] Hint Extern 2 (GraphOnly (tryCatch _ _)) => apply GraphOnly_tryCatch; [ | intros ?] : graph.

Section IssueGraph.
Context {rt : Runtime} (w : World).

Lemma graphApiGet_GraphOnly (path : string) : GraphOnly (IssueApp.graphApiGet w path).
Proof. apply GraphOnly_await. Qed.

Lemma getUserProfile_GraphOnly (upn : JsVal) : GraphOnly (IssueApp.getUserProfile w upn).
Proof.
  unfold IssueApp.getUserProfile.
  auto 20 using graphApiGet_GraphOnly with graph.
Qed.

Lemma photoLoop_GraphOnly (upn : JsVal) (sizes : list string) :
  GraphOnly (IssueApp.photoLoop w upn sizes).
Proof.
  induction sizes as [| size rest IH]; cbn [IssueApp.photoLoop].
  - apply GraphOnly_ret.
  - apply GraphOnly_tryCatch; [ | intros _; exact IH].
    apply GraphOnly_bind; [apply GraphOnly_lift | intros path; apply graphApiGet_GraphOnly].
Qed.

Lemma getUserPhoto_GraphOnly (upn : JsVal) : GraphOnly (IssueApp.getUserPhoto w upn).
Proof.
  unfold IssueApp.getUserPhoto.
  auto 20 using graphApiGet_GraphOnly, photoLoop_GraphOnly with graph.
Qed.

Lemma resolveProfile_GraphOnly (user : JsVal) : GraphOnly (IssueApp.resolveProfile w user).
Proof.
  unfold IssueApp.resolveProfile.
  auto 30 using getUserProfile_GraphOnly with graph.
Qed.

Lemma attachPhoto_GraphOnly (user userProfile : JsVal) :
  GraphOnly (IssueApp.attachPhoto w user userProfile).
Proof.
  unfold IssueApp.attachPhoto.
  auto 20 using getUserPhoto_GraphOnly with graph.
Qed.

End IssueGraph.

(** *** The photo lookup *)

Section Photo.
Context {rt : Runtime} (w : World).

Lemma afterCalls_nil {R : Type} (s : Machine R) : afterCalls s [] = s.
Proof. unfold afterCalls. rewrite app_nil_r. now destruct s. Qed.

Lemma afterCalls_app {R : Type} (s : Machine R) (l1 l2 : list Call) :
  afterCalls (afterCalls s l1) l2 = afterCalls s (l1 ++ l2).
Proof. unfold afterCalls. cbn. now rewrite app_assoc. Qed.

Lemma graphApiGet_run (path : string) (s : IssueApp.State) :
  IssueApp.graphApiGet w path s = (graphGet w path, afterCalls s [GraphGet path]).
Proof. reflexivity. Qed.

Lemma photoSizePath_ok (upn : JsVal) (size : string) :
  stringifiable upn = true ->
  IssueApp.photoSizePath upn size = Ok (sizedPhotoPath upn size).
Proof.
  intros Hp. unfold IssueApp.photoSizePath. now rewrite (toStringOf_ok upn Hp).
Qed.

Lemma photoPath_ok (upn : JsVal) :
  stringifiable upn = true ->
  IssueApp.photoPath upn = Ok (unsizedPhotoPath upn).
Proof.
  intros Hp. unfold IssueApp.photoPath. now rewrite (toStringOf_ok upn Hp).
Qed.

(** The loop asks for the sizes in order and stops at the first answer. *)
Lemma photoLoop_first (upn : JsVal) (pre : list string) (size : string)
    (post : list string) (photo : JsVal) (s : IssueApp.State) :
  stringifiable upn = true ->
  (forall sz, In sz pre -> exists e, graphGet w (sizedPhotoPath upn sz) = Throw e) ->
  graphGet w (sizedPhotoPath upn size) = Ok photo ->
  IssueApp.photoLoop w upn (pre ++ size :: post) s
  = (Ok photo, afterCalls s (photoRequests upn (pre ++ [size]))).
Proof.
  intros Hp Hpre Hsize. revert s.
  induction pre as [| sz pre IH]; intros s; cbn [app IssueApp.photoLoop].
  - unfold tryCatch, bind, lift.
    rewrite (photoSizePath_ok upn size Hp), graphApiGet_run, Hsize. reflexivity.
  - unfold tryCatch, bind, lift.
    rewrite (photoSizePath_ok upn sz Hp), graphApiGet_run.
    destruct (Hpre sz (or_introl eq_refl)) as [e ->].
    rewrite IH by (intros; apply Hpre; now right).
    rewrite afterCalls_app. reflexivity.
Qed.

Lemma photoLoop_none (upn : JsVal) (sizes : list string) (s : IssueApp.State) :
  stringifiable upn = true ->
  (forall sz, In sz sizes -> exists e, graphGet w (sizedPhotoPath upn sz) = Throw e) ->
  IssueApp.photoLoop w upn sizes s = (Ok JNull, afterCalls s (photoRequests upn sizes)).
Proof.
  intros Hp. revert s.
  induction sizes as [| sz sizes IH]; intros s Hall; cbn [IssueApp.photoLoop].
  - unfold ret. now rewrite afterCalls_nil.
  - unfold tryCatch, bind, lift.
    rewrite (photoSizePath_ok upn sz Hp), graphApiGet_run.
    destruct (Hall sz (or_introl eq_refl)) as [e ->].
    rewrite IH by (intros; apply Hall; now right).
    rewrite afterCalls_app. reflexivity.
Qed.

(** For a name without a string no path can be built: the loop skips
    every size. *)
Lemma photoLoop_unprintable (upn : JsVal) (sizes : list string) (s : IssueApp.State) :
  stringifiable upn = false ->
  IssueApp.photoLoop w upn sizes s = (Ok JNull, s).
Proof.
  intros Hp. induction sizes as [| sz sizes IH]; cbn [IssueApp.photoLoop].
  - reflexivity.
  - unfold tryCatch, bind, lift, IssueApp.photoSizePath.
    rewrite (toStringOf_throw upn Hp). cbn [obind]. exact IH.
Qed.

(** Then [getUserPhoto] throws out of its own [catch], having sent
    nothing. *)
Lemma getUserPhoto_unprintable (upn : JsVal) (s : IssueApp.State) :
  stringifiable upn = false ->
  IssueApp.getUserPhoto w upn s = (Throw typeErrorPrimitive, s).
Proof.
  intros Hp. unfold IssueApp.getUserPhoto, tryCatch, bind.
  rewrite (photoLoop_unprintable upn IssueApp.photoSizes s Hp).
  cbn [truthy negb]. unfold lift, IssueApp.photoPath.
  rewrite (toStringOf_throw upn Hp), (printable_throw upn Hp). reflexivity.
Qed.

(** For a name with a string [getUserPhoto] returns, and what it returns
    is [null] or a string. *)
Lemma getUserPhoto_returns (upn : JsVal) (s : IssueApp.State) :
  stringifiable upn = true ->
  exists v, (IssueApp.getUserPhoto w upn s).1 = Ok v /\
            (v = JNull \/ exists encoded, v = JStr encoded).
Proof.
  intros Hp. unfold IssueApp.getUserPhoto, tryCatch, bind, lift, ret, throw.
  rewrite (printable_ok upn Hp), (photoPath_ok upn Hp).
  destruct (IssueApp.photoLoop w upn IssueApp.photoSizes s) as [[photo0 | e] s1];
    [ | exists JNull; auto].
  destruct (negb (truthy photo0)).
  - destruct (IssueApp.graphApiGet w (unsizedPhotoPath upn) s1) as [[photo | e] s2];
      [ | exists JNull; auto].
    destruct (truthy photo); [ | exists JNull; auto].
    destruct (IssueApp.photoBuffer photo) as [bytes | e].
    + eexists. split; [reflexivity | eauto].
    + exists JNull; auto.
  - destruct (truthy photo0); [ | exists JNull; auto].
    destruct (IssueApp.photoBuffer photo0) as [bytes | e].
    + eexists. split; [reflexivity | eauto].
    + exists JNull; auto.
Qed.

End Photo.

(** C9. For a principal name that has a string, [getUserPhoto] asks Graph
    for the sizes 240x240, 120x120, 96x96, 64x64, 48x48 in this order; the
    first size Graph answers with a photo is encoded and returned, and no
    later size is requested; when every request fails the result is
    [null].  [getUserPhoto] then never throws and never touches the
    store.  And for every user, whatever the name, the step of the
    issuing handler that calls it hands a profile on: no failure of the
    lookup reaches the rest of the handler. *)
Theorem photo_lookup_order_and_fallback {rt : Runtime} (w : World) (upn : JsVal)
    (s : IssueApp.State) :
  stringifiable upn = true ->
  IssueApp.photoSizes = ["240x240"; "120x120"; "96x96"; "64x64"; "48x48"] /\
  (forall (pre : list string) (size : string) (post : list string)
          (photo : JsVal) (bytes : list byte),
     IssueApp.photoSizes = pre ++ size :: post ->
     (forall sz, In sz pre ->
                 exists e, graphGet w (sizedPhotoPath upn sz) = Throw e) ->
     graphGet w (sizedPhotoPath upn size) = Ok photo ->
     truthy photo = true ->
     IssueApp.photoBuffer photo = Ok bytes ->
     IssueApp.getUserPhoto w upn s =
       (Ok (JStr (encodeURIComponent (toBase64 bytes))),
        afterCalls s (photoRequests upn (pre ++ [size])))) /\
  ((forall sz, In sz IssueApp.photoSizes ->
               exists e, graphGet w (sizedPhotoPath upn sz) = Throw e) ->
   (exists e, graphGet w (unsizedPhotoPath upn) = Throw e) ->
   IssueApp.getUserPhoto w upn s =
     (Ok JNull,
      afterCalls s (photoRequests upn IssueApp.photoSizes
                    ++ [GraphGet (unsizedPhotoPath upn)]))) /\
  (exists v, (IssueApp.getUserPhoto w upn s).1 = Ok v /\
             (v = JNull \/ exists encoded, v = JStr encoded)) /\
  requestStore (IssueApp.getUserPhoto w upn s).2 = requestStore s /\
  (forall (user userProfile : JsVal) (s0 : IssueApp.State),
     returned (IssueApp.attachPhoto w user userProfile s0).1 = true /\
     requestStore (IssueApp.attachPhoto w user userProfile s0).2 = requestStore s0).
Proof.
  intros Hp.
  split; [reflexivity | ]. split; [ | split; [ | split; [ | split]]].
  - intros pre size post photo bytes Hsizes Hpre Hsize Ht Hb.
    unfold IssueApp.getUserPhoto, tryCatch, bind. rewrite Hsizes.
    rewrite (photoLoop_first w upn pre size post photo s Hp Hpre Hsize).
    rewrite Ht. cbn [negb]. unfold ret, lift. rewrite Ht, Hb. reflexivity.
  - intros Hall [e Hdefault].
    unfold IssueApp.getUserPhoto, tryCatch, bind.
    rewrite (photoLoop_none w upn IssueApp.photoSizes s Hp Hall).
    cbn [truthy negb]. unfold lift. rewrite (photoPath_ok upn Hp).
    rewrite graphApiGet_run, Hdefault, (printable_ok upn Hp).
    unfold ret. rewrite afterCalls_app. reflexivity.
  - apply getUserPhoto_returns. exact Hp.
  - apply (getUserPhoto_GraphOnly w upn s).
  - intros user userProfile s0. split.
    + unfold IssueApp.attachPhoto, tryCatch.
      match goal with
      | |- context [bind ?m ?k s0] => destruct (bind m k s0) as [[v | e] s1]
      end; reflexivity.
    + apply (attachPhoto_GraphOnly w user userProfile s0).
Qed.

Lemma photo_lookup_order_and_fallback_witness :
  IssueApp.getUserPhoto (rt := Sample.runtime) Sample.online (JStr "jane@contoso.com")
    Sample.noIssuance
  = (Ok (JStr "AQID"),
     mkMachine ∅ [GraphGet "/users/jane@contoso.com/photos/240x240/$value";
                  GraphGet "/users/jane@contoso.com/photos/120x120/$value"]).
Proof.
  apply (proj1 (proj2 (photo_lookup_order_and_fallback (rt := Sample.runtime)
                         Sample.online (JStr "jane@contoso.com") Sample.noIssuance
                         eq_refl))
           ["240x240"] "120x120" ["96x96"; "64x64"; "48x48"]
           (JBin KBlob [x01; x02; x03]%byte) [x01; x02; x03]%byte).
  - reflexivity.
  - intros sz [<- | []]. eexists. reflexivity.
  - reflexivity.
  - reflexivity.
  - reflexivity.
Defined.

(** *** Failures of the primary operation *)

(** C7. When token acquisition fails, or the create-request call to the
    platform fails, POST /api/issue-credential and POST
    /api/verify-credential answer 500 with
    [{success: false, error, message}]; the store is what it was; and
    besides the Graph lookups of the issue service the log shows at most
    one token acquisition and at most one post: nothing is retried. *)
Theorem upstream_failure_is_500 {rt : Runtime} (w : World) :
  tokenFails w \/ postFails w ->
  (forall (user : JsVal) (req : Request) (s : IssueApp.State),
     exists error s' graph tail,
       IssueApp.postIssueCredential w user req s = (Ok (issueFailed error), s') /\
       requestStore s' = requestStore s /\
       calls s' = calls s ++ graph ++ tail /\
       forallb isGraphGet graph = true /\
       singleAttempt IssueApp.requestApiScope issuanceEndpoint tail) /\
  (forall (req : Request) (s : VerifyApp.State),
     exists error s' tail,
       VerifyApp.postVerifyCredential w req s = (Ok (verifyFailed error), s') /\
       requestStore s' = requestStore s /\
       calls s' = calls s ++ tail /\
       singleAttempt VerifyApp.requestApiScope presentationEndpoint tail).
Proof.
  intros Hfail.
  assert (Hno : forall scope url doc auth resp data,
             acquireTokenByClientCredential w scope = Ok resp ->
             axiosPost w url doc auth = Ok data -> False).
  { intros scope url doc auth resp data Ht Hp.
    destruct Hfail as [Hf | Hf].
    - specialize (Hf scope). rewrite Ht in Hf. discriminate.
    - specialize (Hf url doc auth). rewrite Hp in Hf. discriminate. }
  split.
  - intros user req s. unfold IssueApp.postIssueCredential. cbv [tryCatch bind].
    unfold lift at 1.
    destruct (getProp user "userDetails") as [userDetails | e].
    2:{ exists (message e), s, [], []. unfold ret, issueFailed.
        rewrite !app_nil_r. repeat split; auto. now left. }
    unfold lift at 1.
    destruct (printable userDetails) as [[] | e].
    2:{ exists (message e), s, [], []. unfold ret, issueFailed.
        rewrite !app_nil_r. repeat split; auto. now left. }
    pose proof (resolveProfile_GraphOnly w user s) as G1.
    destruct (IssueApp.resolveProfile w user s) as [[up0 | e] s1]; cbn [snd] in G1.
    2:{ destruct G1 as (St1 & g1 & C1 & F1).
        exists (message e), s1, g1, []. unfold ret, issueFailed.
        rewrite app_nil_r. repeat split; auto. now left. }
    pose proof (attachPhoto_GraphOnly w user up0 s1) as G2.
    destruct (IssueApp.attachPhoto w user up0 s1) as [[up | e] s2]; cbn [snd] in G2.
    all: destruct (graphOnly_trans _ _ _ G1 G2) as (St2 & g2 & C2 & F2).
    2:{ exists (message e), s2, g2, []. unfold ret, issueFailed.
        rewrite app_nil_r. repeat split; auto. now left. }
    destruct (IssueApp.createIssuanceRequest w up s2) as [o s3] eqn:E3.
    destruct (createIssuanceRequest_outcome w up s2 o s3 E3)
      as [([e ->] & St3 & Hcalls) | (resp & tok & props & data & Ht & _ & Hp & _)].
    2:{ exfalso. eapply Hno; eauto. }
    exists (message e), s3, g2. unfold ret, issueFailed.
    destruct Hcalls as [C3 | (doc & auth & e' & _ & C3)].
    + exists [AcquireToken IssueApp.requestApiScope].
      split; [reflexivity | ]. split; [congruence | ].
      split; [now rewrite C3, C2, app_assoc | ].
      split; [assumption | ]. right. now left.
    + exists [AcquireToken IssueApp.requestApiScope; AxiosPost issuanceEndpoint doc auth].
      split; [reflexivity | ]. split; [congruence | ].
      split; [now rewrite C3, C2, app_assoc | ].
      split; [assumption | ]. right. right. eauto.
  - intros req s. unfold VerifyApp.postVerifyCredential. cbv [tryCatch bind lift].
    destruct (getProp (req_body req) "includeFaceCheck") as [fc | e].
    2:{ exists (message e), s, []. unfold ret, verifyFailed.
        rewrite app_nil_r. repeat split; auto. now left. }
    match goal with
    | |- context [VerifyApp.createVerificationRequest w ?opts s] =>
        destruct (VerifyApp.createVerificationRequest w opts s) as [o s3] eqn:E3;
        destruct (createVerificationRequest_outcome w opts s o s3 E3)
          as [([e ->] & St3 & Hcalls) | (resp & tok & doc & data & Ht & _ & Hp & _)]
    end.
    2:{ exfalso. eapply Hno; eauto. }
    exists (message e), s3. unfold ret, verifyFailed.
    destruct Hcalls as [C3 | (doc & auth & e' & _ & C3)].
    + exists [AcquireToken VerifyApp.requestApiScope].
      split; [reflexivity | ]. split; [assumption | ].
      split; [assumption | ]. right. now left.
    + exists [AcquireToken VerifyApp.requestApiScope; AxiosPost presentationEndpoint doc auth].
      split; [reflexivity | ]. split; [assumption | ].
      split; [assumption | ]. right. right. eauto.
Qed.

Lemma upstream_failure_is_500_witness :
  exists error s' tail,
    VerifyApp.postVerifyCredential (rt := Sample.runtime) Sample.offline
      Sample.anonymous Sample.verifyState = (Ok (verifyFailed error), s') /\
    requestStore s' = requestStore Sample.verifyState /\
    calls s' = calls Sample.verifyState ++ tail /\
    singleAttempt VerifyApp.requestApiScope presentationEndpoint tail.
Proof.
  apply (upstream_failure_is_500 (rt := Sample.runtime) Sample.offline).
  left. intros scope. reflexivity.
Defined.

(** *** The PIN code *)

Section PinProofs.

Lemma pinCodeLength_range (env : string -> option string) :
  0 <= Pin.pinCodeLength env <= 6.
Proof.
  unfold Pin.pinCodeLength.
  destruct (env "ISSUANCE_PIN_CODE_LENGTH") as [s |]; [ | lia].
  destruct (String.eqb s ""); [lia | ].
  destruct (Pin.parseInt s) as [n |]; [ | lia].
  destruct (n <? 0) eqn:Hneg; cbn [orb]; [lia | ].
  destruct (6 <? n) eqn:Hbig; [lia | ].
  apply Z.ltb_ge in Hneg, Hbig. lia.
Qed.

Lemma pinCodeLength_default (env : string -> option string) :
  env "ISSUANCE_PIN_CODE_LENGTH" = None \/
  env "ISSUANCE_PIN_CODE_LENGTH" = Some "" \/
  (exists s, env "ISSUANCE_PIN_CODE_LENGTH" = Some s /\
             (Pin.parseInt s = None \/
              exists n, Pin.parseInt s = Some n /\ (n < 0 \/ 6 < n))) ->
  Pin.pinCodeLength env = 4.
Proof.
  unfold Pin.pinCodeLength.
  intros [-> | [-> | (s & -> & Hs)]]; try reflexivity.
  destruct (String.eqb s ""); [reflexivity | ].
  destruct Hs as [-> | (n & -> & Hn)]; [reflexivity | ].
  destruct Hn as [Hn | Hn].
  - apply Z.ltb_lt in Hn. now rewrite Hn.
  - apply Z.ltb_lt in Hn. rewrite Hn. now rewrite orb_true_r.
Qed.

Lemma pinCodeLength_parsed (env : string -> option string) (s : string) (n : Z) :
  env "ISSUANCE_PIN_CODE_LENGTH" = Some s ->
  s <> "" ->
  Pin.parseInt s = Some n ->
  0 <= n <= 6 ->
  Pin.pinCodeLength env = n.
Proof.
  intros Hs Hne Hp Hn. unfold Pin.pinCodeLength. rewrite Hs.
  apply String.eqb_neq in Hne. rewrite Hne, Hp.
  replace (n <? 0) with false by (symmetry; apply Z.ltb_ge; lia).
  replace (6 <? n) with false by (symmetry; apply Z.ltb_ge; lia).
  reflexivity.
Qed.

(** Rounding to 53 bits moves a number by at most its [2^-53]-th part. *)
Lemma roundToDouble_error (a : Z) :
  0 <= a ->
  0 <= snd (Pin.roundToDouble a) /\
  0 <= fst (Pin.roundToDouble a) /\
  (fst (Pin.roundToDouble a) * 2 ^ snd (Pin.roundToDouble a) - a) * 2 ^ 53 <= a.
Proof.
  intros Ha. unfold Pin.roundToDouble.
  set (shift := Z.log2 a - 52).
  destruct (shift <=? 0) eqn:Hshift.
  - cbn [fst snd]. rewrite Z.mul_1_r, Z.sub_diag. lia.
  - apply Z.leb_gt in Hshift.
    assert (Hpos : 0 < a).
    { destruct (Z.eq_dec a 0) as [-> | ]; [ | lia]. cbn in shift. lia. }
    set (T := 2 ^ shift). set (H := 2 ^ (shift - 1)).
    assert (HT : T = 2 * H).
    { unfold T, H. replace shift with (Z.succ (shift - 1)) at 1 by lia.
      rewrite Z.pow_succ_r by lia. reflexivity. }
    assert (HH : 0 < H) by (apply Z.pow_pos_nonneg; lia).
    assert (Hlog : H * 2 ^ 53 <= a).
    { unfold H. rewrite <- Z.pow_add_r by lia.
      replace (shift - 1 + 53) with (Z.log2 a) by (unfold shift; lia).
      apply Z.log2_spec. lia. }
    pose proof (Z.div_mod a T ltac:(lia)) as Hdiv.
    pose proof (Z.mod_pos_bound a T ltac:(lia)) as Hrem.
    assert (Hq : 0 <= a / T) by (apply Z.div_pos; lia).
    set (q := a / T) in *. set (rem := a mod T) in *.
    assert (P53 : 0 < 2 ^ 53) by (apply Z.pow_pos_nonneg; lia).
    destruct (rem <? H) eqn:C1; [ | destruct (H <? rem) eqn:C2;
                                    [ | destruct (Z.even q) ] ];
      cbn [fst snd]; fold T;
      try apply Z.ltb_lt in C1; try apply Z.ltb_ge in C1;
      try apply Z.ltb_lt in C2; try apply Z.ltb_ge in C2;
      (split; [lia | ]); (split; [lia | ]); nia.
Qed.

(** [Math.floor(Math.random() * n)] is one of [0 .. n - 1]. *)
Lemma floorOfProduct_range (r : Z * Z) (n : Z) :
  Pin.isUnitDouble r = true ->
  0 < n ->
  0 <= Pin.floorOfProduct r n <= n - 1.
Proof.
  destruct r as [m e]. unfold Pin.isUnitDouble, Pin.floorOfProduct.
  intros Hr Hn.
  repeat (apply andb_prop in Hr as [Hr ?]).
  apply Z.leb_le in Hr.
  repeat match goal with
         | H : (_ <=? _) = true |- _ => apply Z.leb_le in H
         | H : (_ <? _) = true |- _ => apply Z.ltb_lt in H
         end.
  assert (Ha : 0 <= m * n) by nia.
  destruct (roundToDouble_error (m * n) Ha) as (Hs & Hq & Herr).
  destruct (Pin.roundToDouble (m * n)) as [q shift]. cbn [fst snd] in *.
  set (E := 2 ^ e) in *. set (P := 2 ^ 53) in *. set (V := q * 2 ^ shift) in *.
  assert (HE : 0 < E) by (apply Z.pow_pos_nonneg; lia).
  assert (HP : 0 < P) by (apply Z.pow_pos_nonneg; lia).
  assert (HV : 0 <= V) by (apply Z.mul_nonneg_nonneg; [lia | apply Z.pow_nonneg; lia]).
  assert (Hlt : V < n * E).
  { destruct (Z.le_gt_cases P E) as [HPE | HPE].
    - assert (m * (P + 1) < E * P) by nia. nia.
    - assert (m * (P + 1) < E * P) by nia. nia. }
  split.
  - apply Z.div_pos; lia.
  - assert (V / E < n) by (apply Z.div_lt_upper_bound; lia). lia.
Qed.

Lemma pinCode_range (len : Z) (random : Z * Z) :
  Pin.isUnitDouble random = true ->
  0 < len ->
  10 ^ (len - 1) <= Pin.pinCode len random <= 10 ^ len - 1.
Proof.
  intros Hr Hlen. unfold Pin.pinCode.
  assert (H10 : 10 ^ len = 10 * 10 ^ (len - 1)).
  { replace len with (Z.succ (len - 1)) at 1 by lia.
    rewrite Z.pow_succ_r by lia. reflexivity. }
  assert (Hmin : 0 < 10 ^ (len - 1)) by (apply Z.pow_pos_nonneg; lia).
  pose proof (floorOfProduct_range random (10 ^ len - 1 - 10 ^ (len - 1) + 1) Hr
                ltac:(lia)).
  lia.
Qed.

Lemma digitsOf_length (k : nat) :
  forall (fuel : nat) (v : Z) (acc : string),
    10 ^ Z.of_nat k <= v < 10 ^ Z.of_nat (S k) ->
    (k < fuel)%nat ->
    String.length (Pin.digitsOf fuel v acc) = (S k + String.length acc)%nat.
Proof.
  induction k as [| k IH]; intros fuel v acc Hv Hfuel.
  - destruct fuel as [| fuel]; [lia | ]. cbn [Pin.digitsOf].
    replace (v <? 10) with true by (symmetry; apply Z.ltb_lt; cbn in Hv; lia).
    reflexivity.
  - destruct fuel as [| fuel]; [lia | ]. cbn [Pin.digitsOf].
    rewrite !Nat2Z.inj_succ, !Z.pow_succ_r in Hv by lia.
    assert (0 < 10 ^ Z.of_nat k) by (apply Z.pow_pos_nonneg; lia).
    replace (v <? 10) with false by (symmetry; apply Z.ltb_ge; lia).
    rewrite IH.
    + cbn [String.length]. lia.
    + rewrite Nat2Z.inj_succ, Z.pow_succ_r by lia.
      split.
      * apply Z.div_le_lower_bound; lia.
      * apply Z.div_lt_upper_bound; lia.
    + lia.
Qed.

(** An integer with [len] decimal digits prints as [len] characters. *)
Lemma numberToString_length (len v : Z) :
  0 < len ->
  10 ^ (len - 1) <= v <= 10 ^ len - 1 ->
  Z.of_nat (String.length (Pin.numberToString v)) = len.
Proof.
  intros Hlen Hv. unfold Pin.numberToString.
  assert (Hmin : 0 < 10 ^ (len - 1)) by (apply Z.pow_pos_nonneg; lia).
  replace (v <? 0) with false by (symmetry; apply Z.ltb_ge; lia).
  rewrite (digitsOf_length (Z.to_nat (len - 1))).
  - cbn [String.length]. lia.
  - rewrite Nat2Z.inj_succ, !Z2Nat.id by lia.
    replace (Z.succ (len - 1)) with len by lia. lia.
  - assert (Z.of_nat (Z.to_nat (len - 1)) <= Z.log2 v).
    { rewrite Z2Nat.id by lia.
      apply Z.log2_le_pow2; [lia | ].
      transitivity (10 ^ (len - 1)); [ | lia].
      apply Z.pow_le_mono_l. lia. }
    pose proof (Z.log2_nonneg v). lia.
Qed.

End PinProofs.

(** Against C10 for every setting that is no number, negative or
    greater than 6: where [parseInt] finds a digit to read the length is
    not 4.  [6.5] is greater than 6 and gives length 6, the non-numeric
    [5abc] gives 5, and the negative [-0.5] gives 0. *)
Lemma pin_length_follows_leading_digits :
  Pin.pinCodeLength (Edge.pinSetting "6.5") = 6 /\
  Pin.pinCodeLength (Edge.pinSetting "5abc") = 5 /\
  Pin.pinCodeLength (Edge.pinSetting "-0.5") = 0 /\
  Pin.pinCodeLength (Edge.pinSetting "6.5") <> 4.
Proof. repeat split. discriminate. Qed.

(** C10. The effective PIN length is 4 when ISSUANCE_PIN_CODE_LENGTH is
    unset or empty, or when [parseInt] of it (the integer its leading
    digits spell, after white space and a sign) is NaN, negative or above
    6; otherwise it is that integer.
    For a positive effective length [len] and every double [Math.random()]
    can return, the PIN is an integer of [10^(len-1) .. 10^len - 1], sent
    in the request, stored and returned as its decimal string of [len]
    characters.  For length 0 the request has no [pin] member and the
    stored and returned [pin] is [null]. *)
Theorem pin_length_and_pin_code {rt : Runtime} (w : World) :
  (forall env : string -> option string,
     env "ISSUANCE_PIN_CODE_LENGTH" = None \/
     env "ISSUANCE_PIN_CODE_LENGTH" = Some "" \/
     (exists s, env "ISSUANCE_PIN_CODE_LENGTH" = Some s /\
                (Pin.parseInt s = None \/
                 exists n, Pin.parseInt s = Some n /\ (n < 0 \/ 6 < n))) ->
     Pin.pinCodeLength env = 4) /\
  (forall (env : string -> option string) (s : string) (n : Z),
     env "ISSUANCE_PIN_CODE_LENGTH" = Some s ->
     s <> "" ->
     Pin.parseInt s = Some n ->
     0 <= n <= 6 ->
     Pin.pinCodeLength env = n) /\
  (Pin.isUnitDouble (mathRandom w) = true ->
   0 < Pin.pinCodeLength (process_env w) ->
   exists code,
     code = Pin.pinCode (Pin.pinCodeLength (process_env w)) (mathRandom w) /\
     10 ^ (Pin.pinCodeLength (process_env w) - 1) <= code
       <= 10 ^ Pin.pinCodeLength (process_env w) - 1 /\
     Z.of_nat (String.length (Pin.numberToString code))
       = Pin.pinCodeLength (process_env w) /\
     issuancePin w = JStr (Pin.numberToString code) /\
     pinMember w =
       JObj [("value", JStr (Pin.numberToString code));
             ("length", JNum (inject_Z (Pin.pinCodeLength (process_env w))))]) /\
  (Pin.pinCodeLength (process_env w) = 0 ->
   pinMember w = JUndefined /\ issuancePin w = JNull) /\
  (forall (userData : JsVal) (s : IssueApp.State),
     returned (IssueApp.createIssuanceRequest w userData s).1 = true ->
     exists props auth r result,
       calls (IssueApp.createIssuanceRequest w userData s).2 =
         calls s ++ [AcquireToken IssueApp.requestApiScope;
                     AxiosPost issuanceEndpoint (JObj props) auth] /\
       lookupProp props "pin" = pinMember w /\
       requestStore (IssueApp.createIssuanceRequest w userData s).2 !! uuidv4 w 0
         = Some r /\
       IssueApp.pin r = issuancePin w /\
       (IssueApp.createIssuanceRequest w userData s).1 = Ok result /\
       propOf result "pin" = issuancePin w).
Proof.
  split; [exact pinCodeLength_default | ].
  split; [exact pinCodeLength_parsed | ]. split; [ | split].
  - intros Hr Hlen. eexists. split; [reflexivity | ].
    pose proof (pinCode_range _ _ Hr Hlen) as Hrange.
    split; [exact Hrange | ].
    split; [apply numberToString_length; assumption | ].
    unfold issuancePin, pinMember. cbv zeta.
    apply Z.ltb_lt in Hlen. rewrite Hlen. split; reflexivity.
  - intros Hzero. unfold issuancePin, pinMember. rewrite Hzero. split; reflexivity.
  - intros userData s Hret.
    destruct (IssueApp.createIssuanceRequest w userData s) as [o s'] eqn:Hrun.
    cbn [fst snd] in *.
    destruct (createIssuanceRequest_outcome w userData s o s' Hrun)
      as [([e ->] & _) | (resp & tok & props & data & _ & _ & _ & Hpin & Hcalls & Hstore & Ho)];
      [discriminate | ].
    destruct Ho as [-> | (_ & e & ->)]; [ | discriminate].
    eexists props, _, (issuedRequest w userData data), _.
    split; [exact Hcalls | ]. split; [exact Hpin | ].
    split; [rewrite Hstore; apply lookup_insert_eq | ].
    split; [reflexivity | ]. split; reflexivity.
Qed.

Lemma pin_length_and_pin_code_witness :
  exists code,
    code = 5500 /\
    10 ^ (4 - 1) <= code <= 10 ^ 4 - 1 /\
    Z.of_nat (String.length (Pin.numberToString code)) = 4 /\
    issuancePin Sample.online = JStr (Pin.numberToString code) /\
    pinMember Sample.online =
      JObj [("value", JStr (Pin.numberToString code));
            ("length", JNum (inject_Z 4))].
Proof.
  apply (proj1 (proj2 (proj2 (pin_length_and_pin_code (rt := Sample.runtime)
                                Sample.online))));
    reflexivity.
Defined.

(** ** Further properties of the two services *)

(** *** What callbacks and creations do to the other entries *)

Lemma issue_callback_effect (w : World) (req : Request) (s : IssueApp.State) :
  (IssueApp.postRequestCallback w req s).2 = s \/
  exists id code r,
    getProp (req_body req) "state" = Ok (JStr id) /\
    getProp (req_body req) "code" = Ok code /\
    requestStore s !! id = Some r /\
    IssueApp.postRequestCallback w req s =
      (Ok callbackReceived,
       mkMachine (<[id := issueStamped w code r]> (requestStore s)) (calls s)).
Proof.
  destruct (getProp (req_body req) "state") as [v | e] eqn:Hs.
  2:{ left. unfold IssueApp.postRequestCallback. run. now rewrite Hs. }
  destruct (getProp (req_body req) "code") as [code | e] eqn:Hc.
  2:{ left. unfold IssueApp.postRequestCallback. run. now rewrite Hs, Hc. }
  destruct (stringifiable v && stringifiable code) eqn:Hp.
  2:{ left. now rewrite (issue_callback_unprintable w req s v code Hs Hc Hp). }
  apply andb_prop in Hp as [Hpv Hpc].
  destruct v as [| | | | id | | | |];
    try (left; rewrite (issue_callback_unknown w req s _ code Hs Hc Hpv Hpc);
         [reflexivity | discriminate]).
  destruct (requestStore s !! id) as [r |] eqn:Hr.
  - right. exists id, code, r. repeat split; try assumption.
    now apply issue_callback_known.
  - left. rewrite (issue_callback_unknown w req s _ code Hs Hc Hpv Hpc); [reflexivity | ].
    now intros ? [= <-].
Qed.

Lemma verify_callback_effect {rt : Runtime} (w : World) (req : Request)
    (s : VerifyApp.State) :
  (VerifyApp.postVerificationCallback w req s).2 = s \/
  exists id code r o r',
    getProp (req_body req) "state" = Ok (JStr id) /\
    getProp (req_body req) "code" = Ok code /\
    requestStore s !! id = Some r /\
    VerifyApp.postVerificationCallback w req s =
      (o, mkMachine (<[id := r']> (requestStore s)) (calls s)) /\
    sameRequest r r' /\
    VerifyApp.status r' = code /\
    VerifyApp.updated r' = JDate (now w).
Proof.
  destruct (getProp (req_body req) "state") as [v | e] eqn:Hs.
  2:{ left. unfold VerifyApp.postVerificationCallback. run. now rewrite Hs. }
  destruct (getProp (req_body req) "code") as [code | e] eqn:Hc.
  2:{ left. unfold VerifyApp.postVerificationCallback. run. now rewrite Hs, Hc. }
  destruct (stringifiable v && stringifiable code) eqn:Hp.
  2:{ left. now rewrite (verify_callback_unprintable w req s v code Hs Hc Hp). }
  apply andb_prop in Hp as [Hpv Hpc].
  destruct v as [| | | | id | | | |];
    try (left; rewrite (verify_callback_unknown w req s _ code Hs Hc Hpv Hpc);
         [reflexivity | discriminate]).
  destruct (requestStore s !! id) as [r |] eqn:Hr.
  - right.
    destruct (verify_callback_frame w req s id code r Hs Hc Hpc Hr)
      as (o & r' & Hrun & Hsame & Hst & Hup).
    exists id, code, r, o, r'. repeat split; try assumption; apply Hsame.
  - left. rewrite (verify_callback_unknown w req s _ code Hs Hc Hpv Hpc); [reflexivity | ].
    now intros ? [= <-].
Qed.

(** X1. A callback never adds or removes an id, never sends anything,
    and leaves every entry other than the one its [state] names exactly as
    it was, in both services and however the handler ends. *)
Theorem callback_touches_one_entry {rt : Runtime} (w : World) (req : Request)
    (si : IssueApp.State) (sv : VerifyApp.State) :
  (dom (requestStore (IssueApp.postRequestCallback w req si).2) = dom (requestStore si) /\
   calls (IssueApp.postRequestCallback w req si).2 = calls si /\
   forall id, getProp (req_body req) "state" <> Ok (JStr id) ->
     requestStore (IssueApp.postRequestCallback w req si).2 !! id
       = requestStore si !! id) /\
  (dom (requestStore (VerifyApp.postVerificationCallback w req sv).2) = dom (requestStore sv) /\
   calls (VerifyApp.postVerificationCallback w req sv).2 = calls sv /\
   forall id, getProp (req_body req) "state" <> Ok (JStr id) ->
     requestStore (VerifyApp.postVerificationCallback w req sv).2 !! id
       = requestStore sv !! id).
Proof.
  split.
  - destruct (issue_callback_effect w req si)
      as [-> | (id & code & r & Hs & _ & Hr & ->)]; [auto | ].
    cbn [snd requestStore calls]. split; [ | split; [reflexivity | ]].
    + apply dom_insert_lookup_L. eauto.
    + intros id' Hne. apply lookup_insert_ne. congruence.
  - destruct (verify_callback_effect w req sv)
      as [-> | (id & code & r & o & r' & Hs & _ & Hr & -> & _)]; [auto | ].
    cbn [snd requestStore calls]. split; [ | split; [reflexivity | ]].
    + apply dom_insert_lookup_L. eauto.
    + intros id' Hne. apply lookup_insert_ne. congruence.
Qed.

Lemma callback_touches_one_entry_witness :
  requestStore (IssueApp.postRequestCallback Sample.online
                  (Sample.callback "other" "issuance_successful") Sample.issueState).2
    !! "r1" = requestStore Sample.issueState !! "r1".
Proof.
  apply (callback_touches_one_entry (rt := Sample.runtime) Sample.online
           (Sample.callback "other" "issuance_successful")
           Sample.issueState Sample.verifyState).
  discriminate.
Defined.

(** X2. Creating a request never removes an entry and changes none but
    the one under the generated id: every other id keeps its entry, whether
    the creation returns or throws. *)
Theorem creation_keeps_other_entries {rt : Runtime} (w : World) :
  (forall (userData : JsVal) (s : IssueApp.State) (id : string),
     id <> uuidv4 w 0 ->
     requestStore (IssueApp.createIssuanceRequest w userData s).2 !! id
       = requestStore s !! id) /\
  (forall (options : JsVal) (s : VerifyApp.State) (id : string),
     id <> uuidv4 w 0 ->
     requestStore (VerifyApp.createVerificationRequest w options s).2 !! id
       = requestStore s !! id) /\
  (forall (userData : JsVal) (s : IssueApp.State),
     dom (requestStore s)
       ⊆ dom (requestStore (IssueApp.createIssuanceRequest w userData s).2)) /\
  (forall (options : JsVal) (s : VerifyApp.State),
     dom (requestStore s)
       ⊆ dom (requestStore (VerifyApp.createVerificationRequest w options s).2)).
Proof.
  assert (Hi : forall userData (s : IssueApp.State),
             requestStore (IssueApp.createIssuanceRequest w userData s).2 = requestStore s \/
             exists r, requestStore (IssueApp.createIssuanceRequest w userData s).2
                       = <[uuidv4 w 0 := r]> (requestStore s)).
  { intros userData s.
    destruct (IssueApp.createIssuanceRequest w userData s) as [o s'] eqn:Hrun.
    destruct (createIssuanceRequest_outcome w userData s o s' Hrun)
      as [(_ & Hst & _) | (resp & tok & props & data & _ & _ & _ & _ & _ & Hst & _)];
      cbn [snd]; eauto. }
  assert (Hv : forall options (s : VerifyApp.State),
             requestStore (VerifyApp.createVerificationRequest w options s).2 = requestStore s \/
             exists r, requestStore (VerifyApp.createVerificationRequest w options s).2
                       = <[uuidv4 w 0 := r]> (requestStore s)).
  { intros options s.
    destruct (VerifyApp.createVerificationRequest w options s) as [o s'] eqn:Hrun.
    destruct (createVerificationRequest_outcome w options s o s' Hrun)
      as [(_ & Hst & _) | (resp & tok & doc & data & _ & _ & _ & _ & Hst & _)];
      cbn [snd]; eauto. }
  split; [ | split; [ | split]].
  - intros userData s id Hne. destruct (Hi userData s) as [-> | [r ->]]; [reflexivity | ].
    apply lookup_insert_ne. congruence.
  - intros options s id Hne. destruct (Hv options s) as [-> | [r ->]]; [reflexivity | ].
    apply lookup_insert_ne. congruence.
  - intros userData s. destruct (Hi userData s) as [-> | [r ->]]; [reflexivity | ].
    apply dom_insert_subseteq.
  - intros options s. destruct (Hv options s) as [-> | [r ->]]; [reflexivity | ].
    apply dom_insert_subseteq.
Qed.

Lemma creation_keeps_other_entries_witness :
  requestStore (IssueApp.createIssuanceRequest (rt := Sample.runtime) Sample.online
                  Sample.profile
                  (mkMachine {["r7" := Sample.issued]} [])).2 !! "r7"
  = Some Sample.issued.
Proof.
  rewrite (proj1 (creation_keeps_other_entries (rt := Sample.runtime) Sample.online)
             Sample.profile (mkMachine {["r7" := Sample.issued]} []) "r7")
    by discriminate.
  reflexivity.
Defined.

(** *** Exact runs of the create functions *)

Section CreateRuns.
Context {rt : Runtime} (w : World).

Lemma issue_token_failure_run (userData : JsVal) (s : IssueApp.State) (e : JsError) :
  acquireTokenByClientCredential w IssueApp.requestApiScope = Throw e ->
  IssueApp.createIssuanceRequest w userData s =
    (Throw (Error ("Failed to create issuance request: "
                   +:+ ("Failed to acquire access token: " +:+ codeOrMessage e))),
     afterCalls s [AcquireToken IssueApp.requestApiScope]).
Proof.
  intros He. unfold IssueApp.createIssuanceRequest, IssueApp.getAccessToken. run.
  rewrite He. reflexivity.
Qed.

(** A profile whose names do not convert ends the creation after the
    token call: no document is built, nothing is posted or stored. *)
Lemma issue_names_run (userData : JsVal) (s : IssueApp.State) (resp tok : JsVal) :
  acquireTokenByClientCredential w IssueApp.requestApiScope = Ok resp ->
  getProp resp "accessToken" = Ok tok ->
  nullish userData = false ->
  namesConvert userData = false ->
  IssueApp.createIssuanceRequest w userData s =
    (Throw (Error ("Failed to create issuance request: "
                   +:+ message typeErrorPrimitive)),
     afterCalls s [AcquireToken IssueApp.requestApiScope]).
Proof.
  intros Hresp Htok Hu Hname.
  unfold IssueApp.createIssuanceRequest, IssueApp.getAccessToken. run.
  rewrite Hresp, Htok. rewrite !(getProp_ok userData) by assumption.
  rewrite (displayNameClaim_throw userData Hname). reflexivity.
Qed.

Lemma issue_post_run (userData : JsVal) (s : IssueApp.State) (resp tok : JsVal) :
  acquireTokenByClientCredential w IssueApp.requestApiScope = Ok resp ->
  getProp resp "accessToken" = Ok tok ->
  nullish userData = false ->
  namesConvert userData = true ->
  IssueApp.createIssuanceRequest w userData s =
    match axiosPost w issuanceEndpoint (issuanceDocument w userData) (bearer tok) with
    | Throw e =>
        (Throw (Error ("Failed to create issuance request: " +:+ message e)),
         afterCalls s [AcquireToken IssueApp.requestApiScope;
                       AxiosPost issuanceEndpoint (issuanceDocument w userData) (bearer tok)])
    | Ok data =>
        (if nullish data
         then Throw (Error ("Failed to create issuance request: "
                            +:+ message (typeErrorRead data "url")))
         else Ok (issuanceResult w data),
         mkMachine (<[uuidv4 w 0 := issuedRequest w userData data]> (requestStore s))
           (calls s ++ [AcquireToken IssueApp.requestApiScope;
                        AxiosPost issuanceEndpoint (issuanceDocument w userData) (bearer tok)]))
    end.
Proof.
  intros Hresp Htok Hu Hname.
  unfold IssueApp.createIssuanceRequest, IssueApp.getAccessToken.
  fold issuanceEndpoint. run.
  rewrite Hresp, Htok. rewrite !(getProp_ok userData) by assumption.
  rewrite (displayNameClaim_ok userData Hname).
  fold (issuanceDocument w userData). fold (bearer tok).
  destruct (axiosPost w issuanceEndpoint (issuanceDocument w userData) (bearer tok))
    as [data | e].
  2:{ unfold afterCalls. cbn [requestStore calls]. now rewrite <- app_assoc. }
  rewrite issuanceRequest_pin.
  assert (Hpin : forall st : IssueApp.State,
             (if truthy (pinMember w)
              then fun s0 : IssueApp.State => (getProp (pinMember w) "value", s0)
              else fun s0 : IssueApp.State => (Ok JNull, s0)) st
             = (Ok (issuancePin w), st)).
  { intros st. unfold pinMember, issuancePin. cbv zeta.
    destruct (0 <? Pin.pinCodeLength (process_env w)); reflexivity. }
  rewrite Hpin. cbn [requestStore calls]. rewrite <- app_assoc.
  unfold issuedRequest, issuanceResult.
  destruct (nullish data) eqn:Hd.
  - destruct data; try discriminate; reflexivity.
  - rewrite !(getProp_ok data) by assumption. reflexivity.
Qed.

Lemma verify_token_failure_run (options0 : JsVal) (s : VerifyApp.State) (e : JsError) :
  acquireTokenByClientCredential w VerifyApp.requestApiScope = Throw e ->
  VerifyApp.createVerificationRequest w options0 s =
    (Throw (Error ("Failed to create verification request: "
                   +:+ ("Failed to acquire access token: " +:+ codeOrMessage e))),
     afterCalls s [AcquireToken VerifyApp.requestApiScope]).
Proof.
  intros He. unfold VerifyApp.createVerificationRequest, VerifyApp.getAccessToken. run.
  rewrite He. reflexivity.
Qed.

Lemma verify_post_run (options0 : JsVal) (s : VerifyApp.State) (resp tok : JsVal) :
  acquireTokenByClientCredential w VerifyApp.requestApiScope = Ok resp ->
  getProp resp "accessToken" = Ok tok ->
  options0 <> JNull ->
  VerifyApp.createVerificationRequest w options0 s =
    match axiosPost w presentationEndpoint (presentationDocument w options0) (bearer tok) with
    | Throw e =>
        (Throw (Error ("Failed to create verification request: " +:+ message e)),
         afterCalls s [AcquireToken VerifyApp.requestApiScope;
                       AxiosPost presentationEndpoint (presentationDocument w options0)
                         (bearer tok)])
    | Ok data =>
        (if nullish data
         then Throw (Error ("Failed to create verification request: "
                            +:+ message (typeErrorRead data "url")))
         else Ok (presentationResult w data),
         mkMachine (<[uuidv4 w 0 := presentationRequest w (optionsOf options0) data]>
                      (requestStore s))
           (calls s ++ [AcquireToken VerifyApp.requestApiScope;
                        AxiosPost presentationEndpoint (presentationDocument w options0)
                          (bearer tok)]))
    end.
Proof.
  intros Hresp Htok Ho.
  unfold VerifyApp.createVerificationRequest, VerifyApp.getAccessToken.
  fold presentationEndpoint. fold (optionsOf options0). run.
  rewrite Hresp, Htok.
  rewrite (getProp_ok (optionsOf options0))
    by (destruct options0; cbn; congruence).
  fold (presentationDocument w options0). fold (bearer tok).
  destruct (axiosPost w presentationEndpoint (presentationDocument w options0) (bearer tok))
    as [data | e].
  2:{ unfold afterCalls. cbn [requestStore calls]. now rewrite <- app_assoc. }
  cbn [requestStore calls]. rewrite <- app_assoc.
  unfold presentationRequest, presentationResult.
  destruct (nullish data) eqn:Hd.
  - destruct data; try discriminate; reflexivity.
  - rewrite !(getProp_ok data) by assumption. reflexivity.
Qed.

End CreateRuns.

(** *** Profile lookups *)

Section Profiles.
Context {rt : Runtime} (w : World).

(** One Graph request for a name that has a string; none, and the
    wrapped TypeError, for a name that has none. *)
Lemma getUserProfile_run (upn : JsVal) (s : IssueApp.State) :
  IssueApp.getUserProfile w upn s =
    if stringifiable upn
    then (profileOutcome (graphGet w ("/users/" +:+ ToString upn)),
          afterCalls s [GraphGet ("/users/" +:+ ToString upn)])
    else (Throw (Error ("Failed to fetch user profile: "
                        +:+ message typeErrorPrimitive)), s).
Proof.
  unfold IssueApp.getUserProfile, IssueApp.graphApiGet, profileOutcome, toStringOf. run.
  destruct (stringifiable upn); [ | reflexivity].
  fold (afterCalls s [GraphGet ("/users/" +:+ ToString upn)]).
  destruct (graphGet w ("/users/" +:+ ToString upn)) as [user | e]; [ | reflexivity].
  destruct (nullish user) eqn:Hu.
  - destruct user; try discriminate; reflexivity.
  - rewrite !(getProp_ok user) by assumption. reflexivity.
Qed.

Lemma getUser_run (user : JsVal) (req : Request) (s : IssueApp.State) :
  nullish user = false ->
  IssueApp.getUser w user req s =
    if stringifiable (userLookupName user)
    then (Ok (json (JObj [("user",
                           match profileOutcome
                                   (graphGet w ("/users/" +:+ ToString (userLookupName user))) with
                           | Ok profile => profile
                           | Throw _ => userFallback user
                           end);
                          ("authenticated", JBool true)])),
          afterCalls s [GraphGet ("/users/" +:+ ToString (userLookupName user))])
    else (Ok (json (JObj [("user", userFallback user);
                          ("authenticated", JBool true)])), s).
Proof.
  intros Hu. unfold IssueApp.getUser.
  cbv [tryCatch bind lift]. rewrite !(getProp_ok user) by assumption.
  fold (userLookupName user). rewrite getUserProfile_run.
  destruct (stringifiable (userLookupName user)); [ | reflexivity].
  destruct (profileOutcome _) as [profile | e]; reflexivity.
Qed.

End Profiles.

(** X3. GET /api/user never fails for an authenticated user and leaves
    the store alone.  When the user's principal name (or email, or
    userDetails) has a string it sends one Graph request for it and
    answers 200 with the Graph profile (job title and language defaulted,
    mail falling back to the principal name), or, when Graph fails or
    answers [null], with the profile built from the Easy Auth user.  When
    the name has no string no request is sent, and the answer is 200 with
    the profile built from the Easy Auth user. *)
Theorem user_route_always_answers {rt : Runtime} (w : World) (user : JsVal)
    (req : Request) (s : IssueApp.State) :
  nullish user = false ->
  exists profile,
    IssueApp.getUser w user req s =
      (Ok (json (JObj [("user", profile); ("authenticated", JBool true)])),
       if stringifiable (userLookupName user)
       then afterCalls s [GraphGet ("/users/" +:+ ToString (userLookupName user))]
       else s) /\
    (stringifiable (userLookupName user) = false -> profile = userFallback user) /\
    (stringifiable (userLookupName user) = true ->
     (forall answer,
        graphGet w ("/users/" +:+ ToString (userLookupName user)) = Ok answer ->
        nullish answer = false ->
        profile = graphProfile answer) /\
     (forall e,
        graphGet w ("/users/" +:+ ToString (userLookupName user)) = Throw e ->
        profile = userFallback user) /\
     (forall answer,
        graphGet w ("/users/" +:+ ToString (userLookupName user)) = Ok answer ->
        nullish answer = true ->
        profile = userFallback user)).
Proof.
  intros Hu. rewrite (getUser_run w user req s Hu).
  destruct (stringifiable (userLookupName user)).
  - eexists. split; [reflexivity | ]. split; [discriminate | ]. intros _.
    split; [ | split].
    + intros answer -> Ha. cbn [profileOutcome]. now rewrite Ha.
    + intros e ->. reflexivity.
    + intros answer -> Ha. cbn [profileOutcome]. now rewrite Ha.
  - eexists. split; [reflexivity | ]. split; [reflexivity | discriminate].
Qed.

Lemma user_route_always_answers_witness :
  exists profile,
    IssueApp.getUser (rt := Sample.runtime) Sample.offline
      (JObj [("name", JStr "Jane Doe"); ("email", JStr "jane@contoso.com")])
      Sample.anonymous Sample.noIssuance =
      (Ok (json (JObj [("user", profile); ("authenticated", JBool true)])),
       afterCalls Sample.noIssuance [GraphGet "/users/jane@contoso.com"]) /\
    profile = JObj [("displayName", JStr "Jane Doe");
                    ("mail", JStr "jane@contoso.com");
                    ("jobTitle", JStr "Employee");
                    ("userPrincipalName", JStr "jane@contoso.com")].
Proof.
  destruct (user_route_always_answers (rt := Sample.runtime) Sample.offline
              (JObj [("name", JStr "Jane Doe"); ("email", JStr "jane@contoso.com")])
              Sample.anonymous Sample.noIssuance eq_refl)
    as (profile & Hrun & _ & Hname).
  destruct (Hname eq_refl) as (_ & Hfail & _).
  exists profile. split; [exact Hrun | ].
  apply (Hfail (Error "Request failed with status code 400")). reflexivity.
Defined.

(** *** The issuing handler, step by step *)

Section IssueEndpoint.
Context {rt : Runtime} (w : World).

Lemma resolveProfile_run (user : JsVal) (s : IssueApp.State) :
  nullish user = false ->
  IssueApp.resolveProfile w user s =
    if stringifiable (lookupName user)
    then (match profileOutcome (graphGet w ("/users/" +:+ ToString (lookupName user))) with
          | Ok profile => Ok profile
          | Throw _ => easyAuthProfile user
          end,
          afterCalls s [GraphGet ("/users/" +:+ ToString (lookupName user))])
    else (easyAuthProfile user, s).
Proof.
  intros Hu. unfold IssueApp.resolveProfile.
  cbv [tryCatch bind lift]. rewrite !(getProp_ok user) by assumption.
  fold (lookupName user). rewrite getUserProfile_run.
  assert (Hfb : forall st : IssueApp.State,
             match orElse (Ok (propOf user "givenName"))
                     (IssueApp.splitName (propOf user "name") (fun parts => List.hd "" parts)) with
             | Ok a =>
                 match orElse (Ok (propOf user "surname"))
                         (IssueApp.splitName (propOf user "name")
                            (fun parts => joinSpace (List.tl parts))) with
                 | Ok a0 =>
                     ret (JObj [("displayName", propOf user "name");
                                ("givenName", a);
                                ("surname", a0);
                                ("mail", propOf user "email");
                                ("jobTitle", JStr "Employee");
                                ("preferredLanguage", JStr "en-US");
                                ("userPrincipalName", lookupName user)]) st
                 | Throw e => (Throw e, st)
                 end
             | Throw e => (Throw e, st)
             end = (easyAuthProfile user, st)).
  { intros st. unfold easyAuthProfile.
    destruct (orElse (Ok (propOf user "givenName")) _) as [given | e1]; [ | reflexivity].
    cbn [obind].
    destruct (orElse (Ok (propOf user "surname")) _) as [sur | e2]; reflexivity. }
  destruct (stringifiable (lookupName user)).
  - destruct (profileOutcome _) as [profile | e]; [reflexivity | ]. apply Hfb.
  - apply Hfb.
Qed.

(** What [resolveProfile] returns is an object. *)
Lemma resolveProfile_object (user profile : JsVal) (s : IssueApp.State) :
  nullish user = false ->
  (IssueApp.resolveProfile w user s).1 = Ok profile ->
  isObject profile = true.
Proof.
  intros Hu. rewrite (resolveProfile_run user s Hu).
  assert (Hfb : easyAuthProfile user = Ok profile -> isObject profile = true).
  { unfold easyAuthProfile.
    destruct (orElse (Ok (propOf user "givenName")) _) as [given | e1]; [ | discriminate].
    cbn [obind].
    destruct (orElse (Ok (propOf user "surname")) _) as [sur | e2]; [ | discriminate].
    cbn [obind]. intros [= <-]. reflexivity. }
  destruct (stringifiable (lookupName user)); cbn [fst]; [ | exact Hfb].
  unfold profileOutcome.
  destruct (graphGet w _) as [answer | e]; [ | exact Hfb].
  destruct (nullish answer); [exact Hfb | ].
  intros [= <-]. reflexivity.
Qed.

Lemma attachPhoto_run (user userProfile : JsVal) (s : IssueApp.State) :
  nullish user = false ->
  IssueApp.attachPhoto w user userProfile s =
    (Ok (withPhoto userProfile (IssueApp.getUserPhoto w (lookupName user) s).1),
     (IssueApp.getUserPhoto w (lookupName user) s).2).
Proof.
  intros Hu. unfold IssueApp.attachPhoto.
  cbv [tryCatch bind lift ret]. rewrite !(getProp_ok user) by assumption.
  fold (lookupName user).
  destruct (IssueApp.getUserPhoto w (lookupName user) s) as [[photo | e] s1]; reflexivity.
Qed.

(** The handler is, after its first log line, the creation on the
    profile the two steps leave. *)
Lemma postIssueCredential_run (user : JsVal) (req : Request) (s : IssueApp.State) :
  nullish user = false ->
  stringifiable (propOf user "userDetails") = true ->
  IssueApp.postIssueCredential w user req s =
    match (IssueApp.resolveProfile w user s).1 with
    | Throw e => (Ok (issueFailed (message e)), (IssueApp.resolveProfile w user s).2)
    | Ok profile0 =>
        let s1 := (IssueApp.resolveProfile w user s).2 in
        let profile := withPhoto profile0 (IssueApp.getUserPhoto w (lookupName user) s1).1 in
        let s2 := (IssueApp.getUserPhoto w (lookupName user) s1).2 in
        match IssueApp.createIssuanceRequest w profile s2 with
        | (Throw e, s3) => (Ok (issueFailed (message e)), s3)
        | (Ok result, s3) =>
            (if nullish result
             then Ok (issueFailed (message (typeErrorRead result "requestId")))
             else Ok (issueCreated result), s3)
        end
    end.
Proof.
  intros Hu Hd. unfold IssueApp.postIssueCredential.
  cbv [tryCatch bind]. unfold lift at 1. rewrite (getProp_ok user _ Hu).
  unfold lift at 1. rewrite (printable_ok _ Hd).
  destruct (IssueApp.resolveProfile w user s) as [[profile0 | e] s1]; [ | reflexivity].
  rewrite (attachPhoto_run user profile0 s1 Hu). cbn [fst snd]. cbv zeta.
  destruct (IssueApp.createIssuanceRequest w _ _) as [[result | e] s3]; [ | reflexivity].
  unfold lift, ret, issueCreated.
  destruct (nullish result) eqn:Hr.
  - destruct result; try discriminate; reflexivity.
  - rewrite !(getProp_ok result) by assumption. reflexivity.
Qed.

(** Its first log line ends it when [userDetails] has no string. *)
Lemma postIssueCredential_unprintable (user : JsVal) (req : Request)
    (s : IssueApp.State) :
  nullish user = false ->
  stringifiable (propOf user "userDetails") = false ->
  IssueApp.postIssueCredential w user req s =
    (Ok (issueFailed (message typeErrorPrimitive)), s).
Proof.
  intros Hu Hd. unfold IssueApp.postIssueCredential.
  cbv [tryCatch bind]. unfold lift at 1. rewrite (getProp_ok user _ Hu).
  unfold lift at 1. rewrite (printable_throw _ Hd). reflexivity.
Qed.

Lemma splitSpace_cons (s : string) : exists first rest, splitSpace s = first :: rest.
Proof.
  destruct s as [| c s]; cbn [splitSpace]; [eauto | ].
  destruct (Ascii.eqb c " "); [eauto | ].
  destruct (splitSpace s); eauto.
Qed.

Lemma joinSpace_splitSpace (s : string) : joinSpace (splitSpace s) = s.
Proof.
  induction s as [| c s IH]; [reflexivity | ].
  cbn [splitSpace]. destruct (Ascii.eqb c " ") eqn:Hc.
  - apply Ascii.eqb_eq in Hc. subst c.
    destruct (splitSpace_cons s) as (first & rest & Hs).
    rewrite Hs in *. cbn [joinSpace]. cbn [joinSpace] in IH.
    destruct rest; rewrite IH; reflexivity.
  - destruct (splitSpace_cons s) as (part & parts & Hs). rewrite Hs in *.
    cbn [joinSpace] in *. destruct parts as [| p ps].
    + now rewrite IH.
    + rewrite <- IH. reflexivity.
Qed.

End IssueEndpoint.

Lemma splitSpace_first_no_space (s first : string) (rest : list string) :
  splitSpace s = first :: rest ->
  forall c, In c (list_ascii_of_string first) -> c <> " "%char.
Proof.
  revert first rest. induction s as [| c s IH]; intros first rest Hs.
  - inversion Hs; subst. intros c [].
  - cbn [splitSpace] in Hs. destruct (Ascii.eqb c " ") eqn:Hc.
    + inversion Hs; subst. intros c' [].
    + destruct (splitSpace_cons s) as (part & parts & Hp). rewrite Hp in Hs.
      inversion Hs; subst. intros c' [<- | Hin].
      * now apply Ascii.eqb_neq.
      * eapply IH; eauto.
Qed.

(** X4. When Graph has no profile for the user's principal name (a name
    that has a string) and the Easy Auth user carries a name but no given
    name or surname claim, the issuing handler goes on with a profile
    whose given name is the name up to its first blank and whose surname
    is everything after it; the two, joined by a blank when there was one,
    give the name back. *)
Theorem fallback_profile_splits_name {rt : Runtime} (w : World) (user : JsVal)
    (s : IssueApp.State) (name : string) (e : JsError) :
  nullish user = false ->
  stringifiable (lookupName user) = true ->
  graphGet w (profilePath user) = Throw e ->
  propOf user "name" = JStr name ->
  truthy (propOf user "givenName") = false ->
  truthy (propOf user "surname") = false ->
  exists first rest,
    splitSpace name = first :: rest /\
    (forall c, In c (list_ascii_of_string first) -> c <> " "%char) /\
    joinSpace (first :: rest) = name /\
    IssueApp.resolveProfile w user s =
      (Ok (JObj [("displayName", JStr name);
                 ("givenName", JStr first);
                 ("surname", JStr (joinSpace rest));
                 ("mail", propOf user "email");
                 ("jobTitle", JStr "Employee");
                 ("preferredLanguage", JStr "en-US");
                 ("userPrincipalName", lookupName user)]),
       afterCalls s [GraphGet (profilePath user)]).
Proof.
  intros Hu Hp Hg Hname Hgiven Hsur.
  destruct (splitSpace_cons name) as (first & rest & Hsplit).
  exists first, rest. split; [exact Hsplit | ].
  split; [exact (splitSpace_first_no_space name first rest Hsplit) | ].
  split; [rewrite <- Hsplit; apply joinSpace_splitSpace | ].
  rewrite (resolveProfile_run w user s Hu), Hp. fold (profilePath user). rewrite Hg.
  cbn [profileOutcome]. unfold easyAuthProfile, orElse.
  cbn [obind]. rewrite Hgiven, Hsur, Hname.
  cbn [IssueApp.splitName obind]. rewrite Hsplit. reflexivity.
Qed.

Lemma fallback_profile_splits_name_witness :
  exists first rest,
    splitSpace "Jane van Doe" = first :: rest /\
    (forall c, In c (list_ascii_of_string first) -> c <> " "%char) /\
    joinSpace (first :: rest) = "Jane van Doe" /\
    IssueApp.resolveProfile (rt := Sample.runtime) Sample.offline
      (JObj [("name", JStr "Jane van Doe"); ("email", JStr "jane@contoso.com")])
      Sample.noIssuance =
      (Ok (JObj [("displayName", JStr "Jane van Doe");
                 ("givenName", JStr first);
                 ("surname", JStr (joinSpace rest));
                 ("mail", JStr "jane@contoso.com");
                 ("jobTitle", JStr "Employee");
                 ("preferredLanguage", JStr "en-US");
                 ("userPrincipalName", JStr "jane@contoso.com")]),
       afterCalls Sample.noIssuance [GraphGet "/users/jane@contoso.com"]).
Proof.
  apply (fallback_profile_splits_name (rt := Sample.runtime) Sample.offline
           (JObj [("name", JStr "Jane van Doe"); ("email", JStr "jane@contoso.com")])
           Sample.noIssuance "Jane van Doe" (Error "Request failed with status code 400"));
    reflexivity.
Defined.

(** X5. When the user's [userDetails] and principal name have a string,
    Graph has no profile, the user has no given name claim and the name
    claim is a value that is not a string (a number, say), the issuing
    handler answers 500 after the one Graph request: no token is acquired,
    nothing is posted and nothing is stored. *)
Theorem unsplittable_name_is_500 {rt : Runtime} (w : World) (user : JsVal)
    (req : Request) (s : IssueApp.State) (e : JsError) :
  nullish user = false ->
  stringifiable (propOf user "userDetails") = true ->
  stringifiable (lookupName user) = true ->
  graphGet w (profilePath user) = Throw e ->
  truthy (propOf user "givenName") = false ->
  unsplittable (propOf user "name") = true ->
  exists error,
    IssueApp.postIssueCredential w user req s =
      (Ok (issueFailed error), afterCalls s [GraphGet (profilePath user)]).
Proof.
  intros Hu Hd Hp Hg Hgiven Hname.
  rewrite (postIssueCredential_run w user req s Hu Hd).
  rewrite (resolveProfile_run w user s Hu), Hp. fold (profilePath user). rewrite Hg.
  cbn [profileOutcome fst snd]. unfold easyAuthProfile, orElse.
  cbn [obind]. rewrite Hgiven.
  destruct (propOf user "name"); try discriminate; cbn [IssueApp.splitName obind]; eauto.
Qed.

Lemma unsplittable_name_is_500_witness :
  exists error,
    IssueApp.postIssueCredential (rt := Sample.runtime) Sample.offline
      (JObj [("name", JNum (inject_Z 7)); ("email", JStr "jane@contoso.com")])
      Sample.anonymous Sample.noIssuance =
      (Ok (issueFailed error),
       afterCalls Sample.noIssuance [GraphGet "/users/jane@contoso.com"]).
Proof.
  apply (unsplittable_name_is_500 (rt := Sample.runtime) Sample.offline
           (JObj [("name", JNum (inject_Z 7)); ("email", JStr "jane@contoso.com")])
           Sample.anonymous Sample.noIssuance
           (Error "Request failed with status code 400"));
    reflexivity.
Defined.

Lemma withPhoto_object (profile : JsVal) (photo : Outcome JsVal) :
  isObject profile = true -> isObject (withPhoto profile photo) = true.
Proof.
  destruct profile; try discriminate. intros _.
  destruct photo as [p | e]; cbn; [ | reflexivity].
  destruct (truthy p); reflexivity.
Qed.

Lemma isObject_not_nullish (v : JsVal) : isObject v = true -> nullish v = false.
Proof. destruct v; cbn; congruence. Qed.

Lemma lookupProp_assignProp_ne (props : list (string * JsVal)) (name other : string)
    (v : JsVal) :
  other <> name ->
  lookupProp (assignProp props name v) other = lookupProp props other.
Proof.
  intros Hne. induction props as [| [k x] props IH]; cbn [assignProp lookupProp].
  - apply String.eqb_neq in Hne. rewrite String.eqb_sym, Hne. reflexivity.
  - destruct (String.eqb k name) eqn:Hk; cbn [lookupProp].
    + apply String.eqb_eq in Hk. subst k.
      assert (Hno : String.eqb name other = false)
        by (apply String.eqb_neq; congruence).
      rewrite Hno. reflexivity.
    + destruct (String.eqb k other); [reflexivity | exact IH].
Qed.

(** The photo step does not touch the names of the profile. *)
Lemma namesConvert_withPhoto (profile : JsVal) (photo : Outcome JsVal) :
  namesConvert (withPhoto profile photo) = namesConvert profile.
Proof.
  destruct photo as [p | e]; cbn [withPhoto]; [ | reflexivity].
  destruct (truthy p); [ | reflexivity].
  destruct profile; try reflexivity.
  unfold namesConvert. cbn [setProp propOf].
  rewrite !lookupProp_assignProp_ne by discriminate. reflexivity.
Qed.

(** X6. For an authenticated user whose [userDetails] has a string and
    for whom the handler resolved a profile with names that convert, with
    a token and an answer of the platform that is not [null], POST
    /api/issue-credential answers 200 with the generated id, the
    platform's url, expiry and QR code and the PIN.  The profile it works
    with is the resolved one after the photo step; the document posted is
    the one built from that profile, the request is stored under the id
    with that same profile, and the status endpoint finds it at once. *)
Theorem issue_endpoint_success {rt : Runtime} (w : World) (user : JsVal)
    (req : Request) (s : IssueApp.State) (resp tok data profile0 : JsVal) :
  nullish user = false ->
  stringifiable (propOf user "userDetails") = true ->
  (IssueApp.resolveProfile w user s).1 = Ok profile0 ->
  namesConvert profile0 = true ->
  acquireTokenByClientCredential w IssueApp.requestApiScope = Ok resp ->
  getProp resp "accessToken" = Ok tok ->
  (forall doc auth, axiosPost w issuanceEndpoint doc auth = Ok data) ->
  nullish data = false ->
  let s1 := (IssueApp.resolveProfile w user s).2 in
  let profile := withPhoto profile0 (IssueApp.getUserPhoto w (lookupName user) s1).1 in
  let s2 := (IssueApp.getUserPhoto w (lookupName user) s1).2 in
  exists s',
    IssueApp.postIssueCredential w user req s =
      (Ok (json (JObj [("success", JBool true);
                       ("requestId", JStr (uuidv4 w 0));
                       ("url", propOf data "url");
                       ("expiry", propOf data "expiry");
                       ("qrCode", propOf data "qrCode");
                       ("pin", issuancePin w);
                       ("message", JStr "Credential issuance request created successfully")])),
       s') /\
    requestStore s' = <[uuidv4 w 0 := issuedRequest w profile data]> (requestStore s) /\
    calls s' = calls s2 ++ [AcquireToken IssueApp.requestApiScope;
                            AxiosPost issuanceEndpoint (issuanceDocument w profile)
                              (bearer tok)] /\
    IssueApp.getRequestStatus (uuidv4 w 0) s' =
      (Ok (issueStatus (uuidv4 w 0) (JStr "request_created")
             (issuedRequest w profile data)), s').
Proof.
  intros Hu Hd Hres Hnames Hresp Htok Hpost Hdata s1 profile s2.
  rewrite (postIssueCredential_run w user req s Hu Hd).
  pose proof (resolveProfile_GraphOnly w user s) as G1.
  pose proof (resolveProfile_object w user profile0 s Hu Hres) as Hobj0.
  rewrite Hres. cbv zeta. fold s1. fold profile. fold s2.
  pose proof (getUserPhoto_GraphOnly w (lookupName user) s1) as G2. fold s2 in G2.
  assert (Hobj : isObject profile = true) by now apply withPhoto_object.
  assert (Hn : namesConvert profile = true)
    by (unfold profile; now rewrite namesConvert_withPhoto).
  rewrite (issue_post_run w profile s2 resp tok Hresp Htok
             (isObject_not_nullish _ Hobj) Hn).
  rewrite Hpost, Hdata.
  eexists. split; [reflexivity | ].
  assert (Hstore : requestStore s2 = requestStore s).
  { destruct G2 as [E2 _]. destruct G1 as [E1 _]. rewrite E2. exact E1. }
  cbn [requestStore calls]. rewrite Hstore. split; [reflexivity | ].
  split; [reflexivity | ].
  erewrite issue_status_found by apply lookup_insert_eq. reflexivity.
Qed.

Lemma issue_endpoint_success_witness :
  exists s',
    IssueApp.postIssueCredential (rt := Sample.runtime) Sample.online
      (JObj [("name", JStr "Jane Doe"); ("email", JStr "jane@contoso.com")])
      Sample.anonymous Sample.noIssuance =
      (Ok (json (JObj [("success", JBool true);
                       ("requestId", JStr "r1");
                       ("url", JStr "openid-vc://?request_uri=x");
                       ("expiry", JNum (inject_Z 1700000300));
                       ("qrCode", JStr "data:image/png;base64,AAAA");
                       ("pin", JStr "5500");
                       ("message", JStr "Credential issuance request created successfully")])),
       s') /\
    requestStore s' =
      <["r1" := issuedRequest Sample.online
                  (JObj [("displayName", JStr "Jane Doe");
                         ("givenName", JStr "Jane");
                         ("surname", JStr "Doe");
                         ("mail", JStr "jane@contoso.com");
                         ("jobTitle", JStr "Employee");
                         ("preferredLanguage", JStr "en-US");
                         ("userPrincipalName", JStr "jane@contoso.com");
                         ("photo", JStr "AQID")])
                  (JObj [("url", JStr "openid-vc://?request_uri=x");
                         ("expiry", JNum (inject_Z 1700000300));
                         ("qrCode", JStr "data:image/png;base64,AAAA")])]>
        (requestStore Sample.noIssuance).
Proof.
  destruct (issue_endpoint_success (rt := Sample.runtime) Sample.online
              (JObj [("name", JStr "Jane Doe"); ("email", JStr "jane@contoso.com")])
              Sample.anonymous Sample.noIssuance
              (JObj [("accessToken", JStr "token")]) (JStr "token")
              (JObj [("url", JStr "openid-vc://?request_uri=x");
                     ("expiry", JNum (inject_Z 1700000300));
                     ("qrCode", JStr "data:image/png;base64,AAAA")])
              (JObj [("displayName", JStr "Jane Doe");
                     ("givenName", JStr "Jane");
                     ("surname", JStr "Doe");
                     ("mail", JStr "jane@contoso.com");
                     ("jobTitle", JStr "Employee");
                     ("preferredLanguage", JStr "en-US");
                     ("userPrincipalName", JStr "jane@contoso.com")])
              eq_refl eq_refl eq_refl eq_refl eq_refl eq_refl
              (fun _ _ => eq_refl) eq_refl)
    as (s' & Hrun & Hstore & _).
  exists s'. split; [exact Hrun | exact Hstore].
Defined.

(** *** The verifying handler *)

Section VerifyEndpoint.
Context {rt : Runtime} (w : World).

Lemma postVerifyCredential_run (req : Request) (s : VerifyApp.State) :
  nullish (req_body req) = false ->
  VerifyApp.postVerifyCredential w req s =
    match VerifyApp.createVerificationRequest w (verifyOptions (req_body req)) s with
    | (Throw e, s') => (Ok (verifyFailed (message e)), s')
    | (Ok result, s') =>
        (if nullish result
         then Ok (verifyFailed (message (typeErrorRead result "requestId")))
         else Ok (verifyCreated result (faceCheckOf (req_body req))), s')
    end.
Proof.
  intros Hb. unfold VerifyApp.postVerifyCredential.
  cbv [tryCatch bind lift]. rewrite (getProp_ok _ _ Hb).
  fold (faceCheckOf (req_body req)). fold (verifyOptions (req_body req)).
  destruct (VerifyApp.createVerificationRequest w _ s) as [[result | e] s']; [ | reflexivity].
  unfold ret, verifyCreated.
  destruct (nullish result) eqn:Hr.
  - destruct result; try discriminate; reflexivity.
  - rewrite !(getProp_ok result) by assumption. reflexivity.
Qed.

Lemma presentationDocument_faceCheck (options0 : JsVal) :
  propOf (validationOf (presentationDocument w options0)) "faceCheck" =
    if truthy (propOf (optionsOf options0) "includeFaceCheck")
    then JObj [("sourcePhotoClaimName", JStr "photo");
               ("matchConfidenceThreshold", JNum (inject_Z 70))]
    else JUndefined.
Proof.
  unfold presentationDocument, VerifyApp.verificationRequestOf. cbv zeta.
  destruct (truthy (propOf (optionsOf options0) "includeFaceCheck")); reflexivity.
Qed.

End VerifyEndpoint.

(** X7. With a token and an answer of the platform that is not [null],
    POST /api/verify-credential answers 200 with the generated id, the
    platform's url, expiry and QR code and [faceCheckEnabled] as the body's
    [includeFaceCheck] ([false] when absent); it stores the request under
    the id, sends one token request and one post, and asks the platform
    for a face check (photo claim, threshold 70) exactly when
    [includeFaceCheck] is truthy. *)
Theorem verify_endpoint_success {rt : Runtime} (w : World) (req : Request)
    (s : VerifyApp.State) (resp tok data : JsVal) :
  nullish (req_body req) = false ->
  acquireTokenByClientCredential w VerifyApp.requestApiScope = Ok resp ->
  getProp resp "accessToken" = Ok tok ->
  (forall doc auth, axiosPost w presentationEndpoint doc auth = Ok data) ->
  nullish data = false ->
  let doc := presentationDocument w (verifyOptions (req_body req)) in
  VerifyApp.postVerifyCredential w req s =
    (Ok (json (JObj [("success", JBool true);
                     ("requestId", JStr (uuidv4 w 0));
                     ("url", propOf data "url");
                     ("expiry", propOf data "expiry");
                     ("qrCode", propOf data "qrCode");
                     ("faceCheckEnabled", faceCheckOf (req_body req));
                     ("message", JStr "Credential verification request created successfully")])),
     mkMachine
       (<[uuidv4 w 0 := presentationRequest w (verifyOptions (req_body req)) data]>
          (requestStore s))
       (calls s ++ [AcquireToken VerifyApp.requestApiScope;
                    AxiosPost presentationEndpoint doc (bearer tok)])) /\
  propOf (validationOf doc) "faceCheck" =
    (if truthy (faceCheckOf (req_body req))
     then JObj [("sourcePhotoClaimName", JStr "photo");
                ("matchConfidenceThreshold", JNum (inject_Z 70))]
     else JUndefined) /\
  propOf (validationOf doc) "allowRevoked" = JBool false /\
  propOf (validationOf doc) "validateLinkedDomain" = JBool true.
Proof.
  intros Hb Hresp Htok Hpost Hd doc. subst doc. split; [ | split; [ | split]].
  - rewrite (postVerifyCredential_run w req s Hb).
    rewrite (verify_post_run w (verifyOptions (req_body req)) s resp tok Hresp Htok)
      by discriminate.
    rewrite Hpost, Hd. reflexivity.
  - apply presentationDocument_faceCheck.
  - unfold presentationDocument, VerifyApp.verificationRequestOf. cbv zeta.
    destruct (truthy _); reflexivity.
  - unfold presentationDocument, VerifyApp.verificationRequestOf. cbv zeta.
    destruct (truthy _); reflexivity.
Qed.

Lemma verify_endpoint_success_witness :
  VerifyApp.postVerifyCredential (rt := Sample.runtime) Sample.online
    (mkRequest ∅ (JObj [("includeFaceCheck", JBool true)])) Sample.noVerification =
    (Ok (json (JObj [("success", JBool true);
                     ("requestId", JStr "r1");
                     ("url", JStr "openid-vc://?request_uri=x");
                     ("expiry", JNum (inject_Z 1700000300));
                     ("qrCode", JStr "data:image/png;base64,AAAA");
                     ("faceCheckEnabled", JBool true);
                     ("message", JStr "Credential verification request created successfully")])),
     (VerifyApp.postVerifyCredential (rt := Sample.runtime) Sample.online
        (mkRequest ∅ (JObj [("includeFaceCheck", JBool true)])) Sample.noVerification).2).
Proof.
  rewrite (proj1 (verify_endpoint_success (rt := Sample.runtime) Sample.online
                    (mkRequest ∅ (JObj [("includeFaceCheck", JBool true)]))
                    Sample.noVerification
                    (JObj [("accessToken", JStr "token")]) (JStr "token")
                    (JObj [("url", JStr "openid-vc://?request_uri=x");
                           ("expiry", JNum (inject_Z 1700000300));
                           ("qrCode", JStr "data:image/png;base64,AAAA")])
                    eq_refl eq_refl eq_refl (fun _ _ => eq_refl) eq_refl)).
  reflexivity.
Defined.

(** *** The two legs of a request *)

(** X8. The [state] the platform is told to echo is the id under which
    the request is stored.  So a callback that carries the [state] of the
    posted document and a code that has a string finds the request just
    created: the issue service acknowledges it and its status endpoint
    then reports the callback's code together with the PIN and the
    creation time; the verify service stores the code as well, whatever
    else the callback holds. *)
Theorem callback_state_finds_created_request {rt : Runtime} (w w' : World)
    (resp tok data code : JsVal) (callback : Request) :
  acquireTokenByClientCredential w IssueApp.requestApiScope = Ok resp ->
  getProp resp "accessToken" = Ok tok ->
  getProp (req_body callback) "code" = Ok code ->
  stringifiable code = true ->
  (forall (userData : JsVal) (s : IssueApp.State),
     nullish userData = false ->
     namesConvert userData = true ->
     axiosPost w issuanceEndpoint (issuanceDocument w userData) (bearer tok) = Ok data ->
     getProp (req_body callback) "state"
       = Ok (callbackStateOf (issuanceDocument w userData)) ->
     exists s2,
       IssueApp.postRequestCallback w' callback
         (IssueApp.createIssuanceRequest w userData s).2 = (Ok callbackReceived, s2) /\
       IssueApp.getRequestStatus (uuidv4 w 0) s2 =
         (Ok (issueStatus (uuidv4 w 0) code (issuedRequest w userData data)), s2)) /\
  (forall (options : JsVal) (s : VerifyApp.State),
     options <> JNull ->
     axiosPost w presentationEndpoint (presentationDocument w options) (bearer tok) = Ok data ->
     getProp (req_body callback) "state"
       = Ok (callbackStateOf (presentationDocument w options)) ->
     exists o s2 r2,
       VerifyApp.postVerificationCallback w' callback
         (VerifyApp.createVerificationRequest w options s).2 = (o, s2) /\
       requestStore s2 !! uuidv4 w 0 = Some r2 /\
       VerifyApp.status r2 = code /\
       VerifyApp.type r2 = JStr "verification" /\
       VerifyApp.created r2 = JDate (now w) /\
       VerifyApp.options r2 = optionsOf options).
Proof.
  intros Hresp Htok Hcode Hp. split.
  - intros userData s Hu Hn Hpost Hstate.
    rewrite (issue_post_run w userData s resp tok Hresp Htok Hu Hn), Hpost. cbn [snd].
    assert (Hst : callbackStateOf (issuanceDocument w userData) = JStr (uuidv4 w 0)).
    { unfold callbackStateOf, issuanceDocument, IssueApp.issuanceRequestOf. cbv zeta.
      destruct (0 <? Pin.pinCodeLength (process_env w)); reflexivity. }
    rewrite Hst in Hstate.
    eexists. split.
    + eapply issue_callback_known;
        [exact Hstate | exact Hcode | exact Hp | apply lookup_insert_eq].
    + erewrite issue_status_found by apply lookup_insert_eq. reflexivity.
  - intros options s Ho Hpost Hstate.
    rewrite (verify_post_run w options s resp tok Hresp Htok Ho), Hpost. cbn [snd].
    assert (Hst : callbackStateOf (presentationDocument w options) = JStr (uuidv4 w 0)).
    { unfold callbackStateOf, presentationDocument, VerifyApp.verificationRequestOf.
      cbv zeta. destruct (truthy _); reflexivity. }
    rewrite Hst in Hstate.
    match goal with
    | |- context [VerifyApp.postVerificationCallback w' callback ?st] =>
        assert (Hl : requestStore st !! uuidv4 w 0
                     = Some (presentationRequest w (optionsOf options) data))
          by apply lookup_insert_eq;
        destruct (verify_callback_frame w' callback st (uuidv4 w 0) code _
                    Hstate Hcode Hp Hl)
          as (o & r' & Hrun & Hsame & Hstat & _)
    end.
    exists o. eexists. exists r'. split; [exact Hrun | ].
    cbn [requestStore]. split; [apply lookup_insert_eq | ].
    split; [exact Hstat | ].
    destruct Hsame as (T & _ & O & C). rewrite T, C, O. repeat split.
Qed.

Lemma callback_state_finds_created_request_witness :
  exists s2,
    IssueApp.postRequestCallback Sample.online
      (Sample.callback "r1" "issuance_successful")
      (IssueApp.createIssuanceRequest (rt := Sample.runtime) Sample.online
         Sample.profile Sample.noIssuance).2 = (Ok callbackReceived, s2) /\
    IssueApp.getRequestStatus "r1" s2 =
      (Ok (issueStatus "r1" (JStr "issuance_successful")
             (issuedRequest Sample.online Sample.profile
                (JObj [("url", JStr "openid-vc://?request_uri=x");
                       ("expiry", JNum (inject_Z 1700000300));
                       ("qrCode", JStr "data:image/png;base64,AAAA")]))), s2).
Proof.
  apply (proj1 (callback_state_finds_created_request (rt := Sample.runtime)
                  Sample.online Sample.online
                  (JObj [("accessToken", JStr "token")]) (JStr "token")
                  (JObj [("url", JStr "openid-vc://?request_uri=x");
                         ("expiry", JNum (inject_Z 1700000300));
                         ("qrCode", JStr "data:image/png;base64,AAAA")])
                  (JStr "issuance_successful")
                  (Sample.callback "r1" "issuance_successful")
                  eq_refl eq_refl eq_refl eq_refl)
           Sample.profile Sample.noIssuance);
    reflexivity.
Defined.

(** X9. What went wrong upstream reaches the caller.  When MSAL fails,
    POST /api/verify-credential answers 500 with the error
    [Failed to create verification request: Failed to acquire access token: c],
    [c] being the error's [errorCode], or its [message] when the code is
    missing or empty, after the token call alone; when the post fails the
    error is [Failed to create verification request: m] with the post's
    message [m], after one token call and one post.
    [createIssuanceRequest] wraps the same two failures the same way, the
    second for a profile whose names convert: for any other profile it
    throws before it posts. *)
Theorem upstream_message_is_surfaced {rt : Runtime} (w : World) (req : Request)
    (sv : VerifyApp.State) (userData : JsVal) (si : IssueApp.State) :
  nullish (req_body req) = false ->
  nullish userData = false ->
  (forall e,
     acquireTokenByClientCredential w VerifyApp.requestApiScope = Throw e ->
     VerifyApp.postVerifyCredential w req sv =
       (Ok (verifyFailed ("Failed to create verification request: "
                          +:+ ("Failed to acquire access token: " +:+ codeOrMessage e))),
        afterCalls sv [AcquireToken VerifyApp.requestApiScope]) /\
     IssueApp.createIssuanceRequest w userData si =
       (Throw (Error ("Failed to create issuance request: "
                      +:+ ("Failed to acquire access token: " +:+ codeOrMessage e))),
        afterCalls si [AcquireToken IssueApp.requestApiScope])) /\
  (forall resp tok e,
     acquireTokenByClientCredential w VerifyApp.requestApiScope = Ok resp ->
     getProp resp "accessToken" = Ok tok ->
     (forall url doc auth, axiosPost w url doc auth = Throw e) ->
     VerifyApp.postVerifyCredential w req sv =
       (Ok (verifyFailed ("Failed to create verification request: " +:+ message e)),
        afterCalls sv
          [AcquireToken VerifyApp.requestApiScope;
           AxiosPost presentationEndpoint
             (presentationDocument w (verifyOptions (req_body req))) (bearer tok)]) /\
     IssueApp.createIssuanceRequest w userData si =
       if namesConvert userData
       then (Throw (Error ("Failed to create issuance request: " +:+ message e)),
             afterCalls si
               [AcquireToken IssueApp.requestApiScope;
                AxiosPost issuanceEndpoint (issuanceDocument w userData) (bearer tok)])
       else (Throw (Error ("Failed to create issuance request: "
                           +:+ message typeErrorPrimitive)),
             afterCalls si [AcquireToken IssueApp.requestApiScope])).
Proof.
  intros Hb Hu. split.
  - intros e He. split.
    + rewrite (postVerifyCredential_run w req sv Hb).
      rewrite (verify_token_failure_run w _ sv e He). reflexivity.
    + apply (issue_token_failure_run w userData si e He).
  - intros resp tok e Hresp Htok Hpost. split.
    + rewrite (postVerifyCredential_run w req sv Hb).
      rewrite (verify_post_run w (verifyOptions (req_body req)) sv resp tok Hresp Htok)
        by discriminate.
      rewrite Hpost. reflexivity.
    + destruct (namesConvert userData) eqn:Hn.
      * rewrite (issue_post_run w userData si resp tok Hresp Htok Hu Hn), Hpost.
        reflexivity.
      * apply (issue_names_run w userData si resp tok Hresp Htok Hu Hn).
Qed.

Lemma upstream_message_is_surfaced_witness :
  VerifyApp.postVerifyCredential (rt := Sample.runtime) Sample.offline
    Sample.anonymous Sample.noVerification =
    (Ok (verifyFailed
           "Failed to create verification request: Failed to acquire access token: invalid_client"),
     afterCalls Sample.noVerification [AcquireToken VerifyApp.requestApiScope]).
Proof.
  apply (proj1 (upstream_message_is_surfaced (rt := Sample.runtime) Sample.offline
                  Sample.anonymous Sample.noVerification Sample.profile Sample.noIssuance
                  eq_refl eq_refl)
           (mkError (Some "invalid_client") "AADSTS7000215")).
  reflexivity.
Defined.

(** X10. When the platform accepts the post but answers with a [null]
    body, the request is stored all the same and only then the reading of
    [url] throws: POST /api/verify-credential answers 500 and never hands
    out the id, yet the status endpoint answers for it;
    [createIssuanceRequest], for a profile whose names convert, throws
    with the entry stored likewise. *)
Theorem null_platform_answer_leaves_entry {rt : Runtime} (w : World) (req : Request)
    (sv : VerifyApp.State) (userData : JsVal) (si : IssueApp.State)
    (resp tok data : JsVal) :
  nullish (req_body req) = false ->
  nullish userData = false ->
  namesConvert userData = true ->
  acquireTokenByClientCredential w VerifyApp.requestApiScope = Ok resp ->
  getProp resp "accessToken" = Ok tok ->
  (forall url doc auth, axiosPost w url doc auth = Ok data) ->
  nullish data = true ->
  (exists error s',
     VerifyApp.postVerifyCredential w req sv = (Ok (verifyFailed error), s') /\
     requestStore s' !! uuidv4 w 0
       = Some (presentationRequest w (verifyOptions (req_body req)) data) /\
     exists found, VerifyApp.getRequestStatus (uuidv4 w 0) s' = (Ok found, s') /\
                   statusCode found = 200) /\
  (exists e s',
     IssueApp.createIssuanceRequest w userData si = (Throw e, s') /\
     requestStore s' !! uuidv4 w 0 = Some (issuedRequest w userData data)).
Proof.
  intros Hb Hu Hn Hresp Htok Hpost Hd. split.
  - rewrite (postVerifyCredential_run w req sv Hb).
    rewrite (verify_post_run w (verifyOptions (req_body req)) sv resp tok Hresp Htok)
      by discriminate.
    rewrite Hpost, Hd. eexists _, _. split; [reflexivity | ].
    cbn [requestStore]. split; [apply lookup_insert_eq | ].
    eexists. erewrite verify_status_found by apply lookup_insert_eq.
    split; reflexivity.
  - rewrite (issue_post_run w userData si resp tok Hresp Htok Hu Hn), Hpost, Hd.
    eexists _, _. split; [reflexivity | ]. apply lookup_insert_eq.
Qed.

Lemma null_platform_answer_leaves_entry_witness :
  exists error s',
    VerifyApp.postVerifyCredential (rt := Sample.runtime) Edge.nullAnswer
      Sample.anonymous Sample.noVerification = (Ok (verifyFailed error), s') /\
    requestStore s' !! "r1"
      = Some (presentationRequest Edge.nullAnswer
                (JObj [("includeFaceCheck", JBool false)]) JNull) /\
    exists found, VerifyApp.getRequestStatus "r1" s' = (Ok found, s') /\
                  statusCode found = 200.
Proof.
  apply (proj1 (null_platform_answer_leaves_entry (rt := Sample.runtime) Edge.nullAnswer
                  Sample.anonymous Sample.noVerification Sample.profile Sample.noIssuance
                  (JObj [("accessToken", JStr "token")]) (JStr "token") JNull
                  eq_refl eq_refl eq_refl eq_refl eq_refl (fun _ _ _ => eq_refl) eq_refl)).
Defined.

(** *** Results across callbacks *)

(** X11. A result once attached is never taken back: after a
    [presentation_verified] callback with a credential entry, a later
    callback with any other code changes the status only, and the status
    endpoint reports the new code together with the credential attached
    before.  Both callbacks are acknowledged when the face check of the
    entry can be logged and the later code has a string; the second
    leaves the request alone (status included) when its code has none. *)
Theorem result_survives_later_callbacks {rt : Runtime} (w1 w2 : World)
    (req1 req2 : Request) (id : string) (cd : JsVal) (rest : list JsVal)
    (code : JsVal) (sv : VerifyApp.State) (rv : VerifyApp.TrackedRequest) :
  getProp (req_body req1) "state" = Ok (JStr id) ->
  getProp (req_body req1) "code" = Ok (JStr "presentation_verified") ->
  getProp (req_body req1) "verifiedCredentialsData" = Ok (JArr (cd :: rest)) ->
  nullish cd = false ->
  getProp (req_body req2) "state" = Ok (JStr id) ->
  getProp (req_body req2) "code" = Ok code ->
  strictEqStr code "presentation_verified" = false ->
  requestStore sv !! id = Some rv ->
  exists s1 s2,
    VerifyApp.postVerificationCallback w1 req1 sv =
      (if printableFaceCheck cd then Ok verificationCallbackReceived
       else Throw typeErrorPrimitive, s1) /\
    VerifyApp.postVerificationCallback w2 req2 s1 =
      (if stringifiable code then Ok verificationCallbackReceived
       else Throw typeErrorPrimitive, s2) /\
    VerifyApp.getRequestStatus id s2 =
      (Ok (verifyStatus id
             (if stringifiable code then code else JStr "presentation_verified")
             (verifiedCredentialOf cd)
             (if truthy (propOf cd "faceCheck") then faceCheckResultOf cd
              else jsOr (VerifyApp.faceCheckResult rv) JNull)
             rv), s2).
Proof.
  intros Hs1 Hc1 Hd Hcd Hs2 Hc2 Hne Hv.
  eexists. 
  rewrite (verify_callback_verified w1 req1 sv id cd rest rv Hs1 Hc1 Hd Hcd Hv).
  destruct (stringifiable code) eqn:Hp.
  - eexists. split; [reflexivity | ]. split.
    + eapply verify_callback_plain;
        [exact Hs2 | exact Hc2 | exact Hp | apply lookup_insert_eq | exact Hne].
    + erewrite verify_status_found by apply lookup_insert_eq.
      unfold verifyStatus, attached, stamped. cbv zeta.
      destruct (truthy (propOf cd "faceCheck")); reflexivity.
  - eexists. split; [reflexivity | ]. split.
    + apply (verify_callback_unprintable w2 req2 _ (JStr id) code Hs2 Hc2 Hp).
    + erewrite verify_status_found by apply lookup_insert_eq.
      unfold verifyStatus, attached, stamped. cbv zeta.
      destruct (truthy (propOf cd "faceCheck")); reflexivity.
Qed.

Lemma result_survives_later_callbacks_witness :
  exists s1 s2,
    VerifyApp.postVerificationCallback (rt := Sample.runtime) Sample.online
      Sample.verified Sample.verifyState = (Ok verificationCallbackReceived, s1) /\
    VerifyApp.postVerificationCallback (rt := Sample.runtime) Sample.online
      (Sample.callback "r1" "presentation_error") s1
      = (Ok verificationCallbackReceived, s2) /\
    VerifyApp.getRequestStatus "r1" s2 =
      (Ok (verifyStatus "r1" (JStr "presentation_error")
             (JObj [("type", JUndefined);
                    ("issuer", JUndefined);
                    ("claims", JObj [("displayName", JStr "Jane Doe")]);
                    ("credentialSubject", JUndefined)])
             JNull Sample.requested), s2).
Proof.
  apply (result_survives_later_callbacks (rt := Sample.runtime) Sample.online Sample.online
           Sample.verified (Sample.callback "r1" "presentation_error") "r1"
           (JObj [("claims", JObj [("displayName", JStr "Jane Doe")])]) []
           (JStr "presentation_error") Sample.verifyState Sample.requested);
    reflexivity.
Defined.

(** X12. A [presentation_verified] callback whose first credential entry
    is [null] (or [undefined]) makes the handler throw, so Express answers
    500; but the status and the time were assigned to the stored object
    before: the request is left with status [presentation_verified], the
    new [updated] and the result fields it had. *)
Theorem null_credential_entry_throws_after_status_write {rt : Runtime} (w : World)
    (req : Request) (id : string) (first : JsVal) (rest : list JsVal)
    (sv : VerifyApp.State) (rv : VerifyApp.TrackedRequest) :
  getProp (req_body req) "state" = Ok (JStr id) ->
  getProp (req_body req) "code" = Ok (JStr "presentation_verified") ->
  getProp (req_body req) "verifiedCredentialsData" = Ok (JArr (first :: rest)) ->
  nullish first = true ->
  requestStore sv !! id = Some rv ->
  VerifyApp.postVerificationCallback w req sv =
    (Throw (typeErrorRead first "type"),
     mkMachine (<[id := stamped w (JStr "presentation_verified") rv]> (requestStore sv))
       (calls sv)) /\
  VerifyApp.verifiedCredential (stamped w (JStr "presentation_verified") rv)
    = VerifyApp.verifiedCredential rv /\
  VerifyApp.status (stamped w (JStr "presentation_verified") rv)
    = JStr "presentation_verified".
Proof.
  intros Hs Hc Hd Hn Hv. split; [ | split; reflexivity].
  rewrite (verify_callback_head w req sv id _ rv Hs Hc eq_refl Hv).
  cbn [strictEqStr String.eqb Ascii.eqb Bool.eqb]. cbv zeta.
  unfold VerifyApp.attachVerified. run. rewrite Hd.
  cbn [truthy getLength gtZero getIndex0 hd List.length inject_Z Qnum].
  replace (0 <? Z.of_nat (S (List.length rest))) with true
    by (symmetry; apply Z.ltb_lt; lia).
  destruct first; try discriminate; reflexivity.
Qed.

Lemma null_credential_entry_throws_after_status_write_witness :
  VerifyApp.postVerificationCallback (rt := Sample.runtime) Sample.online
    (mkRequest ∅ (JObj [("state", JStr "r1");
                        ("code", JStr "presentation_verified");
                        ("verifiedCredentialsData", JArr [JNull])]))
    Sample.verifyState =
    (Throw (typeErrorRead JNull "type"),
     mkMachine (<["r1" := stamped Sample.online (JStr "presentation_verified")
                            Sample.requested]> (requestStore Sample.verifyState))
       (calls Sample.verifyState)).
Proof.
  apply (null_credential_entry_throws_after_status_write (rt := Sample.runtime)
           Sample.online _ "r1" JNull [] Sample.verifyState Sample.requested);
    reflexivity.
Defined.

(** *** More on the photo lookup *)

(** X13. For a name that has a string: after the five sized requests
    have failed, [getUserPhoto] asks for the photo without a size, and
    returns that photo encoded: six Graph requests in all, the unsized
    one last. *)
Theorem unsized_photo_is_last_resort {rt : Runtime} (w : World) (upn : JsVal)
    (s : IssueApp.State) (photo : JsVal) (bytes : list byte) :
  stringifiable upn = true ->
  (forall sz, In sz IssueApp.photoSizes ->
              exists e, graphGet w (sizedPhotoPath upn sz) = Throw e) ->
  graphGet w (unsizedPhotoPath upn) = Ok photo ->
  truthy photo = true ->
  IssueApp.photoBuffer photo = Ok bytes ->
  IssueApp.getUserPhoto w upn s =
    (Ok (JStr (encodeURIComponent (toBase64 bytes))),
     afterCalls s (photoRequests upn IssueApp.photoSizes
                   ++ [GraphGet (unsizedPhotoPath upn)])).
Proof.
  intros Hp Hall Hdefault Ht Hb.
  unfold IssueApp.getUserPhoto, tryCatch, bind.
  rewrite (photoLoop_none w upn IssueApp.photoSizes s Hp Hall).
  cbn [truthy negb]. unfold lift at 1. rewrite (photoPath_ok upn Hp).
  rewrite graphApiGet_run, Hdefault.
  rewrite Ht. unfold lift, ret. rewrite Hb, afterCalls_app. reflexivity.
Qed.

Lemma unsized_photo_is_last_resort_witness :
  IssueApp.getUserPhoto (rt := Sample.runtime) Edge.unsizedPhoto (JStr "jane@contoso.com")
    Sample.noIssuance =
    (Ok (JStr "AQID"),
     afterCalls Sample.noIssuance
       [GraphGet "/users/jane@contoso.com/photos/240x240/$value";
        GraphGet "/users/jane@contoso.com/photos/120x120/$value";
        GraphGet "/users/jane@contoso.com/photos/96x96/$value";
        GraphGet "/users/jane@contoso.com/photos/64x64/$value";
        GraphGet "/users/jane@contoso.com/photos/48x48/$value";
        GraphGet "/users/jane@contoso.com/photo/$value"]).
Proof.
  apply (unsized_photo_is_last_resort (rt := Sample.runtime) Edge.unsizedPhoto
           (JStr "jane@contoso.com") Sample.noIssuance
           (JBin KBuffer [x01; x02; x03]%byte) [x01; x02; x03]%byte);
    try reflexivity.
  intros sz Hin. cbn in Hin.
  destruct Hin as [<- | [<- | [<- | [<- | [<- | []]]]]]; eexists; reflexivity.
Defined.

(** X14. For a name that has a string, the first size Graph answers ends
    the search, whatever the answer is worth: when that answer cannot be
    turned into a buffer the result is [null] and no smaller size is asked
    for; when it is a falsy value the unsized photo is asked for next, the
    remaining sizes never. *)
Theorem first_answer_ends_the_size_search {rt : Runtime} (w : World) (upn : JsVal)
    (s : IssueApp.State) (pre : list string) (size : string) (post : list string)
    (photo : JsVal) :
  stringifiable upn = true ->
  IssueApp.photoSizes = pre ++ size :: post ->
  (forall sz, In sz pre ->
              exists e, graphGet w (sizedPhotoPath upn sz) = Throw e) ->
  graphGet w (sizedPhotoPath upn size) = Ok photo ->
  (truthy photo = true ->
   returned (IssueApp.photoBuffer photo) = false ->
   IssueApp.getUserPhoto w upn s =
     (Ok JNull, afterCalls s (photoRequests upn (pre ++ [size])))) /\
  (truthy photo = false ->
   calls (IssueApp.getUserPhoto w upn s).2 =
     calls s ++ photoRequests upn (pre ++ [size]) ++ [GraphGet (unsizedPhotoPath upn)]).
Proof.
  intros Hp Hsizes Hpre Hsize. split.
  - intros Ht Hb. unfold IssueApp.getUserPhoto, tryCatch, bind. rewrite Hsizes.
    rewrite (photoLoop_first w upn pre size post photo s Hp Hpre Hsize).
    rewrite Ht. cbn [negb]. unfold ret, lift. rewrite Ht, (printable_ok upn Hp).
    destruct (IssueApp.photoBuffer photo); [discriminate | reflexivity].
  - intros Hf. unfold IssueApp.getUserPhoto, tryCatch, bind. rewrite Hsizes.
    rewrite (photoLoop_first w upn pre size post photo s Hp Hpre Hsize).
    rewrite Hf. cbn [negb]. unfold lift. rewrite (photoPath_ok upn Hp), (printable_ok upn Hp).
    rewrite graphApiGet_run.
    destruct (graphGet w (unsizedPhotoPath upn)) as [photo' | e].
    + destruct (truthy photo').
      * unfold ret. destruct (IssueApp.photoBuffer photo');
          cbn [snd calls afterCalls requestStore]; now rewrite <- app_assoc.
      * unfold throw, ret. cbn [snd calls afterCalls requestStore]. now rewrite <- app_assoc.
    + unfold ret. cbn [snd calls afterCalls requestStore]. now rewrite <- app_assoc.
Qed.

Lemma first_answer_ends_the_size_search_witness :
  IssueApp.getUserPhoto (rt := Sample.runtime) Edge.oddPhoto (JStr "jane@contoso.com")
    Sample.noIssuance =
    (Ok JNull,
     afterCalls Sample.noIssuance
       [GraphGet "/users/jane@contoso.com/photos/240x240/$value"]).
Proof.
  apply (proj1 (first_answer_ends_the_size_search (rt := Sample.runtime) Edge.oddPhoto
                  (JStr "jane@contoso.com") Sample.noIssuance
                  [] "240x240" ["120x120"; "96x96"; "64x64"; "48x48"]
                  (JNum (inject_Z 7)) eq_refl eq_refl
                  (fun sz (H : In sz []) => match H with end) eq_refl));
    reflexivity.
Defined.

(** *** The documents sent to the platform *)

Lemma truthy_jsOr_r (a b : JsVal) : truthy b = true -> truthy (jsOr a b) = true.
Proof. intros Hb. unfold jsOr. destruct (truthy a) eqn:Ha; assumption. Qed.

Lemma truthy_joined (a b : string) : truthy (JStr (a +:+ " " +:+ b)) = true.
Proof. destruct a; reflexivity. Qed.

Lemma displayNameOf_truthy {rt : Runtime} (userData : JsVal) :
  namesConvert userData = true -> truthy (displayNameOf userData) = true.
Proof.
  unfold namesConvert, displayNameOf, IssueApp.displayNameClaim. intros H.
  destruct (truthy (propOf userData "displayName")) eqn:Hd; [exact Hd | ].
  cbn [orb] in H. apply andb_prop in H as [Hg Hf].
  rewrite (toStringOf_ok _ Hg), (toStringOf_ok _ Hf). cbn [obind].
  apply truthy_joined.
Qed.

Lemma issuance_claims_fields {rt : Runtime} (w : World) (userData : JsVal) :
  propOf (claimsOf (issuanceDocument w userData)) "revocationId"
    = jsOr (propOf userData "revocationId") (JStr (uuidv4 w 1)) /\
  propOf (claimsOf (issuanceDocument w userData)) "photo"
    = jsOr (propOf userData "photo") JNull.
Proof.
  unfold claimsOf, issuanceDocument, IssueApp.issuanceRequestOf. cbv zeta.
  destruct (0 <? Pin.pinCodeLength (process_env w)); split; reflexivity.
Qed.

(** X15. For a profile whose names convert and with a token,
    [createIssuanceRequest] posts once, and the issuance request it posts
    carries a non-empty [displayName], [givenName], [surname], [mail],
    [jobTitle], [preferredLanguage] and [userPrincipalName]: each falls
    back to another field of the profile and in the end to a fixed text.
    [revocationId] is the profile's when it has one and a fresh
    [uuidv4()] otherwise, [photo] the profile's or [null]. *)
Theorem issuance_claims_are_never_empty {rt : Runtime} (w : World) (userData : JsVal)
    (s : IssueApp.State) (resp tok : JsVal) :
  acquireTokenByClientCredential w IssueApp.requestApiScope = Ok resp ->
  getProp resp "accessToken" = Ok tok ->
  nullish userData = false ->
  namesConvert userData = true ->
  let claims := claimsOf (issuanceDocument w userData) in
  calls (IssueApp.createIssuanceRequest w userData s).2 =
    calls s ++ [AcquireToken IssueApp.requestApiScope;
                AxiosPost issuanceEndpoint (issuanceDocument w userData) (bearer tok)] /\
  truthy (propOf claims "displayName") = true /\
  truthy (propOf claims "givenName") = true /\
  truthy (propOf claims "surname") = true /\
  truthy (propOf claims "mail") = true /\
  truthy (propOf claims "jobTitle") = true /\
  truthy (propOf claims "preferredLanguage") = true /\
  truthy (propOf claims "userPrincipalName") = true /\
  propOf claims "revocationId"
    = jsOr (propOf userData "revocationId") (JStr (uuidv4 w 1)) /\
  propOf claims "photo" = jsOr (propOf userData "photo") JNull.
Proof.
  intros Hresp Htok Hu Hn. cbv zeta. split.
  - rewrite (issue_post_run w userData s resp tok Hresp Htok Hu Hn).
    destruct (axiosPost w issuanceEndpoint _ _); reflexivity.
  - pose proof (displayNameOf_truthy userData Hn) as Hname.
    unfold claimsOf, issuanceDocument, IssueApp.issuanceRequestOf. cbv zeta.
    destruct (0 <? Pin.pinCodeLength (process_env w));
      cbn [propOf lookupProp app String.eqb Ascii.eqb Bool.eqb];
      repeat split; try exact Hname;
      repeat (apply truthy_jsOr_r); reflexivity.
Qed.

Lemma issuance_claims_are_never_empty_witness :
  propOf (claimsOf (issuanceDocument (rt := Sample.runtime) Sample.online
                      (JObj [("mail", JStr "jane@contoso.com")])))
    "displayName" = JStr "Employee User" /\
  truthy (propOf (claimsOf (issuanceDocument (rt := Sample.runtime) Sample.online
                              (JObj [("mail", JStr "jane@contoso.com")])))
            "displayName") = true.
Proof.
  split; [reflexivity | ].
  apply (issuance_claims_are_never_empty (rt := Sample.runtime) Sample.online
           (JObj [("mail", JStr "jane@contoso.com")]) Sample.noIssuance
           (JObj [("accessToken", JStr "token")]) (JStr "token")
           eq_refl eq_refl eq_refl eq_refl).
Defined.

(** *** Start-up *)

Lemma missingVars_spec (required : list string) (process_env : string -> option string) :
  List.filter
    (fun varName =>
       negb (truthy (match process_env varName with
                     | Some s => JStr s
                     | None => JUndefined
                     end))) required = [] <->
  forall name, In name required -> isSet process_env name.
Proof.
  induction required as [| name required IH]; cbn [List.filter].
  - split; [intros _ n [] | reflexivity].
  - destruct (process_env name) as [v |] eqn:Hv; cbn [truthy negb].
    + destruct (String.eqb v "") eqn:Hempty; cbn [negb].
      * split; [discriminate | ]. intros H.
        destruct (H name (or_introl eq_refl)) as (v' & Hv' & Hne).
        apply String.eqb_eq in Hempty. congruence.
      * rewrite IH. split.
        -- intros H n [<- | Hin]; [ | auto].
           exists v. split; [assumption | now apply String.eqb_neq].
        -- intros H n Hin. apply H. now right.
    + split; [discriminate | ]. intros H.
      destruct (H name (or_introl eq_refl)) as (v' & Hv' & _). congruence.
Qed.

(** X16. Each service goes on after start-up exactly when every setting
    it requires is set to a non-empty text; an empty value counts as
    missing.  The issue service requires the client id, secret and tenant,
    DID_AUTHORITY, CREDENTIAL_MANIFEST and CREDENTIAL_TYPE; the verify
    service requires APP_URL in place of CREDENTIAL_MANIFEST. *)
Theorem startup_needs_every_setting (process_env : string -> option string) :
  (IssueApp.starts process_env = true <->
   isSet process_env "AZURE_CLIENT_ID" /\ isSet process_env "AZURE_CLIENT_SECRET" /\
   isSet process_env "AZURE_TENANT_ID" /\ isSet process_env "DID_AUTHORITY" /\
   isSet process_env "CREDENTIAL_MANIFEST" /\ isSet process_env "CREDENTIAL_TYPE") /\
  (VerifyApp.starts process_env = true <->
   isSet process_env "AZURE_CLIENT_ID" /\ isSet process_env "AZURE_CLIENT_SECRET" /\
   isSet process_env "AZURE_TENANT_ID" /\ isSet process_env "DID_AUTHORITY" /\
   isSet process_env "CREDENTIAL_TYPE" /\ isSet process_env "APP_URL").
Proof.
  assert (Hlen : forall l : list string,
             negb (0 <? Z.of_nat (List.length l)) = true <-> l = []).
  { intros [| x l]; [split; reflexivity | ].
    replace (0 <? Z.of_nat (List.length (x :: l))) with true
      by (symmetry; apply Z.ltb_lt; cbn [List.length]; lia).
    split; discriminate. }
  split.
  - unfold IssueApp.starts. rewrite Hlen. unfold IssueApp.missingVars.
    rewrite missingVars_spec. unfold IssueApp.requiredEnvVars. split.
    + intros H. repeat split; apply H; cbn; tauto.
    + intros (H1 & H2 & H3 & H4 & H5 & H6) name Hin. cbn in Hin.
      destruct Hin as [<- | [<- | [<- | [<- | [<- | [<- | []]]]]]]; assumption.
  - unfold VerifyApp.starts. rewrite Hlen. unfold VerifyApp.missingVars.
    rewrite missingVars_spec. unfold VerifyApp.requiredEnvVars. split.
    + intros H. repeat split; apply H; cbn; tauto.
    + intros (H1 & H2 & H3 & H4 & H5 & H6) name Hin. cbn in Hin.
      destruct Hin as [<- | [<- | [<- | [<- | [<- | [<- | []]]]]]]; assumption.
Qed.

(** X17. The issue service starts without APP_URL, and then tells the
    platform to call back at [undefined/api/request-callback]; with
    APP_URL set the callback url is that value followed by the route.  The
    verify service cannot start without APP_URL, so its callback url is
    always APP_URL followed by [/api/verification-callback]. *)
Theorem callback_url_needs_app_url {rt : Runtime} (w : World) (userData options : JsVal) :
  (process_env w "APP_URL" = None ->
   callbackUrlOf (issuanceDocument w userData) = JStr "undefined/api/request-callback") /\
  (forall url, process_env w "APP_URL" = Some url ->
     callbackUrlOf (issuanceDocument w userData) = JStr (url +:+ "/api/request-callback")) /\
  (forall env, IssueApp.missingVars env
               = IssueApp.missingVars
                   (fun name => if String.eqb name "APP_URL" then None else env name)) /\
  (VerifyApp.starts (process_env w) = true ->
   exists url, process_env w "APP_URL" = Some url /\ url <> "" /\
     callbackUrlOf (presentationDocument w options)
       = JStr (url +:+ "/api/verification-callback")).
Proof.
  split; [ | split; [ | split]].
  - intros Hnone. unfold callbackUrlOf, issuanceDocument, IssueApp.issuanceRequestOf.
    cbv zeta. unfold IssueApp.env. rewrite Hnone.
    destruct (0 <? Pin.pinCodeLength (process_env w)); reflexivity.
  - intros url Hurl. unfold callbackUrlOf, issuanceDocument, IssueApp.issuanceRequestOf.
    cbv zeta. unfold IssueApp.env. rewrite Hurl.
    destruct (0 <? Pin.pinCodeLength (process_env w)); reflexivity.
  - intros env. reflexivity.
  - intros Hstart.
    assert (Hset : isSet (process_env w) "APP_URL").
    { unfold VerifyApp.starts in Hstart.
      assert (Hnil : VerifyApp.missingVars (process_env w) = [])
        by (destruct (VerifyApp.missingVars (process_env w)); [reflexivity | discriminate]).
      unfold VerifyApp.missingVars in Hnil. rewrite missingVars_spec in Hnil.
      apply Hnil. unfold VerifyApp.requiredEnvVars. cbn. tauto. }
    destruct Hset as (url & Hurl & Hne). exists url. split; [exact Hurl | ].
    split; [exact Hne | ].
    unfold callbackUrlOf, presentationDocument, VerifyApp.verificationRequestOf.
    cbv zeta. unfold VerifyApp.env. rewrite Hurl.
    destruct (truthy _); reflexivity.
Qed.

Lemma callback_url_needs_app_url_witness :
  IssueApp.starts Edge.settings = true /\
  callbackUrlOf (issuanceDocument (rt := Sample.runtime) Sample.online Sample.profile)
    = JStr "undefined/api/request-callback".
Proof.
  split; [reflexivity | ].
  apply (proj1 (callback_url_needs_app_url (rt := Sample.runtime) Sample.online
                  Sample.profile JUndefined)).
  reflexivity.
Defined.

(** *** More on the Easy Auth header *)

(** X18. A header the service cannot read is no identity: an empty
    header, one that does not decode to JSON, one that decodes to [null],
    one whose [claims] is neither absent nor an array, and one whose first
    claim is [null] are all answered 401 like a missing header, and the
    issuing handler does nothing. *)
Theorem unreadable_header_is_unauthenticated {rt : Runtime} (w : World)
    (req : Request) (h : string) :
  headers req !! "x-ms-client-principal" = Some h ->
  h = "" \/
  decodeBase64Json h = None \/
  decodeBase64Json h = Some JNull \/
  (exists props,
     decodeBase64Json h = Some (JObj props) /\
     truthy (lookupProp props "claims") = true /\
     isArray (lookupProp props "claims") = false) \/
  (exists props first rest,
     decodeBase64Json h = Some (JObj props) /\
     lookupProp props "claims" = JArr (first :: rest) /\
     nullish first = true) ->
  IssueApp.requireEasyAuth req = IssueApp.Reject unauthenticated /\
  forall s : IssueApp.State,
    IssueApp.guarded (IssueApp.postIssueCredential w) req s = (Ok unauthenticated, s).
Proof.
  intros Hh Hcase.
  assert (Hnull : IssueApp.parseEasyAuthUser req = JNull).
  { unfold IssueApp.parseEasyAuthUser. rewrite Hh.
    destruct Hcase as [-> | Hcase]; [reflexivity | ].
    destruct (String.eqb h ""); [reflexivity | ].
    destruct Hcase as [-> | [-> | [(props & -> & Ht & Ha) | (props & first & rest & -> & Hc & Hn)]]];
      try reflexivity.
    - cbn [getProp obind]. unfold jsOr. rewrite Ht.
      destruct (orElse (Ok (lookupProp props "identityProvider")) _); [ | reflexivity].
      cbn [obind].
      destruct (lookupProp props "claims"); try discriminate; reflexivity.
    - cbn [getProp obind]. rewrite Hc. cbn [jsOr truthy].
      destruct (orElse (Ok (lookupProp props "identityProvider")) _); [ | reflexivity].
      cbn [obind].
      destruct first; try discriminate; reflexivity. }
  assert (Hrej : IssueApp.requireEasyAuth req = IssueApp.Reject unauthenticated).
  { unfold IssueApp.requireEasyAuth. now rewrite Hnull. }
  split; [exact Hrej | ]. intros s. unfold IssueApp.guarded. now rewrite Hrej.
Qed.

Lemma unreadable_header_is_unauthenticated_witness :
  IssueApp.requireEasyAuth (rt := Edge.lenient) (Edge.withHeader "bnVsbA==")
    = IssueApp.Reject unauthenticated /\
  forall s : IssueApp.State,
    IssueApp.guarded (rt := Edge.lenient)
      (IssueApp.postIssueCredential (rt := Edge.lenient) Sample.online)
      (Edge.withHeader "bnVsbA==") s = (Ok unauthenticated, s).
Proof.
  apply (unreadable_header_is_unauthenticated (rt := Edge.lenient) Sample.online
           (Edge.withHeader "bnVsbA==") "bnVsbA==").
  - reflexivity.
  - right. right. left. reflexivity.
Defined.

(** X19. The guard lets through any header that decodes to JSON other
    than an object or [null]: for a number, a string, a boolean or an array
    it calls the handler with a user marked authenticated whose id, details,
    name and email are all [undefined]. *)
Theorem value_header_passes_the_guard {rt : Runtime} (req : Request) (h : string)
    (principal : JsVal) :
  headers req !! "x-ms-client-principal" = Some h ->
  h <> "" ->
  decodeBase64Json h = Some principal ->
  notAnObject principal = true ->
  IssueApp.requireEasyAuth req = IssueApp.Next blankUser.
Proof.
  intros Hh Hne Hdec Hp.
  unfold IssueApp.requireEasyAuth, IssueApp.parseEasyAuthUser.
  rewrite Hh. apply String.eqb_neq in Hne. rewrite Hne, Hdec.
  destruct principal; try discriminate; reflexivity.
Qed.

Lemma value_header_passes_the_guard_witness :
  IssueApp.requireEasyAuth (rt := Edge.lenient) (Edge.withHeader "NQ==")
    = IssueApp.Next blankUser.
Proof.
  apply (value_header_passes_the_guard (rt := Edge.lenient) (Edge.withHeader "NQ==")
           "NQ==" (JNum (inject_Z 5)));
    [reflexivity | discriminate | reflexivity | reflexivity].
Defined.

(** X20. [findClaim] gives the value of the first claim of the asked
    type: claims after it are not looked at (a [null] among them does no
    harm), and when no claim has the type the result is [null]. *)
Theorem claim_lookup_takes_first_match (claimType : string)
    (pre : list JsVal) (claim : JsVal) (post : list JsVal) :
  (forall c, In c pre ->
             nullish c = false /\ strictEqStr (propOf c "typ") claimType = false) ->
  isObject claim = true ->
  propOf claim "typ" = JStr claimType ->
  IssueApp.findClaim (JArr (pre ++ claim :: post)) claimType = Ok (propOf claim "val") /\
  IssueApp.findClaim (JArr pre) claimType = Ok JNull.
Proof.
  intros Hpre Hobj Htyp. unfold IssueApp.findClaim. split.
  - assert (Hfind : findFirst (fun c => let? typ := getProp c "typ" in
                                        Ok (strictEqStr typ claimType))
                      (pre ++ claim :: post) = Ok claim).
    { induction pre as [| c pre IH]; cbn [app findFirst].
      - rewrite (getProp_ok claim "typ" (isObject_not_nullish _ Hobj)), Htyp.
        cbn [obind strictEqStr]. now rewrite String.eqb_refl.
      - destruct (Hpre c (or_introl eq_refl)) as [Hn Hne].
        rewrite (getProp_ok c "typ" Hn). cbn [obind]. rewrite Hne.
        apply IH. intros c' Hin. apply Hpre. now right. }
    rewrite Hfind. cbn [obind].
    destruct claim; try discriminate. reflexivity.
  - assert (Hfind : findFirst (fun c => let? typ := getProp c "typ" in
                                        Ok (strictEqStr typ claimType)) pre
                    = Ok JUndefined).
    { induction pre as [| c pre IH]; cbn [findFirst]; [reflexivity | ].
      destruct (Hpre c (or_introl eq_refl)) as [Hn Hne].
      rewrite (getProp_ok c "typ" Hn). cbn [obind]. rewrite Hne.
      apply IH. intros c' Hin. apply Hpre. now right. }
    rewrite Hfind. reflexivity.
Qed.

Lemma claim_lookup_takes_first_match_witness :
  IssueApp.findClaim
    (JArr ([JObj [("typ", JStr "email"); ("val", JStr "jane@contoso.com")]]
           ++ JObj [("typ", JStr "name"); ("val", JStr "Jane Doe")]
           :: [JNull; JObj [("typ", JStr "name"); ("val", JStr "Other")]]))
    "name" = Ok (JStr "Jane Doe").
Proof.
  apply (claim_lookup_takes_first_match "name"
           [JObj [("typ", JStr "email"); ("val", JStr "jane@contoso.com")]]
           (JObj [("typ", JStr "name"); ("val", JStr "Jane Doe")])
           [JNull; JObj [("typ", JStr "name"); ("val", JStr "Other")]]).
  - intros c [<- | []]. split; reflexivity.
  - reflexivity.
  - reflexivity.
Defined.

(** *** More on the PIN length *)



(** *** From the photo lookup to the platform *)

Lemma lookupProp_assignProp (props : list (string * JsVal)) (name : string) (v : JsVal) :
  lookupProp (assignProp props name v) name = v.
Proof.
  induction props as [| [k x] props IH]; cbn [assignProp lookupProp].
  - now rewrite String.eqb_refl.
  - destruct (String.eqb k name) eqn:Hk; cbn [lookupProp]; now rewrite Hk.
Qed.

(** X22. When the handler resolved a profile (from Graph or from the
    Easy Auth user) whose names convert and [getUserPhoto] finds a photo
    (a non-empty string), the issuing handler puts the photo into that
    profile, and the issuance request it posts is the one built from the
    profile with the photo and carries it as the [photo] claim. *)
Theorem photo_reaches_the_claims {rt : Runtime} (w : World) (user : JsVal)
    (req : Request) (s : IssueApp.State) (resp tok profile0 : JsVal)
    (encoded : string) :
  nullish user = false ->
  stringifiable (propOf user "userDetails") = true ->
  (IssueApp.resolveProfile w user s).1 = Ok profile0 ->
  namesConvert profile0 = true ->
  acquireTokenByClientCredential w IssueApp.requestApiScope = Ok resp ->
  getProp resp "accessToken" = Ok tok ->
  (IssueApp.getUserPhoto w (lookupName user)
     (IssueApp.resolveProfile w user s).2).1 = Ok (JStr encoded) ->
  encoded <> "" ->
  let profile := setProp profile0 "photo" (JStr encoded) in
  propOf profile "photo" = JStr encoded /\
  propOf (claimsOf (issuanceDocument w profile)) "photo" = JStr encoded /\
  calls (IssueApp.postIssueCredential w user req s).2 =
    calls (IssueApp.getUserPhoto w (lookupName user)
             (IssueApp.resolveProfile w user s).2).2
    ++ [AcquireToken IssueApp.requestApiScope;
        AxiosPost issuanceEndpoint (issuanceDocument w profile) (bearer tok)].
Proof.
  intros Hu Hd Hres Hn Hresp Htok Hphoto Hne profile.
  pose proof (resolveProfile_object w user profile0 s Hu Hres) as Hobj0.
  assert (Ht : truthy (JStr encoded) = true).
  { cbn. apply String.eqb_neq in Hne. now rewrite Hne. }
  assert (Hwith : withPhoto profile0 (Ok (JStr encoded)) = profile)
    by (unfold withPhoto; now rewrite Ht).
  assert (Hphoto' : propOf profile "photo" = JStr encoded).
  { unfold profile. destruct profile0; try discriminate.
    apply lookupProp_assignProp. }
  split; [exact Hphoto' | ]. split.
  - destruct (issuance_claims_fields w profile) as (_ & Hp). rewrite Hp, Hphoto'.
    unfold jsOr. now rewrite Ht.
  - rewrite (postIssueCredential_run w user req s Hu Hd).
    rewrite Hres. cbv zeta. rewrite Hphoto, Hwith.
    assert (Hobj : isObject profile = true)
      by (rewrite <- Hwith; now apply withPhoto_object).
    assert (Hn' : namesConvert profile = true)
      by (rewrite <- Hwith; now rewrite namesConvert_withPhoto).
    rewrite (issue_post_run w profile _ resp tok Hresp Htok
               (isObject_not_nullish _ Hobj) Hn').
    destruct (axiosPost w issuanceEndpoint (issuanceDocument w profile) (bearer tok))
      as [data | e]; [ | reflexivity].
    destruct (nullish data); reflexivity.
Qed.

Lemma photo_reaches_the_claims_witness :
  propOf (claimsOf (issuanceDocument (rt := Sample.runtime) Sample.online
                      (JObj [("displayName", JStr "Jane Doe");
                             ("givenName", JStr "Jane");
                             ("surname", JStr "Doe");
                             ("mail", JStr "jane@contoso.com");
                             ("jobTitle", JStr "Employee");
                             ("preferredLanguage", JStr "en-US");
                             ("userPrincipalName", JStr "jane@contoso.com");
                             ("photo", JStr "AQID")])))
    "photo" = JStr "AQID".
Proof.
  apply (photo_reaches_the_claims (rt := Sample.runtime) Sample.online
           (JObj [("name", JStr "Jane Doe"); ("email", JStr "jane@contoso.com")])
           Sample.anonymous Sample.noIssuance
           (JObj [("accessToken", JStr "token")]) (JStr "token")
           (JObj [("displayName", JStr "Jane Doe");
                  ("givenName", JStr "Jane");
                  ("surname", JStr "Doe");
                  ("mail", JStr "jane@contoso.com");
                  ("jobTitle", JStr "Employee");
                  ("preferredLanguage", JStr "en-US");
                  ("userPrincipalName", JStr "jane@contoso.com")])
           "AQID");
    try reflexivity.
  discriminate.
Defined.

(** *** An authenticated request for the user *)

(** X23. A request to GET /api/user whose header decodes to a principal
    of the documented shape is answered 200 with [authenticated: true] and
    a profile, without touching the store and whether Graph answers or
    not: after one Graph request when the name it looks up has a string,
    after none otherwise. *)
Theorem authenticated_user_request_is_200 {rt : Runtime} (w : World) (req : Request)
    (h : string) (principal : JsVal) (s : IssueApp.State) :
  headers req !! "x-ms-client-principal" = Some h ->
  h <> "" ->
  decodeBase64Json h = Some principal ->
  wellFormedPrincipal principal = true ->
  exists profile,
    IssueApp.guarded (IssueApp.getUser w) req s =
      (Ok (mkResponse 200 (JObj [("user", profile); ("authenticated", JBool true)])),
       if stringifiable (userLookupName (IssueApp.parseEasyAuthUser req))
       then afterCalls s
              [GraphGet ("/users/"
                         +:+ ToString (userLookupName (IssueApp.parseEasyAuthUser req)))]
       else s).
Proof.
  intros Hh Hne Hdec Hwf.
  destruct (parseEasyAuthUser_user req h principal Hh Hne Hdec Hwf)
    as (ip & name & email & given & sur & upn & Hparse).
  unfold IssueApp.guarded, IssueApp.requireEasyAuth. rewrite Hparse.
  cbn [truthy negb]. rewrite getUser_run by reflexivity.
  destruct (stringifiable _); eexists; reflexivity.
Qed.

Lemma authenticated_user_request_is_200_witness :
  exists profile,
    IssueApp.guarded (rt := Sample.runtime)
      (IssueApp.getUser (rt := Sample.runtime) Sample.offline)
      Sample.principal Sample.noIssuance =
      (Ok (mkResponse 200 (JObj [("user", profile); ("authenticated", JBool true)])),
       afterCalls Sample.noIssuance [GraphGet "/users/jane@contoso.com"]).
Proof.
  apply (authenticated_user_request_is_200 (rt := Sample.runtime) Sample.offline
           Sample.principal Sample.header
           (JObj [("userId", JStr "u1");
                  ("userDetails", JStr "jane@contoso.com");
                  ("claims",
                   JArr [JObj [("typ", JStr "name");
                               ("val", JStr "Jane Doe")]])]));
    try reflexivity.
  discriminate.
Defined.

(** *** Values that have no string *)

(** X24. A principal name that has no string (an object with a
    [toString] member, say) never reaches Graph: [getUserProfile] throws
    the wrapped TypeError and [getUserPhoto] throws out of its own
    [catch], both without a request.  The issuing handler absorbs both:
    its profile step falls back to the Easy Auth user and its photo step
    keeps the profile it was given. *)
Theorem name_without_string_sends_nothing {rt : Runtime} (w : World) (upn : JsVal)
    (s : IssueApp.State) :
  stringifiable upn = false ->
  IssueApp.getUserProfile w upn s =
    (Throw (Error ("Failed to fetch user profile: "
                   +:+ "Cannot convert object to primitive value")), s) /\
  IssueApp.getUserPhoto w upn s = (Throw typeErrorPrimitive, s) /\
  (forall user userProfile : JsVal,
     nullish user = false ->
     lookupName user = upn ->
     IssueApp.resolveProfile w user s = (easyAuthProfile user, s) /\
     IssueApp.attachPhoto w user userProfile s = (Ok userProfile, s)).
Proof.
  intros Hp. split; [ | split].
  - rewrite getUserProfile_run, Hp. reflexivity.
  - apply getUserPhoto_unprintable. exact Hp.
  - intros user userProfile Hu Hname. subst upn. split.
    + rewrite (resolveProfile_run w user s Hu), Hp. reflexivity.
    + rewrite (attachPhoto_run w user userProfile s Hu).
      rewrite (getUserPhoto_unprintable w (lookupName user) s Hp). reflexivity.
Qed.

Lemma name_without_string_sends_nothing_witness :
  IssueApp.getUserPhoto (rt := Sample.runtime) Sample.online Edge.noString
    Sample.noIssuance = (Throw typeErrorPrimitive, Sample.noIssuance).
Proof.
  apply (name_without_string_sends_nothing (rt := Sample.runtime) Sample.online
           Edge.noString Sample.noIssuance eq_refl).
Defined.

(** X25. The handlers that log request data in a template literal do so
    before anything else.  A callback whose [state] or [code] has no
    string ends there in either service: the handler throws a TypeError
    and the store and the call log are what they were, also for the id of
    a stored request.  POST /api/issue-credential for a user whose
    [userDetails] has no string answers 500 with that TypeError's message
    and sends nothing. *)
Theorem unprintable_input_ends_the_handler {rt : Runtime} (w : World)
    (req : Request) (v code user : JsVal)
    (si : IssueApp.State) (sv : VerifyApp.State) :
  getProp (req_body req) "state" = Ok v ->
  getProp (req_body req) "code" = Ok code ->
  stringifiable v && stringifiable code = false ->
  nullish user = false ->
  stringifiable (propOf user "userDetails") = false ->
  IssueApp.postRequestCallback w req si = (Throw typeErrorPrimitive, si) /\
  VerifyApp.postVerificationCallback w req sv = (Throw typeErrorPrimitive, sv) /\
  IssueApp.postIssueCredential w user req si =
    (Ok (issueFailed "Cannot convert object to primitive value"), si).
Proof.
  intros Hs Hc Hp Hu Hd. split; [ | split].
  - apply (issue_callback_unprintable w req si v code Hs Hc Hp).
  - apply (verify_callback_unprintable w req sv v code Hs Hc Hp).
  - apply (postIssueCredential_unprintable w user req si Hu Hd).
Qed.

Lemma unprintable_input_ends_the_handler_witness :
  IssueApp.postRequestCallback Sample.online Edge.noStringCode Sample.issueState
    = (Throw typeErrorPrimitive, Sample.issueState) /\
  VerifyApp.postVerificationCallback (rt := Sample.runtime) Sample.online
    Edge.noStringCode Sample.verifyState
    = (Throw typeErrorPrimitive, Sample.verifyState) /\
  IssueApp.postIssueCredential (rt := Sample.runtime) Sample.online
    (JObj [("userDetails", Edge.noString)]) Edge.noStringCode Sample.issueState
    = (Ok (issueFailed "Cannot convert object to primitive value"), Sample.issueState).
Proof.
  apply (unprintable_input_ends_the_handler (rt := Sample.runtime) Sample.online
           Edge.noStringCode (JStr "r1") Edge.noString
           (JObj [("userDetails", Edge.noString)]));
    reflexivity.
Defined.
